(** * Host windows of the Windows embedder: lifecycle, ownership and dispatch

    A shallow embedding of
    [shell/platform/windows/flutter_host_window.cc] and
    [shell/platform/windows/flutter_host_window_controller.cc].

    Embedded from [FlutterHostWindow]: the two constructors, the
    destructor, [GetOwnerWindow], [CloseOwnedPopups],
    [FindFirstEnabledDescendant], [HandleMessage] and [SetState]; from the
    helpers of its anonymous namespace: [ClampToVirtualScreen],
    [GetAnchorRectInScreenSpace], [GetOffsetBetweenWindows],
    [GetWindowSizeForClientSize], [SetInstanceProperty] and
    [GetInstanceProperty]; from [FlutterHostWindowController]:
    [Initialize], [CreateWindow_], [OnEngineShutdown] and [HandleMessage].

    Objects live in a heap indexed by address; the Win32 state the code
    reads back (window properties, the GW_OWNER relation) is kept in tables
    next to it, and every call that changes the outside world is appended to
    a chronological log.  Values the operating system or the engine computes
    are taken from an environment record [Env].  A computation that ends the
    process (a failed [FML_CHECK], a call through a null pointer) has no
    result: it is [None].

    A call into Win32 is logged and returns.  The messages the system sends
    to a window procedure before such a call returns ([DefWindowProc] for
    [WM_CLOSE] and [DestroyWindow] send the destroy notifications) are not
    run inside the call: they are events of their own, handled after it. *)

From Stdlib Require Import Floats ZArith Uint63 Bool Lia.
From stdpp Require Import gmap list sorting.

(** ** Win32 vocabulary *)

(** A window handle; [0] is the null handle.  Arithmetic on [LONG] is
    written without wrap-around: signed overflow is undefined in the
    source.  Where a statement depends on the range of a [LONG], the
    subtraction is [LONG_sub] and the conversion from a [double] is
    [LONG_of_double], which have no result outside the range. *)
Definition HWND := N.
Definition UINT := Z.
Definition DWORD := Z.
Definition WPARAM := Z.
Definition LPARAM := Z.
Definition LRESULT := Z.
Definition LONG := Z.
Definition FlutterViewId := Z.

(** The address of a [FlutterHostWindow] object; a nullable pointer is an
    [option ptr]. *)
Definition ptr := positive.

Module Win32.
Local Open Scope Z_scope.
Definition WM_DESTROY : UINT := 0x0002.
Definition WM_SIZE : UINT := 0x0005.
Definition WM_ACTIVATE : UINT := 0x0006.
Definition WM_CLOSE : UINT := 0x0010.
Definition WM_SHOWWINDOW : UINT := 0x0018.
Definition WM_GETMINMAXINFO : UINT := 0x0024.
Definition WM_NCDESTROY : UINT := 0x0082.
Definition WM_NCACTIVATE : UINT := 0x0086.
Definition WM_DPICHANGED : UINT := 0x02E0.
Definition WM_DWMCOLORIZATIONCOLORCHANGED : UINT := 0x0320.

Definition SIZE_RESTORED : WPARAM := 0.
Definition SIZE_MINIMIZED : WPARAM := 1.
Definition SIZE_MAXIMIZED : WPARAM := 2.
Definition WA_INACTIVE : Z := 0.
Definition TRUE : Z := 1.
Definition FALSE : Z := 0.

Definition SW_SHOWNORMAL : Z := 1.
Definition SW_SHOWMINIMIZED : Z := 2.
Definition SW_SHOWMAXIMIZED : Z := 3.
Definition SW_MAXIMIZE : Z := 3.
Definition SW_SHOW : Z := 5.
Definition SW_MINIMIZE : Z := 6.
Definition SW_RESTORE : Z := 9.

Definition WS_OVERLAPPEDWINDOW : DWORD := 0x00CF0000.
Definition WS_POPUP : DWORD := 0x80000000.
Definition CW_USEDEFAULT : Z := -2147483648.
Definition USER_DEFAULT_SCREEN_DPI : Z := 96.

Definition SWP_NOSIZE : Z := 0x0001.
Definition SWP_NOMOVE : Z := 0x0002.
Definition SWP_NOZORDER : Z := 0x0004.
Definition SWP_NOACTIVATE : Z := 0x0010.
Definition SWP_FRAMECHANGED : Z := 0x0020.

(** [LOWORD(x)] *)
Definition LOWORD (x : Z) : Z := Z.land x 0xFFFF.

Record RECT := { left : LONG; top : LONG; right : LONG; bottom : LONG }.
Record POINT := { x : LONG; y : LONG }.
End Win32.

(** [std::size_t] arithmetic (64 bits), on values in [0, 2^64). *)
Definition size_t_max : Z := (2 ^ 64 - 1)%Z.
(** [++n] *)
Definition size_t_inc (n : Z) : Z := if (n =? size_t_max)%Z then 0%Z else (n + 1)%Z.
(** [--n] *)
Definition size_t_dec (n : Z) : Z := if (n =? 0)%Z then size_t_max else (n - 1)%Z.
(** [a - b] *)
Definition size_t_sub (a b : Z) : Z := ((a - b) mod (size_t_max + 1))%Z.

(** ** Geometry ([flutter::Point], [flutter::Size], [flutter::Rect]) *)

(** A C++ [double] is a binary64 float. *)
Definition double := float.

(** [a > b] on doubles. *)
Definition double_gt (a b : double) : bool := PrimFloat.ltb b a.
(** [a != b] on doubles. *)
Definition double_ne (a b : double) : bool := negb (PrimFloat.eqb a b).
(** [std::isinf]. *)
Definition isinf (a : double) : bool := PrimFloat.is_infinity a.
(** [std::isfinite]. *)
Definition isfinite (a : double) : bool := PrimFloat.is_finite a.
(** [static_cast<double>(n)] for a non-negative integer below [2^63]. *)
Definition double_of_Z (n : Z) : double := PrimFloat.of_uint63 (Uint63.of_Z n).

Module flutter.
Record Point := { x : double; y : double }.
Record Size := { width : double; height : double }.
Record Rect := { origin : Point; size : Size }.
End flutter.

(** ** Creation settings ([common/windowing.h]) *)

(** The header that declares these types is not among the sources at hand;
    the enumerators and members below are the ones the two source files
    use. *)
Inductive WindowArchetype := kRegular | kPopup.
Inductive WindowState := kRestored | kMaximized | kMinimized.

Global Instance WindowArchetype_eq_dec : EqDecision WindowArchetype.
Proof. solve_decision. Defined.
Global Instance WindowState_eq_dec : EqDecision WindowState.
Proof. solve_decision. Defined.

(** The constructor reads one field of the positioner, [anchor_rect]; the
    remaining fields are only handed on to [PlaceWindow] and are kept opaque
    in [placement_rules]. *)
Record WindowPositioner := {
  anchor_rect : option flutter.Rect;
  placement_rules : Z
}.

Module WindowCreationSettings.
Record t := {
  archetype : WindowArchetype;
  parent_view_id : option FlutterViewId;
  positioner : option WindowPositioner;
  size : flutter.Size;
  min_size : option flutter.Size;
  max_size : option flutter.Size;
  state : option WindowState;
  title : option (list Z)
}.
End WindowCreationSettings.

(** The view an engine hands back from [CreateView]: its id and the handle
    of its rendering-surface window. *)
Record FlutterWindowsView := {
  view_id_of : FlutterViewId;
  view_window_handle : HWND
}.

(** ** The window entity *)

(** The data members of the class, as the source file uses them; a pointer
    to a window is its address in the heap of the world, and
    [view_controller_] holds the view it owns. *)
Record FlutterHostWindow := {
  archetype_ : WindowArchetype;
  window_handle_ : HWND;
  child_content_ : HWND;
  view_controller_ : option FlutterWindowsView;
  owned_windows_ : gset ptr;
  num_owned_popups_ : Z;
  min_size_ : option flutter.Size;
  max_size_ : option flutter.Size;
  state_ : option WindowState;
  pending_show_ : bool;
  enable_redraw_non_client_as_inactive_ : bool;
  offset_from_owner_ : Win32.POINT
}.

(** ** The application-facing message *)

Module WindowsMessage.
Record t := {
  view_id : FlutterViewId;
  hwnd : HWND;
  message : UINT;
  wParam : WPARAM;
  lParam : LPARAM;
  result : LRESULT;
  handled : bool
}.
End WindowsMessage.

(** ** The outside world *)

(** Calls that change something outside the object graph, in the order the
    code makes them. *)
Inductive Effect :=
  | OnMessage (m : WindowsMessage.t)
  | SetFocus (h : HWND)
  | PostMessage (h : HWND) (msg : UINT) (wp : WPARAM) (lp : LPARAM)
  | DestroyWindow (h : HWND)
  | SetWindowPos (h : HWND) (px py cx cy : LONG) (flags : Z)
  | MoveWindow (h : HWND) (px py cx cy : LONG)
  | SetParent (child parent : HWND)
  | SetWindowPlacement (h : HWND) (show_cmd : Z)
  | UpdateTheme (h : HWND)
  | SetMinTrackSize (at_ : LPARAM) (p : Win32.POINT)
  | SetMaxTrackSize (at_ : LPARAM) (p : Win32.POINT)
  | DefWindowProc (h : HWND) (msg : UINT) (wp : WPARAM) (lp : LPARAM).

Record World := {
  (** the live [FlutterHostWindow] objects, by address *)
  heap : gmap ptr FlutterHostWindow;
  (** the window property set by [SetInstanceProperty] *)
  instance_property : gmap HWND ptr;
  (** [GetWindow(h, GW_OWNER)] *)
  gw_owner : gmap HWND HWND;
  effects : list Effect
}.

Definition emit (e : Effect) (w : World) : World :=
  {| heap := heap w; instance_property := instance_property w;
     gw_owner := gw_owner w; effects := effects w ++ [e] |}.

Definition with_heap (h : gmap ptr FlutterHostWindow) (w : World) : World :=
  {| heap := h; instance_property := instance_property w;
     gw_owner := gw_owner w; effects := effects w |}.

(** [*p = v] *)
Definition store (p : ptr) (v : FlutterHostWindow) (w : World) : World :=
  with_heap (<[p := v]> (heap w)) w.

(** [GetInstanceProperty] / [FlutterHostWindow::GetThisFromHandle]: the null
    pointer for the null handle and for a handle without the property. *)
Definition GetThisFromHandle (w : World) (h : HWND) : option ptr :=
  if (h =? 0)%N then None else instance_property w !! h.

(** [GetWindow(h, GW_OWNER)]; the null handle when there is none. *)
Definition GetWindow_GW_OWNER (w : World) (h : HWND) : HWND :=
  if (h =? 0)%N then 0%N else default 0%N (gw_owner w !! h).

(** The messages handed to the embedder callback, oldest first. *)
Fixpoint delivered_in (l : list Effect) : list WindowsMessage.t :=
  match l with
  | [] => []
  | OnMessage m :: l' => m :: delivered_in l'
  | _ :: l' => delivered_in l'
  end.

Definition delivered (w : World) : list WindowsMessage.t :=
  delivered_in (effects w).

(** What the operating system and the engine answer.  The helpers of the
    anonymous namespace that only wrap Win32 queries
    ([GetWindowSizeForClientSize], [GetFrameSizeForWindowSize],
    [GetClientRectInScreenSpace], [GetOutputRect], [GetOffsetBetweenWindows])
    are answers of the environment as well, and so is [PlaceWindow], which is
    defined in [common/windowing.cc]. *)
Record Env := {
  (** [window_controller_->GetHostWindow(id)->GetWindowHandle()] *)
  GetHostWindowHandle : FlutterViewId -> HWND;
  GetDpiForHWND : HWND -> Z;
  GetWindowSizeForClientSize :
    flutter.Size -> option flutter.Size -> option flutter.Size ->
    DWORD -> DWORD -> HWND -> option flutter.Size;
  GetFrameSizeForWindowSize :
    flutter.Size -> DWORD -> DWORD -> HWND -> flutter.Size;
  GetClientRectInScreenSpace : HWND -> flutter.Rect;
  (** [GetOutputRect] of the anchor rectangle cast to a [RECT] *)
  GetOutputRect : flutter.Rect -> flutter.Rect;
  PlaceWindow :
    WindowPositioner -> flutter.Size -> flutter.Rect -> flutter.Rect ->
    flutter.Rect -> flutter.Rect;
  (** [engine->CreateView(...)]; [None] is the null view *)
  engine_CreateView :
    double -> double -> option flutter.Size -> option flutter.Size ->
    option FlutterWindowsView;
  engine_running : bool;
  (** [IsClassRegistered(kWindowClassName)], or else the outcome of
      [RegisterClassEx] *)
  window_class_registered : bool;
  (** the handle [CreateWindowEx] returns for a style, an extended style, a
      rectangle and an owner; [0] when it fails *)
  CreateWindowEx : DWORD -> DWORD -> flutter.Rect -> HWND -> HWND;
  (** [DwmGetWindowAttribute(h, DWMWA_EXTENDED_FRAME_BOUNDS, ...)] *)
  DwmExtendedFrameBounds : HWND -> Win32.RECT;
  GetWindowRect : HWND -> Win32.RECT;
  GetClientRect : HWND -> Win32.RECT;
  GetOffsetBetweenWindows : HWND -> HWND -> Win32.POINT;
  (** [SM_CXVIRTUALSCREEN], [SM_CYVIRTUALSCREEN] *)
  virtual_screen : flutter.Size;
  (** the [RECT] an [LPARAM] points to *)
  RECT_at : LPARAM -> Win32.RECT;
  (** [lifecycle_manager()->WindowProc(...)] *)
  lifecycle_WindowProc : HWND -> UINT -> WPARAM -> LPARAM -> bool;
  DefWindowProc_result : HWND -> UINT -> WPARAM -> LPARAM -> LRESULT;
  (** [engine_->GetViewFromTopLevelWindow(hwnd)]; [None] is the null view *)
  GetViewFromTopLevelWindow : HWND -> option FlutterViewId
}.

(** ** Helpers of the anonymous namespace *)

(** [static_cast<double>(n)] for a [LONG]. *)
Definition double_of_LONG (n : LONG) : double :=
  if (n <? 0)%Z then PrimFloat.opp (double_of_Z (- n)) else double_of_Z n.

(** [a - b] on [LONG]: the difference, and no result, [None], when it is no
    32-bit integer (signed overflow is undefined). *)
Definition LONG_sub (a b : LONG) : option LONG :=
  let r := (a - b)%Z in
  if (- 2 ^ 31 <=? r)%Z && (r <? 2 ^ 31)%Z then Some r else None.

(** [static_cast<LONG>(d)], and the conversion of a [double] that is
    assigned to a [LONG]: the value of [d] without its fraction.  The
    conversion is undefined, [None], when that is no 32-bit integer. *)
Definition LONG_of_double (d : double) : option LONG :=
  match Prim2SF d with
  | SpecFloat.S754_zero _ => Some 0%Z
  | SpecFloat.S754_finite s m e =>
      let magnitude :=
        if (0 <=? e)%Z then (Z.pos m * 2 ^ e)%Z else (Z.pos m / 2 ^ (- e))%Z in
      let v := if s then (- magnitude)%Z else magnitude in
      if (- 2 ^ 31 <=? v)%Z && (v <? 2 ^ 31)%Z then Some v else None
  | _ => None
  end.

(** [static_cast<double>(dpi) / USER_DEFAULT_SCREEN_DPI] *)
Definition scale_factor_of (dpi : Z) : double :=
  PrimFloat.div (double_of_Z dpi) (double_of_Z Win32.USER_DEFAULT_SCREEN_DPI).

Definition rect_left (r : flutter.Rect) : double := flutter.x (flutter.origin r).
Definition rect_top (r : flutter.Rect) : double := flutter.y (flutter.origin r).
Definition rect_width (r : flutter.Rect) : double :=
  flutter.width (flutter.size r).
Definition rect_height (r : flutter.Rect) : double :=
  flutter.height (flutter.size r).

Definition GetAnchorRectInScreenSpace (env : Env) (positioner : WindowPositioner)
    (owner_hwnd : HWND) (owner_rect : flutter.Rect) : flutter.Rect :=
  match anchor_rect positioner with
  | Some a =>
      let dpr := scale_factor_of (GetDpiForHWND env owner_hwnd) in
      {| flutter.origin :=
           {| flutter.x := PrimFloat.add (rect_left owner_rect)
                             (PrimFloat.mul (rect_left a) dpr);
              flutter.y := PrimFloat.add (rect_top owner_rect)
                             (PrimFloat.mul (rect_top a) dpr) |};
         flutter.size :=
           {| flutter.width := PrimFloat.mul (rect_width a) dpr;
              flutter.height := PrimFloat.mul (rect_height a) dpr |} |}
  | None =>
      let frame_rect := DwmExtendedFrameBounds env owner_hwnd in
      {| flutter.origin :=
           {| flutter.x := double_of_LONG (Win32.left frame_rect);
              flutter.y := double_of_LONG (Win32.top frame_rect) |};
         flutter.size :=
           {| flutter.width :=
                double_of_LONG (Win32.right frame_rect - Win32.left frame_rect)%Z;
              flutter.height :=
                double_of_LONG (Win32.bottom frame_rect - Win32.top frame_rect)%Z |} |}
  end.

(** [std::clamp(v, lo, hi)] *)
Definition double_clamp (v lo hi : double) : double :=
  if PrimFloat.ltb v lo then lo else if PrimFloat.ltb hi v then hi else v.

Definition ClampToVirtualScreen (env : Env) (s : flutter.Size) : flutter.Size :=
  {| flutter.width :=
       double_clamp (flutter.width s) 0%float (flutter.width (virtual_screen env));
     flutter.height :=
       double_clamp (flutter.height s) 0%float
         (flutter.height (virtual_screen env)) |}.

(** A [std::set] of pointers is walked in ascending address order. *)
Definition in_address_order (s : gset ptr) : list ptr :=
  merge_sort Pos.le (elements s).

(** ** FlutterHostWindow *)

Module FlutterHostWindow.
Local Open Scope Z_scope.

Definition set_archetype_ (v : WindowArchetype) (e : FlutterHostWindow) :=
  {| archetype_ := v; window_handle_ := window_handle_ e;
     child_content_ := child_content_ e;
     view_controller_ := view_controller_ e;
     owned_windows_ := owned_windows_ e;
     num_owned_popups_ := num_owned_popups_ e;
     min_size_ := min_size_ e; max_size_ := max_size_ e;
     state_ := state_ e; pending_show_ := pending_show_ e;
     enable_redraw_non_client_as_inactive_ :=
       enable_redraw_non_client_as_inactive_ e;
     offset_from_owner_ := offset_from_owner_ e |}.

Definition set_window_handle_ (v : HWND) (e : FlutterHostWindow) :=
  {| archetype_ := archetype_ e; window_handle_ := v;
     child_content_ := child_content_ e;
     view_controller_ := view_controller_ e;
     owned_windows_ := owned_windows_ e;
     num_owned_popups_ := num_owned_popups_ e;
     min_size_ := min_size_ e; max_size_ := max_size_ e;
     state_ := state_ e; pending_show_ := pending_show_ e;
     enable_redraw_non_client_as_inactive_ :=
       enable_redraw_non_client_as_inactive_ e;
     offset_from_owner_ := offset_from_owner_ e |}.

Definition set_child_content_ (v : HWND) (e : FlutterHostWindow) :=
  {| archetype_ := archetype_ e; window_handle_ := window_handle_ e;
     child_content_ := v;
     view_controller_ := view_controller_ e;
     owned_windows_ := owned_windows_ e;
     num_owned_popups_ := num_owned_popups_ e;
     min_size_ := min_size_ e; max_size_ := max_size_ e;
     state_ := state_ e; pending_show_ := pending_show_ e;
     enable_redraw_non_client_as_inactive_ :=
       enable_redraw_non_client_as_inactive_ e;
     offset_from_owner_ := offset_from_owner_ e |}.

Definition set_view_controller_ (v : option FlutterWindowsView)
    (e : FlutterHostWindow) :=
  {| archetype_ := archetype_ e; window_handle_ := window_handle_ e;
     child_content_ := child_content_ e;
     view_controller_ := v;
     owned_windows_ := owned_windows_ e;
     num_owned_popups_ := num_owned_popups_ e;
     min_size_ := min_size_ e; max_size_ := max_size_ e;
     state_ := state_ e; pending_show_ := pending_show_ e;
     enable_redraw_non_client_as_inactive_ :=
       enable_redraw_non_client_as_inactive_ e;
     offset_from_owner_ := offset_from_owner_ e |}.

Definition set_owned_windows_ (v : gset ptr) (e : FlutterHostWindow) :=
  {| archetype_ := archetype_ e; window_handle_ := window_handle_ e;
     child_content_ := child_content_ e;
     view_controller_ := view_controller_ e;
     owned_windows_ := v;
     num_owned_popups_ := num_owned_popups_ e;
     min_size_ := min_size_ e; max_size_ := max_size_ e;
     state_ := state_ e; pending_show_ := pending_show_ e;
     enable_redraw_non_client_as_inactive_ :=
       enable_redraw_non_client_as_inactive_ e;
     offset_from_owner_ := offset_from_owner_ e |}.

Definition set_num_owned_popups_ (v : Z) (e : FlutterHostWindow) :=
  {| archetype_ := archetype_ e; window_handle_ := window_handle_ e;
     child_content_ := child_content_ e;
     view_controller_ := view_controller_ e;
     owned_windows_ := owned_windows_ e;
     num_owned_popups_ := v;
     min_size_ := min_size_ e; max_size_ := max_size_ e;
     state_ := state_ e; pending_show_ := pending_show_ e;
     enable_redraw_non_client_as_inactive_ :=
       enable_redraw_non_client_as_inactive_ e;
     offset_from_owner_ := offset_from_owner_ e |}.

Definition set_min_size_ (v : option flutter.Size) (e : FlutterHostWindow) :=
  {| archetype_ := archetype_ e; window_handle_ := window_handle_ e;
     child_content_ := child_content_ e;
     view_controller_ := view_controller_ e;
     owned_windows_ := owned_windows_ e;
     num_owned_popups_ := num_owned_popups_ e;
     min_size_ := v; max_size_ := max_size_ e;
     state_ := state_ e; pending_show_ := pending_show_ e;
     enable_redraw_non_client_as_inactive_ :=
       enable_redraw_non_client_as_inactive_ e;
     offset_from_owner_ := offset_from_owner_ e |}.

Definition set_max_size_ (v : option flutter.Size) (e : FlutterHostWindow) :=
  {| archetype_ := archetype_ e; window_handle_ := window_handle_ e;
     child_content_ := child_content_ e;
     view_controller_ := view_controller_ e;
     owned_windows_ := owned_windows_ e;
     num_owned_popups_ := num_owned_popups_ e;
     min_size_ := min_size_ e; max_size_ := v;
     state_ := state_ e; pending_show_ := pending_show_ e;
     enable_redraw_non_client_as_inactive_ :=
       enable_redraw_non_client_as_inactive_ e;
     offset_from_owner_ := offset_from_owner_ e |}.

Definition set_state_ (v : option WindowState) (e : FlutterHostWindow) :=
  {| archetype_ := archetype_ e; window_handle_ := window_handle_ e;
     child_content_ := child_content_ e;
     view_controller_ := view_controller_ e;
     owned_windows_ := owned_windows_ e;
     num_owned_popups_ := num_owned_popups_ e;
     min_size_ := min_size_ e; max_size_ := max_size_ e;
     state_ := v; pending_show_ := pending_show_ e;
     enable_redraw_non_client_as_inactive_ :=
       enable_redraw_non_client_as_inactive_ e;
     offset_from_owner_ := offset_from_owner_ e |}.

Definition set_pending_show_ (v : bool) (e : FlutterHostWindow) :=
  {| archetype_ := archetype_ e; window_handle_ := window_handle_ e;
     child_content_ := child_content_ e;
     view_controller_ := view_controller_ e;
     owned_windows_ := owned_windows_ e;
     num_owned_popups_ := num_owned_popups_ e;
     min_size_ := min_size_ e; max_size_ := max_size_ e;
     state_ := state_ e; pending_show_ := v;
     enable_redraw_non_client_as_inactive_ :=
       enable_redraw_non_client_as_inactive_ e;
     offset_from_owner_ := offset_from_owner_ e |}.

Definition set_enable_redraw_non_client_as_inactive_ (v : bool)
    (e : FlutterHostWindow) :=
  {| archetype_ := archetype_ e; window_handle_ := window_handle_ e;
     child_content_ := child_content_ e;
     view_controller_ := view_controller_ e;
     owned_windows_ := owned_windows_ e;
     num_owned_popups_ := num_owned_popups_ e;
     min_size_ := min_size_ e; max_size_ := max_size_ e;
     state_ := state_ e; pending_show_ := pending_show_ e;
     enable_redraw_non_client_as_inactive_ := v;
     offset_from_owner_ := offset_from_owner_ e |}.

Definition set_offset_from_owner_ (v : Win32.POINT) (e : FlutterHostWindow) :=
  {| archetype_ := archetype_ e; window_handle_ := window_handle_ e;
     child_content_ := child_content_ e;
     view_controller_ := view_controller_ e;
     owned_windows_ := owned_windows_ e;
     num_owned_popups_ := num_owned_popups_ e;
     min_size_ := min_size_ e; max_size_ := max_size_ e;
     state_ := state_ e; pending_show_ := pending_show_ e;
     enable_redraw_non_client_as_inactive_ :=
       enable_redraw_non_client_as_inactive_ e;
     offset_from_owner_ := v |}.

(** Modelled from the spec: the default member initialisers of the class,
    which [flutter_host_window.h] declares and the sources at hand do not
    include.  The handle is "unset until native creation succeeds", the
    owned set starts empty with a popup count of zero, [pending_show] is
    "true after creation", the inactive-redraw flag is cleared only
    "transiently while closing owned popups", and no size bound, state or
    content is recorded before the constructor assigns one. *)
Definition default_members : FlutterHostWindow :=
  {| archetype_ := kRegular; window_handle_ := 0%N; child_content_ := 0%N;
     view_controller_ := None; owned_windows_ := ∅;
     num_owned_popups_ := 0%Z; min_size_ := None; max_size_ := None;
     state_ := None; pending_show_ := true;
     enable_redraw_non_client_as_inactive_ := true;
     offset_from_owner_ := {| Win32.x := 0%Z; Win32.y := 0%Z |} |}.

(** *** The constructor *)

(** The owner handle the constructor resolves from [parent_view_id]. *)
Definition owner_of (env : Env) (settings : WindowCreationSettings.t) : HWND :=
  match WindowCreationSettings.parent_view_id settings with
  | Some id => GetHostWindowHandle env id
  | None => 0%N
  end.

(** The archetype switch: [false] when a branch logs its error and returns. *)
Definition archetype_preconditions (a : WindowArchetype) (owner : HWND)
    (positioner : option WindowPositioner) : bool :=
  match a with
  | kRegular =>
      if negb (owner =? 0)%N then false
      else if bool_decide (is_Some positioner) then false
      else true
  | kPopup =>
      if negb (bool_decide (is_Some positioner)) then false
      else if (owner =? 0)%N then false
      else true
  end.

Definition window_style_of (a : WindowArchetype) : DWORD :=
  match a with
  | kRegular => Z.lor 0 Win32.WS_OVERLAPPEDWINDOW
  | kPopup => Z.lor 0 Win32.WS_POPUP
  end.

(** "Validate size constraints": [false] on "Invalid size constraints." *)
Definition size_constraints_valid (min_size_logical max_size_logical :
    option flutter.Size) : bool :=
  match min_size_logical, max_size_logical with
  | Some mn, Some mx =>
      negb (double_gt (flutter.width mn) (flutter.width mx)
            || double_gt (flutter.height mn) (flutter.height mx))
  | _, _ => true
  end.

(** A bound with an infinite width or height is reset to [std::nullopt]. *)
Definition drop_infinite (s : option flutter.Size) : option flutter.Size :=
  match s with
  | Some v =>
      if isinf (flutter.width v) || isinf (flutter.height v) then None
      else Some v
  | None => None
  end.

Definition scale_size (scale_factor : double) (s : flutter.Size) : flutter.Size :=
  {| flutter.width := PrimFloat.mul (flutter.width s) scale_factor;
     flutter.height := PrimFloat.mul (flutter.height s) scale_factor |}.

(** The lambda that computes [initial_window_rect]. *)
Definition initial_window_rect (env : Env) (settings : WindowCreationSettings.t)
    (min_size_logical max_size_logical : option flutter.Size)
    (window_style extended_window_style : DWORD) (owner : HWND) : flutter.Rect :=
  let window_size :=
    GetWindowSizeForClientSize env (WindowCreationSettings.size settings)
      min_size_logical max_size_logical window_style extended_window_style
      owner in
  let use_default :=
    {| flutter.origin :=
         {| flutter.x := double_of_LONG Win32.CW_USEDEFAULT;
            flutter.y := double_of_LONG Win32.CW_USEDEFAULT |};
       flutter.size :=
         match window_size with
         | Some ws => ws
         | None =>
             {| flutter.width := double_of_LONG Win32.CW_USEDEFAULT;
                flutter.height := double_of_LONG Win32.CW_USEDEFAULT |}
         end |} in
  match negb (owner =? 0)%N, window_size,
        WindowCreationSettings.positioner settings with
  | true, Some ws, Some p =>
      let frame_size :=
        GetFrameSizeForWindowSize env ws window_style extended_window_style
          owner in
      let owner_rect := GetClientRectInScreenSpace env owner in
      let anchor := GetAnchorRectInScreenSpace env p owner owner_rect in
      let output_rect := GetOutputRect env anchor in
      let rect :=
        PlaceWindow env p frame_size anchor
          (if bool_decide (is_Some (anchor_rect p)) then owner_rect else anchor)
          output_rect in
      {| flutter.origin := flutter.origin rect;
         flutter.size :=
           {| flutter.width :=
                PrimFloat.sub
                  (PrimFloat.add (rect_width rect) (flutter.width ws))
                  (flutter.width frame_size);
              flutter.height :=
                PrimFloat.sub
                  (PrimFloat.add (rect_height rect) (flutter.height ws))
                  (flutter.height frame_size) |} |}
  | _, _, _ => use_default
  end.

(** What a successful [CreateWindowEx] leaves behind in Win32: the owner
    relation of the new window, and the instance property that [WndProc]
    sets while handling [WM_NCCREATE]. *)
Definition native_window_created (hwnd owner : HWND) (this : ptr) (w : World)
    : World :=
  {| heap := heap w;
     instance_property := <[hwnd := this]> (instance_property w);
     gw_owner :=
       if (owner =? 0)%N then gw_owner w else <[hwnd := owner]> (gw_owner w);
     effects := effects w |}.

(** [SetChildContent], for the object [e] under construction. *)
Definition SetChildContent (env : Env) (content : HWND)
    (ew : FlutterHostWindow * World) : FlutterHostWindow * World :=
  let e := set_child_content_ content (fst ew) in
  let client_rect := GetClientRect env (window_handle_ e) in
  (e,
   emit (MoveWindow content (Win32.left client_rect) (Win32.top client_rect)
           (Win32.right client_rect - Win32.left client_rect)%Z
           (Win32.bottom client_rect - Win32.top client_rect)%Z)
     (emit (SetParent content (window_handle_ e)) (snd ew))).

(** "Update the properties of the owner window."  [None] when the instance
    property of the owner points to no live object. *)
Definition link_to_owner (owner : HWND) (this : ptr) (a : WindowArchetype)
    (w : World) : option World :=
  match GetThisFromHandle w owner with
  | Some owner_window =>
      oe ← heap w !! owner_window;
      let oe1 := set_owned_windows_ ({[this]} ∪ owned_windows_ oe) oe in
      let oe2 :=
        if bool_decide (a = kPopup)
        then set_num_owned_popups_ (size_t_inc (num_owned_popups_ oe1)) oe1
        else oe1 in
      Some (store owner_window oe2 w)
  | None => Some w
  end.

(** [FlutterHostWindow(controller, settings)], run on the fresh object at
    address [this].  The result is the world with the object stored at
    [this], or [None] when an [FML_CHECK] ends the process (or a dangling
    pointer is followed). *)
Definition constructor (env : Env) (w : World) (this : ptr)
    (settings : WindowCreationSettings.t) : option World :=
  let e0 := set_archetype_ (WindowCreationSettings.archetype settings)
              default_members in
  let owner := owner_of env settings in
  (* Check preconditions and set window styles based on window type. *)
  if negb (archetype_preconditions (archetype_ e0) owner
             (WindowCreationSettings.positioner settings))
  then Some (store this e0 w)
  else
  let window_style := window_style_of (archetype_ e0) in
  let extended_window_style := 0%Z in
  (* Validate size constraints. *)
  if negb (size_constraints_valid (WindowCreationSettings.min_size settings)
             (WindowCreationSettings.max_size settings))
  then Some (store this e0 w)
  else
  let min_size_logical :=
    drop_infinite (WindowCreationSettings.min_size settings) in
  let max_size_logical :=
    drop_infinite (WindowCreationSettings.max_size settings) in
  (* Calculate physical size. *)
  let scale_factor := scale_factor_of (GetDpiForHWND env owner) in
  let e1 :=
    match min_size_logical with
    | Some mn => set_min_size_ (Some (scale_size scale_factor mn)) e0
    | None => e0
    end in
  let e2 :=
    match max_size_logical with
    | Some mx => set_max_size_ (Some (scale_size scale_factor mx)) e1
    | None => e1
    end in
  let rect :=
    initial_window_rect env settings min_size_logical max_size_logical
      window_style extended_window_style owner in
  (* Set up the view. *)
  match engine_CreateView env (rect_width rect) (rect_height rect)
          (min_size_ e2) (max_size_ e2) with
  | None => Some (store this e2 w)
  | Some view =>
  let e3 := set_view_controller_ (Some view) e2 in
  (* FML_CHECK(engine->running()) *)
  if negb (engine_running env) then None else
  (* view_controller_->view() is the view just moved in: never null here. *)
  (* Register the window class. *)
  if negb (window_class_registered env) then Some (store this e3 w) else
  (* Create the native window.  A call that fails is taken to fail before
     WM_NCCREATE reaches WndProc, so that window_handle_ is still null. *)
  let hwnd := CreateWindowEx env extended_window_style window_style rect owner in
  if (hwnd =? 0)%N then Some (store this e3 w) else
  (* WndProc has handled WM_NCCREATE: window->window_handle_ = hwnd. *)
  let e4 := set_window_handle_ hwnd e3 in
  let w1 := native_window_created hwnd owner this w in
  (* Adjust the window position to the frame. *)
  let frame_rect := DwmExtendedFrameBounds env hwnd in
  let window_rect := GetWindowRect env hwnd in
  let left_dropshadow_width :=
    (Win32.left frame_rect - Win32.left window_rect)%Z in
  let top_dropshadow_height :=
    (Win32.top window_rect - Win32.top frame_rect)%Z in
  let w2 :=
    emit (SetWindowPos hwnd
            (Win32.left window_rect - left_dropshadow_width)%Z
            (Win32.top window_rect - top_dropshadow_height)%Z 0%Z 0%Z
            (Z.lor (Z.lor Win32.SWP_NOSIZE Win32.SWP_NOZORDER)
               Win32.SWP_NOACTIVATE)) w1 in
  let e5 :=
    if negb (owner =? 0)%N then
      let owner_window := GetWindow_GW_OWNER w2 hwnd in
      if negb (owner_window =? 0)%N
      then set_offset_from_owner_
             (GetOffsetBetweenWindows env owner_window hwnd) e4
      else e4
    else e4 in
  (* Update the properties of the owner window. *)
  w3 ← link_to_owner owner this (archetype_ e5) w2;
  let w4 := emit (UpdateTheme hwnd) w3 in
  let '(e6, w5) := SetChildContent env (view_window_handle view) (e5, w4) in
  let e7 :=
    set_state_
      (Some (default kRestored (WindowCreationSettings.state settings))) e6 in
  let e8 := set_window_handle_ hwnd e7 in
  Some (store this e8 w5)
  end.

(** [~FlutterHostWindow()], followed by the release of the object, as run
    by the [std::unique_ptr] that owns it.  [RemoveProp] fails on the null
    handle and leaves the table as it is. *)
Definition destructor (w : World) (this : ptr) : World :=
  match heap w !! this with
  | Some e =>
      let hwnd := window_handle_ e in
      let props :=
        if (hwnd =? 0)%N then instance_property w
        else delete hwnd (instance_property w) in
      let w1 :=
        {| heap := delete this (heap w); instance_property := props;
           gw_owner := gw_owner w; effects := effects w |} in
      if bool_decide (is_Some (view_controller_ e))
      then emit (DestroyWindow hwnd) w1 else w1
  | None => w
  end.

Definition GetWindowHandle (e : FlutterHostWindow) : HWND := window_handle_ e.
Definition GetState (e : FlutterHostWindow) : option WindowState := state_ e.
Definition GetArchetype (e : FlutterHostWindow) : WindowArchetype :=
  archetype_ e.

(** [GetOwnerWindow()] *)
Definition GetOwnerWindow (w : World) (e : FlutterHostWindow) : option ptr :=
  let owner_window_handle := GetWindow_GW_OWNER w (window_handle_ e) in
  if negb (owner_window_handle =? 0)%N
  then GetThisFromHandle w owner_window_handle
  else None.

(** *** CloseOwnedPopups *)

(** [p->archetype_ == WindowArchetype::kPopup], for a live object. *)
Definition is_popup (w : World) (p : ptr) : bool :=
  match heap w !! p with
  | Some o => bool_decide (archetype_ o = kPopup)
  | None => false
  end.

(** The members of a set of windows that are popups. *)
Definition popups_in (w : World) (s : gset ptr) : gset ptr :=
  filter (λ p, is_popup w p = true) s.

(** The body of the loop over [popups], for one popup.  [PostMessage] puts
    the message into the queue of the window's thread and returns; the
    message is handled once the code that runs now has returned to the
    message loop. *)
Definition close_popup (w : World) (popup : ptr) : option World :=
  pe ← heap w !! popup;
  let owner_handle := GetWindow_GW_OWNER w (window_handle_ pe) in
  match GetThisFromHandle w owner_handle with
  | Some owner =>
      oe ← heap w !! owner;
      let oe1 := set_enable_redraw_non_client_as_inactive_ false oe in
      let w1 := store owner oe1 w in
      let w2 := emit (PostMessage (GetWindowHandle pe) Win32.WM_CLOSE 0 0) w1 in
      let oe2 := set_enable_redraw_non_client_as_inactive_ true oe1 in
      let w3 := store owner oe2 w2 in
      if (num_owned_popups_ oe2 =? 0)%Z
      then Some (emit (SetWindowPos owner_handle 0 0 0 0
                         (Z.lor (Z.lor (Z.lor Win32.SWP_NOMOVE Win32.SWP_NOSIZE)
                                   Win32.SWP_NOZORDER) Win32.SWP_FRAMECHANGED))
                   w3)
      else Some w3
  | None => Some w
  end.

Fixpoint close_popups (popups : list ptr) (w : World) : option World :=
  match popups with
  | [] => Some w
  | popup :: rest => w' ← close_popup w popup; close_popups rest w'
  end.

(** [CloseOwnedPopups()] on the object at [this].  The local set [popups]
    is walked in ascending address order.  [None] stands for following a
    dangling pointer. *)
Definition CloseOwnedPopups (w : World) (this : ptr) : option (World * Z) :=
  e ← heap w !! this;
  if (num_owned_popups_ e =? 0)%Z then Some (w, 0%Z) else
  if negb (bool_decide (owned_windows_ e ⊆ dom (heap w))) then None else
  let popups := popups_in w (owned_windows_ e) in
  let w1 :=
    store this (set_owned_windows_ (owned_windows_ e ∖ popups) e) w in
  previous_num_owned_popups ← num_owned_popups_ <$> heap w1 !! this;
  w2 ← close_popups (in_address_order popups) w1;
  current ← num_owned_popups_ <$> heap w2 !! this;
  Some (w2, size_t_sub previous_num_owned_popups current).

(** *** HandleMessage *)

(** The [WM_DESTROY] case. [None] is the failed
    [FML_CHECK(owner_window->num_owned_popups_ > 0)]. *)
Definition on_destroy (w : World) (this : ptr) (e : FlutterHostWindow)
    : option World :=
  if (window_handle_ e =? 0)%N then Some w else
  match archetype_ e with
  | kRegular => Some w
  | kPopup =>
      match GetOwnerWindow w e with
      | Some owner_window =>
          oe ← heap w !! owner_window;
          let oe1 := set_owned_windows_ (owned_windows_ oe ∖ {[this]}) oe in
          if negb (0 <? num_owned_popups_ oe1)%Z then None else
          let oe2 :=
            set_num_owned_popups_ (size_t_dec (num_owned_popups_ oe1)) oe1 in
          let w1 := store owner_window oe2 w in
          Some (if negb (child_content_ oe2 =? 0)%N
                then emit (SetFocus (child_content_ oe2)) w1
                else w1)
      | None => Some w
      end
  end.

(** The lambda that picks [show_cmd]; [None] is the failed
    [FML_CHECK(state_.has_value())]. *)
Definition show_cmd_of (e : FlutterHostWindow) : option Z :=
  if bool_decide (archetype_ e = kRegular) then
    match state_ e with
    | Some kRestored => Some Win32.SW_SHOW
    | Some kMaximized => Some Win32.SW_SHOWMAXIMIZED
    | Some kMinimized => Some Win32.SW_SHOWMINIMIZED
    | None => None
    end
  else Some Win32.SW_SHOWNORMAL.

(** The [WM_GETMINMAXINFO] case.  The members of [MINMAXINFO] are [LONG]s:
    a size is converted as it is assigned, and there is no result, [None],
    when a difference or a conversion is no [LONG]. *)
Definition on_getminmaxinfo (env : Env) (w : World) (e : FlutterHostWindow)
    (hwnd : HWND) (lparam : LPARAM) : option World :=
  let window_rect := GetWindowRect env hwnd in
  let client_rect := GetClientRect env hwnd in
  window_width ← LONG_sub (Win32.right window_rect) (Win32.left window_rect);
  client_width ← LONG_sub (Win32.right client_rect) (Win32.left client_rect);
  non_client_width ← LONG_sub window_width client_width;
  window_height ← LONG_sub (Win32.bottom window_rect) (Win32.top window_rect);
  client_height ← LONG_sub (Win32.bottom client_rect) (Win32.top client_rect);
  non_client_height ← LONG_sub window_height client_height;
  let grow (s : flutter.Size) :=
    ClampToVirtualScreen env
      {| flutter.width :=
           PrimFloat.add (flutter.width s) (double_of_LONG non_client_width);
         flutter.height :=
           PrimFloat.add (flutter.height s) (double_of_LONG non_client_height) |} in
  let track (s : flutter.Size) : option Win32.POINT :=
    px ← LONG_of_double (flutter.width (grow s));
    py ← LONG_of_double (flutter.height (grow s));
    Some {| Win32.x := px; Win32.y := py |} in
  w1 ←
    match min_size_ e with
    | Some mn => p ← track mn; Some (emit (SetMinTrackSize lparam p) w)
    | None => Some w
    end;
  match max_size_ e with
  | Some mx => p ← track mx; Some (emit (SetMaxTrackSize lparam p) w1)
  | None => Some w1
  end.

(** The tail of [HandleMessage] after the switch.  [DefWindowProc] is
    logged; what it makes the system send before it returns is not part of
    this call. *)
Definition after_switch (env : Env) (w : World) (e : FlutterHostWindow)
    (hwnd : HWND) (message : UINT) (wparam : WPARAM) (lparam : LPARAM)
    : World * LRESULT :=
  if negb (bool_decide (is_Some (view_controller_ e))) then (w, 0%Z)
  else (emit (DefWindowProc hwnd message wparam lparam) w,
        DefWindowProc_result env hwnd message wparam lparam).

(** [HandleMessage(hwnd, message, wparam, lparam)] on the object at [this]. *)
Definition HandleMessage (env : Env) (w : World) (this : ptr) (hwnd : HWND)
    (message : UINT) (wparam : WPARAM) (lparam : LPARAM)
    : option (World * LRESULT) :=
  e ← heap w !! this;
  if negb (window_handle_ e =? 0)%N
     && bool_decide (is_Some (view_controller_ e))
     && lifecycle_WindowProc env hwnd message wparam lparam
  then Some (w, 0%Z)
  else if (message =? Win32.WM_DESTROY)%Z then
    w1 ← on_destroy w this e;
    Some (after_switch env w1 e hwnd message wparam lparam)
  else if (message =? Win32.WM_DPICHANGED)%Z then
    let r := RECT_at env lparam in
    let width := (Win32.right r - Win32.left r)%Z in
    let height := (Win32.bottom r - Win32.top r)%Z in
    Some (emit (SetWindowPos hwnd (Win32.left r) (Win32.top r) width height
                  (Z.lor Win32.SWP_NOZORDER Win32.SWP_NOACTIVATE)) w, 0%Z)
  else if (message =? Win32.WM_SHOWWINDOW)%Z then
    if (wparam =? Win32.TRUE)%Z && (lparam =? 0)%Z && pending_show_ e then
      let e1 := set_pending_show_ false e in
      show_cmd ← show_cmd_of e1;
      Some (emit (SetWindowPlacement hwnd show_cmd) (store this e1 w), 0%Z)
    else Some (w, 0%Z)
  else if (message =? Win32.WM_GETMINMAXINFO)%Z then
    w1 ← on_getminmaxinfo env w e hwnd lparam;
    Some (w1, 0%Z)
  else if (message =? Win32.WM_SIZE)%Z then
    if negb (child_content_ e =? 0)%N then
      let client_rect := GetClientRect env hwnd in
      Some (emit (MoveWindow (child_content_ e) (Win32.left client_rect)
                    (Win32.top client_rect)
                    (Win32.right client_rect - Win32.left client_rect)%Z
                    (Win32.bottom client_rect - Win32.top client_rect)%Z) w,
            0%Z)
    else Some (w, 0%Z)
  else if (message =? Win32.WM_ACTIVATE)%Z then
    if negb (Win32.LOWORD wparam =? Win32.WA_INACTIVE)%Z then
      if negb (child_content_ e =? 0)%N
      then Some (emit (SetFocus (child_content_ e)) w, 0%Z)
      else Some (w, 0%Z)
    else Some (w, 0%Z)
  else if (message =? Win32.WM_NCACTIVATE)%Z then
    if (wparam =? Win32.FALSE)%Z && negb (bool_decide (archetype_ e = kPopup))
       && (negb (enable_redraw_non_client_as_inactive_ e)
           || (0 <? num_owned_popups_ e)%Z)
    then Some (w, Win32.TRUE)
    else Some (after_switch env w e hwnd message wparam lparam)
  else if (message =? Win32.WM_DWMCOLORIZATIONCOLORCHANGED)%Z then
    Some (emit (UpdateTheme hwnd) w, 0%Z)
  else Some (after_switch env w e hwnd message wparam lparam).

(** *** SetState *)

Definition SetState (w : World) (this : ptr) (state : WindowState)
    : option World :=
  e ← heap w !! this;
  let show_cmd :=
    match state with
    | kRestored => Win32.SW_RESTORE
    | kMaximized => Win32.SW_MAXIMIZE
    | kMinimized => Win32.SW_MINIMIZE
    end in
  Some (store this (set_state_ (Some state) e)
          (emit (SetWindowPlacement (window_handle_ e) show_cmd) w)).

End FlutterHostWindow.

(** ** FlutterHostWindowController *)

Module FlutterHostWindowController.
Local Open Scope Z_scope.

(** [void (*on_message)(WindowsMessage*)]: what the callback leaves in the
    message it was handed.  Whatever else the callback does (it may create
    or destroy windows before it returns) is outside this model. *)
Definition callback := WindowsMessage.t -> WindowsMessage.t.

Module WindowingInitRequest.
Record t := { on_message : option callback }.
End WindowingInitRequest.

Module WindowCreationRequest.
Record t := {
  width : double;
  height : double;
  min_width : double;
  min_height : double;
  max_width : double;
  max_height : double
}.
End WindowCreationRequest.

(** The handle [Isolate()] captures. *)
Inductive Isolate := CurrentIsolate.

Record t := {
  active_windows_ : gmap HWND ptr;
  on_message_ : option callback;
  isolate_ : option Isolate;
  pending_messages_ : list WindowsMessage.t
}.

(** Modelled from the spec: the state [FlutterHostWindowController(engine)]
    leaves, the default member initialisers being declared in
    [flutter_host_window_controller.h], which is not among the sources at
    hand.  The registry is empty, and the bridge is in its "buffer phase":
    no callback, no isolate, nothing buffered. *)
Definition constructor : t :=
  {| active_windows_ := ∅; on_message_ := None; isolate_ := None;
     pending_messages_ := [] |}.

(** [on_message_(&m)] under an [IsolateScope]; [None] is the call through a
    null function pointer. *)
Definition call_on_message (on_message : option callback)
    (m : WindowsMessage.t) (w : World) : option (WindowsMessage.t * World) :=
  cb ← on_message;
  Some (cb m, emit (OnMessage m) w).

(** The loop of [Initialize] over [pending_messages_]. *)
Fixpoint replay (on_message : option callback)
    (pending : list WindowsMessage.t) (w : World) : option World :=
  match pending with
  | [] => Some w
  | m :: rest =>
      '(_, w') ← call_on_message on_message m w;
      replay on_message rest w'
  end.

Definition Initialize (c : t) (w : World) (request : WindowingInitRequest.t)
    : option (t * World) :=
  let c1 :=
    {| active_windows_ := active_windows_ c;
       on_message_ := WindowingInitRequest.on_message request;
       isolate_ := Some CurrentIsolate;
       pending_messages_ := pending_messages_ c |} in
  w' ← replay (on_message_ c1) (pending_messages_ c1) w;
  Some ({| active_windows_ := active_windows_ c1;
           on_message_ := on_message_ c1;
           isolate_ := isolate_ c1;
           pending_messages_ := [] |}, w').

(** The settings [CreateWindow_] builds from a request; the members it does
    not assign keep the defaults of [WindowCreationSettings] (a regular
    window without parent, positioner, state or title). *)
Definition settings_of (request : WindowCreationRequest.t)
    : WindowCreationSettings.t :=
  {| WindowCreationSettings.archetype := kRegular;
     WindowCreationSettings.parent_view_id := None;
     WindowCreationSettings.positioner := None;
     WindowCreationSettings.size :=
       {| flutter.width := WindowCreationRequest.width request;
          flutter.height := WindowCreationRequest.height request |};
     WindowCreationSettings.min_size :=
       Some {| flutter.width := WindowCreationRequest.min_width request;
               flutter.height := WindowCreationRequest.min_height request |};
     WindowCreationSettings.max_size :=
       if double_ne (WindowCreationRequest.max_width request) 0%float
          && double_ne (WindowCreationRequest.max_height request) 0%float
       then Some {| flutter.width := WindowCreationRequest.max_width request;
                    flutter.height := WindowCreationRequest.max_height request |}
       else None;
     WindowCreationSettings.state := None;
     WindowCreationSettings.title := None |}.

(** [active_windows_[hwnd] = std::move(window)]: a window already stored
    under the handle is released. *)
Definition register_window (c : t) (w : World) (hwnd : HWND) (window : ptr)
    : t * World :=
  ({| active_windows_ := <[hwnd := window]> (active_windows_ c);
      on_message_ := on_message_ c; isolate_ := isolate_ c;
      pending_messages_ := pending_messages_ c |},
   match active_windows_ c !! hwnd with
   | Some old => FlutterHostWindow.destructor w old
   | None => w
   end).

(** [CreateWindow_] from the point where [settings] is complete:
    [std::make_unique<FlutterHostWindow>(this, settings)] allocates a fresh
    object and constructs it; a window without handle is released on return. *)
Definition create_from_settings (env : Env) (c : t) (w : World)
    (settings : WindowCreationSettings.t)
    : option (FlutterViewId * t * World) :=
  let this := fresh (dom (heap w)) in
  w1 ← FlutterHostWindow.constructor env w this settings;
  window ← heap w1 !! this;
  if (FlutterHostWindow.GetWindowHandle window =? 0)%N
  then Some (0, c, FlutterHostWindow.destructor w1 this)
  else
    (* view_id = window->view_controller_->view()->view_id(); the local
       [state] that is read next is not used. *)
    view ← view_controller_ window;
    let '(c', w2) :=
      register_window c w1 (FlutterHostWindow.GetWindowHandle window) this in
    Some (view_id_of view, c', w2).

Definition CreateWindow_ (env : Env) (c : t) (w : World)
    (request : WindowCreationRequest.t) : option (FlutterViewId * t * World) :=
  create_from_settings env c w (settings_of request).

(** [active_windows_.erase(hwnd)] *)
Definition erase_window (c : t) (w : World) (hwnd : HWND) : t * World :=
  match active_windows_ c !! hwnd with
  | Some window =>
      ({| active_windows_ := delete hwnd (active_windows_ c);
          on_message_ := on_message_ c; isolate_ := isolate_ c;
          pending_messages_ := pending_messages_ c |},
       FlutterHostWindow.destructor w window)
  | None => (c, w)
  end.

(** The first statement of [HandleMessage]:
    [if (message == WM_NCDESTROY) active_windows_.erase(hwnd);] *)
Definition after_erase (c : t) (w : World) (hwnd : HWND) (message : UINT)
    : t * World :=
  if (message =? Win32.WM_NCDESTROY)%Z then erase_window c w hwnd else (c, w).

Definition push_back (m : WindowsMessage.t) (c : t) : t :=
  {| active_windows_ := active_windows_ c; on_message_ := on_message_ c;
     isolate_ := isolate_ c;
     pending_messages_ := pending_messages_ c ++ [m] |}.

(** The message [HandleMessage] builds for a resolved view. *)
Definition message_struct (view_id : FlutterViewId) (hwnd : HWND)
    (message : UINT) (wparam : WPARAM) (lparam : LPARAM) : WindowsMessage.t :=
  {| WindowsMessage.view_id := view_id; WindowsMessage.hwnd := hwnd;
     WindowsMessage.message := message; WindowsMessage.wParam := wparam;
     WindowsMessage.lParam := lparam; WindowsMessage.result := 0;
     WindowsMessage.handled := false |}.

(** [HandleMessage(hwnd, message, wparam, lparam)]; the third component is
    the [std::optional<LRESULT>] it returns. *)
Definition HandleMessage (env : Env) (c : t) (w : World) (hwnd : HWND)
    (message : UINT) (wparam : WPARAM) (lparam : LPARAM)
    : option (t * World * option LRESULT) :=
  let '(c1, w1) := after_erase c w hwnd message in
  match GetViewFromTopLevelWindow env hwnd with
  | None => Some (c1, w1, None)
  | Some view_id =>
      let m := message_struct view_id hwnd message wparam lparam in
      match isolate_ c1 with
      | None => Some (push_back m c1, w1, None)
      | Some _ =>
          '(m', w2) ← call_on_message (on_message_ c1) m w1;
          Some (c1, w2,
                if WindowsMessage.handled m'
                then Some (WindowsMessage.result m') else None)
      end
  end.

End FlutterHostWindowController.

(** ** Sequences of native events *)

Module NativeEvent.
Record t := { hwnd : HWND; message : UINT; wparam : WPARAM; lparam : LPARAM }.
End NativeEvent.

(** The controller's [HandleMessage] on each event of a list, in order. *)
Fixpoint handle_all (env : Env) (c : FlutterHostWindowController.t) (w : World)
    (events : list NativeEvent.t)
    : option (FlutterHostWindowController.t * World) :=
  match events with
  | [] => Some (c, w)
  | ev :: rest =>
      '(c', w', _) ←
        FlutterHostWindowController.HandleMessage env c w
          (NativeEvent.hwnd ev) (NativeEvent.message ev)
          (NativeEvent.wparam ev) (NativeEvent.lparam ev);
      handle_all env c' w' rest
  end.

(** The application-facing message of an event, when its view resolves. *)
Definition wrap (env : Env) (ev : NativeEvent.t) : option WindowsMessage.t :=
  view_id ← GetViewFromTopLevelWindow env (NativeEvent.hwnd ev);
  Some (FlutterHostWindowController.message_struct view_id
          (NativeEvent.hwnd ev) (NativeEvent.message ev)
          (NativeEvent.wparam ev) (NativeEvent.lparam ev)).

(** The messages of the events whose view resolves, in arrival order. *)
Definition wrap_all (env : Env) (events : list NativeEvent.t)
    : list WindowsMessage.t :=
  omap (wrap env) events.

(** The two phases of the bridge, for the events [before] that arrive ahead
    of [Initialize] and the events [after] that follow it: the first are
    buffered when their view resolves and reach the callback of [request]
    during [Initialize], in arrival order and once each; the second reach it
    as they arrive; the buffer is empty from [Initialize] on. *)
Definition two_phase_delivery (env : Env)
    (c : FlutterHostWindowController.t) (w : World)
    (cb : FlutterHostWindowController.callback)
    (before after : list NativeEvent.t) : Prop :=
  exists c1 w1 c2 w2 c3 w3,
    handle_all env c w before = Some (c1, w1) /\
    FlutterHostWindowController.pending_messages_ c1 =
      FlutterHostWindowController.pending_messages_ c ++ wrap_all env before /\
    delivered w1 = delivered w /\
    FlutterHostWindowController.Initialize c1 w1
      {| FlutterHostWindowController.WindowingInitRequest.on_message := Some cb |}
      = Some (c2, w2) /\
    FlutterHostWindowController.on_message_ c2 = Some cb /\
    FlutterHostWindowController.pending_messages_ c2 = [] /\
    delivered w2 =
      delivered w ++ FlutterHostWindowController.pending_messages_ c
        ++ wrap_all env before /\
    handle_all env c2 w2 after = Some (c3, w3) /\
    FlutterHostWindowController.on_message_ c3 = Some cb /\
    FlutterHostWindowController.pending_messages_ c3 = [] /\
    delivered w3 = delivered w2 ++ wrap_all env after.

(** The windows [SetFocus] was called on, oldest first. *)
Fixpoint focus_requests (l : list Effect) : list HWND :=
  match l with
  | [] => []
  | SetFocus h :: l' => h :: focus_requests l'
  | _ :: l' => focus_requests l'
  end.

(** The messages posted with [PostMessage], oldest first. *)
Fixpoint posted (l : list Effect) : list (HWND * UINT) :=
  match l with
  | [] => []
  | PostMessage h msg _ _ :: l' => (h, msg) :: posted l'
  | _ :: l' => posted l'
  end.

(** ** Ownership bookkeeping *)

(** [|{p ∈ owned_windows_ : p->archetype_ = kPopup}|] for a window. *)
Definition owned_popups (w : World) (e : FlutterHostWindow) : nat :=
  size (FlutterHostWindow.popups_in w (owned_windows_ e)).

(** The popup count of a window agrees with its owned set. *)
Definition count_matches (w : World) (e : FlutterHostWindow) : Prop :=
  num_owned_popups_ e = Z.of_nat (owned_popups w e).

(** The members of a window that the ownership and state bookkeeping is
    about. *)
Definition bookkeeping (e : FlutterHostWindow)
    : WindowArchetype * gset ptr * Z * option WindowState :=
  (archetype_ e, owned_windows_ e, num_owned_popups_ e, state_ e).

(** Every object of [w] is an object of [w'] with the same value of [f], and
    [w'] has no other object. *)
Definition same_on {A : Type} (f : FlutterHostWindow -> A) (w w' : World)
    : Prop :=
  forall p : ptr, f <$> heap w' !! p = f <$> heap w !! p.

Definition same_bookkeeping (w w' : World) : Prop := same_on bookkeeping w w'.

(** The archetype and the stored state of a window. *)
Definition kind_and_state (e : FlutterHostWindow)
    : WindowArchetype * option WindowState :=
  (archetype_ e, state_ e).

(** The state a native size notification reports. *)
Definition notified_state (wparam : WPARAM) : option WindowState :=
  if (wparam =? Win32.SIZE_RESTORED)%Z then Some kRestored
  else if (wparam =? Win32.SIZE_MINIMIZED)%Z then Some kMinimized
  else if (wparam =? Win32.SIZE_MAXIMIZED)%Z then Some kMaximized
  else None.

(** ** Creation requests *)

(** The combinations of archetype, owner, positioner and size bounds that a
    construction request must not have: a regular window with an owner or a
    positioner, a popup without owner or without positioner, a minimum size
    that exceeds the maximum size in a component. *)
Definition invalid_combination (env : Env) (settings : WindowCreationSettings.t)
    : Prop :=
  let owner := FlutterHostWindow.owner_of env settings in
  (WindowCreationSettings.archetype settings = kRegular /\
   (owner <> 0%N \/ is_Some (WindowCreationSettings.positioner settings))) \/
  (WindowCreationSettings.archetype settings = kPopup /\
   (owner = 0%N \/ WindowCreationSettings.positioner settings = None)) \/
  (exists mn mx,
     WindowCreationSettings.min_size settings = Some mn /\
     WindowCreationSettings.max_size settings = Some mx /\
     (double_gt (flutter.width mn) (flutter.width mx) = true \/
      double_gt (flutter.height mn) (flutter.height mx) = true)).

(** The object a constructor leaves behind when it returns at a failed
    precondition: only [archetype_] has been assigned. *)
Definition unrealized (settings : WindowCreationSettings.t) : FlutterHostWindow :=
  FlutterHostWindow.set_archetype_ (WindowCreationSettings.archetype settings)
    FlutterHostWindow.default_members.

(** A regular window without owner, positioner, state or title. *)
Definition regular_settings (size : flutter.Size)
    (min_size max_size : option flutter.Size) : WindowCreationSettings.t :=
  {| WindowCreationSettings.archetype := kRegular;
     WindowCreationSettings.parent_view_id := None;
     WindowCreationSettings.positioner := None;
     WindowCreationSettings.size := size;
     WindowCreationSettings.min_size := min_size;
     WindowCreationSettings.max_size := max_size;
     WindowCreationSettings.state := None;
     WindowCreationSettings.title := None |}.

(** A popup of the window with view [parent], placed by a positioner
    without anchor rectangle. *)
Definition popup_settings (parent : FlutterViewId) (size : flutter.Size)
    : WindowCreationSettings.t :=
  {| WindowCreationSettings.archetype := kPopup;
     WindowCreationSettings.parent_view_id := Some parent;
     WindowCreationSettings.positioner :=
       Some {| anchor_rect := None; placement_rules := 0%Z |};
     WindowCreationSettings.size := size;
     WindowCreationSettings.min_size := None;
     WindowCreationSettings.max_size := None;
     WindowCreationSettings.state := None;
     WindowCreationSettings.title := None |}.

Definition Size_of (w h : double) : flutter.Size :=
  {| flutter.width := w; flutter.height := h |}.

(** A request for a client area of 800 by 600 with the given bounds. *)
Definition request_with (min_w min_h max_w max_h : double)
    : FlutterHostWindowController.WindowCreationRequest.t :=
  {| FlutterHostWindowController.WindowCreationRequest.width := 800%float;
     FlutterHostWindowController.WindowCreationRequest.height := 600%float;
     FlutterHostWindowController.WindowCreationRequest.min_width := min_w;
     FlutterHostWindowController.WindowCreationRequest.min_height := min_h;
     FlutterHostWindowController.WindowCreationRequest.max_width := max_w;
     FlutterHostWindowController.WindowCreationRequest.max_height := max_h |}.

(** The request with both components of the maximum size set to zero. *)
Definition without_max
    (request : FlutterHostWindowController.WindowCreationRequest.t)
    : FlutterHostWindowController.WindowCreationRequest.t :=
  {| FlutterHostWindowController.WindowCreationRequest.width :=
       FlutterHostWindowController.WindowCreationRequest.width request;
     FlutterHostWindowController.WindowCreationRequest.height :=
       FlutterHostWindowController.WindowCreationRequest.height request;
     FlutterHostWindowController.WindowCreationRequest.min_width :=
       FlutterHostWindowController.WindowCreationRequest.min_width request;
     FlutterHostWindowController.WindowCreationRequest.min_height :=
       FlutterHostWindowController.WindowCreationRequest.min_height request;
     FlutterHostWindowController.WindowCreationRequest.max_width := 0%float;
     FlutterHostWindowController.WindowCreationRequest.max_height := 0%float |}.

(** ** A concrete environment *)

Definition empty_world : World :=
  {| heap := ∅; instance_property := ∅; gw_owner := ∅; effects := [] |}.

Definition zero_RECT : Win32.RECT :=
  {| Win32.left := 0%Z; Win32.top := 0%Z; Win32.right := 0%Z;
     Win32.bottom := 0%Z |}.

Definition zero_Rect : flutter.Rect :=
  {| flutter.origin := {| flutter.x := 0%float; flutter.y := 0%float |};
     flutter.size := {| flutter.width := 0%float; flutter.height := 0%float |} |}.

(** An environment in which every request succeeds: the display has 96 dpi,
    frames have no border, [CreateWindowEx] hands out [next_hwnd], views are
    created with id [7] and surface window [next_hwnd + 1], the view of a
    top-level window is looked up in [views], and nobody consumes a message. *)
Definition sample_env (next_hwnd : HWND) (views : HWND -> option FlutterViewId)
    (parents : FlutterViewId -> HWND) : Env :=
  {| GetHostWindowHandle := parents;
     GetDpiForHWND := λ _, 96%Z;
     GetWindowSizeForClientSize := λ client _ _ _ _ _, Some client;
     GetFrameSizeForWindowSize := λ s _ _ _, s;
     GetClientRectInScreenSpace := λ _, zero_Rect;
     GetOutputRect := λ r, r;
     PlaceWindow := λ _ frame anchor _ _,
       {| flutter.origin := flutter.origin anchor; flutter.size := frame |};
     engine_CreateView := λ _ _ _ _,
       Some {| view_id_of := 7%Z; view_window_handle := (next_hwnd + 1)%N |};
     engine_running := true;
     window_class_registered := true;
     CreateWindowEx := λ _ _ _ _, next_hwnd;
     DwmExtendedFrameBounds := λ _, zero_RECT;
     GetWindowRect := λ _, zero_RECT;
     GetClientRect := λ _, zero_RECT;
     GetOffsetBetweenWindows := λ _ _, {| Win32.x := 0%Z; Win32.y := 0%Z |};
     virtual_screen :=
       {| flutter.width := 1920%float; flutter.height := 1080%float |};
     RECT_at := λ _, zero_RECT;
     lifecycle_WindowProc := λ _ _ _ _, false;
     DefWindowProc_result := λ _ _ _ _, 0%Z;
     GetViewFromTopLevelWindow := views |}.

(** The worlds below hold a regular window with handle [100], view [7] and
    content window [101] at address [1], and popups of it with handles
    [200] and [300] at the addresses [2] and [3]. *)
Definition sample_views (h : HWND) : option FlutterViewId := Some 7%Z.
Definition sample_parents (id : FlutterViewId) : HWND := 100%N.

(** The environment in which the next window gets the handle [next_hwnd]. *)
Definition env_for (next_hwnd : HWND) : Env :=
  sample_env next_hwnd sample_views sample_parents.

Definition owner_alone : option (FlutterHostWindowController.t * World) :=
  '(_, c, w) ←
    FlutterHostWindowController.CreateWindow_ (env_for 100%N)
      FlutterHostWindowController.constructor empty_world
      (request_with 0%float 0%float 0%float 0%float);
  Some (c, w).

Definition with_popup (next_hwnd : HWND)
    (cw : option (FlutterHostWindowController.t * World))
    : option (FlutterHostWindowController.t * World) :=
  '(c, w) ← cw;
  '(_, c', w') ←
    FlutterHostWindowController.create_from_settings (env_for next_hwnd) c w
      (popup_settings 7%Z (Size_of 200%float 100%float));
  Some (c', w').

Definition owner_with_two_popups
    : option (FlutterHostWindowController.t * World) :=
  with_popup 300%N (with_popup 200%N owner_alone).

(** The object at an address known to be live. *)
Definition window_at (w : World) (p : ptr) : FlutterHostWindow :=
  default FlutterHostWindow.default_members (heap w !! p).

(** The world of [owner_alone]. *)
Definition owner_world : World := default empty_world (snd <$> owner_alone).

(** The world of [owner_with_two_popups]. *)
Definition two_popups_world : World :=
  default empty_world (snd <$> owner_with_two_popups).

(** The environment in which the windows of [two_popups_world] live. *)
Definition two_popups_env : Env := env_for 400%N.


(** ** The placement solver *)

Module Placement.
Local Open Scope Z_scope.

(** Modelled from the spec: the gravities of a positioner.  [PlaceWindow] is
    defined in [common/windowing.cc], which is not among the sources at hand;
    the specification names an "anchor-edge gravity" and a "popup-edge
    gravity", each selecting an edge per axis: the near edge (left, top),
    the middle, or the far edge (right, bottom). *)
Inductive Edge := Near | Middle | Far.

Record Gravity := { horizontal : Edge; vertical : Edge }.

(** Modelled from the spec: "a constraint-adjustment policy (flip/slide/resize
    on overflow)"; each adjustment can be enabled ("with flip enabled") or
    left out. *)
Record Policy := { flip : bool; slide : bool; resize : bool }.

(** Modelled from the spec: "anchor-edge gravity, popup-edge gravity, a
    logical offset, and a constraint-adjustment policy".  The offset is the
    one already scaled to screen space, as "all arguments [are] in the same
    screen-space coordinate system". *)
Record Positioner := {
  anchor_gravity : Gravity;
  popup_gravity : Gravity;
  offset_x : Z;
  offset_y : Z;
  policy : Policy
}.

(** Rectangles and sizes "entirely in integer screen-space coordinates". *)
Record Size := { width : Z; height : Z }.
Record Rect := { left : Z; top : Z; rect_width : Z; rect_height : Z }.

Definition right (r : Rect) : Z := left r + rect_width r.
Definition bottom (r : Rect) : Z := top r + rect_height r.

(** [inner] lies entirely within [outer]. *)
Definition within (inner outer : Rect) : Prop :=
  left outer <= left inner /\ right inner <= right outer /\
  top outer <= top inner /\ bottom inner <= bottom outer.

(** The coordinate of the selected edge of the anchor, on one axis. *)
Definition anchor_edge (e : Edge) (a_start a_length : Z) : Z :=
  match e with
  | Near => a_start
  | Middle => a_start + a_length / 2
  | Far => a_start + a_length
  end.

(** Where the frame starts when its selected edge sits at [point]. *)
Definition frame_start (e : Edge) (point length : Z) : Z :=
  match e with
  | Near => point
  | Middle => point - length / 2
  | Far => point - length
  end.

(** Modelled from the spec: "position the popup's frame so the edge selected by
    anchor gravity touches the corresponding edge selected by popup gravity on
    the anchor rectangle, then apply the logical offset". *)
Definition base_start (anchor_e popup_e : Edge) (a_start a_length length
    offset : Z) : Z :=
  frame_start popup_e (anchor_edge anchor_e a_start a_length) length + offset.

(** "mirror the gravity pair across the anchor" *)
Definition mirror (e : Edge) : Edge :=
  match e with Near => Far | Middle => Middle | Far => Near end.

(** The frame [start, start + length) does not overflow the output on this
    axis. *)
Definition fits (start length o_start o_length : Z) : bool :=
  (o_start <=? start) && (start + length <=? o_start + o_length).

(** "translate along the axis by the minimum amount needed to fit inside the
    output rectangle, without resizing" *)
Definition slid (start length o_start o_length : Z) : Z :=
  if start <? o_start then o_start
  else if o_start + o_length <? start + length then o_start + o_length - length
  else start.

(** "shrink the window from the overflowing edge down to the output
    rectangle's boundary, never growing it": the start and the length left. *)
Definition shrunk (start length o_start o_length : Z) : Z * Z :=
  let s := Z.max start o_start in
  let e := Z.min (start + length) (o_start + o_length) in
  (s, e - s).

(** Modelled from the spec: the constraint adjustment on one axis, "in this
    precedence: flip (... if the window would overflow the output rectangle on
    that axis and flipping fully resolves the overflow) -> slide -> resize ->
    if none resolve the overflow, leave the window clipped outside the output
    rectangle rather than failing".  The result is the start and the length of
    the frame on this axis. *)
Definition place_axis (p : Policy) (anchor_e popup_e : Edge)
    (a_start a_length length offset o_start o_length : Z) : Z * Z :=
  let base := base_start anchor_e popup_e a_start a_length length offset in
  if fits base length o_start o_length then (base, length)
  else
    let flipped :=
      base_start (mirror anchor_e) (mirror popup_e) a_start a_length length
        offset in
    if flip p && fits flipped length o_start o_length then (flipped, length)
    else
      let s := slid base length o_start o_length in
      if slide p && fits s length o_start o_length then (s, length)
      else
        let '(rs, rl) := shrunk base length o_start o_length in
        if resize p && (0 <=? rl) && fits rs rl o_start o_length then (rs, rl)
        else (base, length).

(** Modelled from the spec: "Pure function [Place(positioner, frameSize,
    anchorRect, ownerRect, outputRect) -> Rect]", the adjustment being
    "applied independently per axis".  The specification gives the owner
    rectangle no part in the computation. *)
Definition Place (positioner : Positioner) (frameSize : Size)
    (anchorRect ownerRect outputRect : Rect) : Rect :=
  let '(px, wx) :=
    place_axis (policy positioner)
      (horizontal (anchor_gravity positioner))
      (horizontal (popup_gravity positioner))
      (left anchorRect) (rect_width anchorRect) (width frameSize)
      (offset_x positioner) (left outputRect) (rect_width outputRect) in
  let '(py, wy) :=
    place_axis (policy positioner)
      (vertical (anchor_gravity positioner))
      (vertical (popup_gravity positioner))
      (top anchorRect) (rect_height anchorRect) (height frameSize)
      (offset_y positioner) (top outputRect) (rect_height outputRect) in
  {| left := px; top := py; rect_width := wx; rect_height := wy |}.


(** A display of 1920 by 1080, an anchor near its right edge and a frame of
    200 by 100 whose left edge is to touch the right edge of the anchor. *)
Definition sample_output : Rect :=
  {| left := 0; top := 0; rect_width := 1920; rect_height := 1080 |}.
Definition sample_anchor : Rect :=
  {| left := 1800; top := 500; rect_width := 100; rect_height := 50 |}.
Definition sample_frame : Size := {| width := 200; height := 100 |}.
Definition right_of_anchor (p : Policy) : Positioner :=
  {| anchor_gravity := {| horizontal := Far; vertical := Near |};
     popup_gravity := {| horizontal := Near; vertical := Near |};
     offset_x := 0; offset_y := 0; policy := p |}.

End Placement.

(** ** More of the effect log *)

(** The calls of [DefWindowProc], oldest first. *)
Fixpoint default_calls (l : list Effect) : list (HWND * UINT) :=
  match l with
  | [] => []
  | DefWindowProc h msg _ _ :: l' => (h, msg) :: default_calls l'
  | _ :: l' => default_calls l'
  end.

(** The windows [DestroyWindow] was called on, oldest first. *)
Fixpoint destroy_requests (l : list Effect) : list HWND :=
  match l with
  | [] => []
  | DestroyWindow h :: l' => h :: destroy_requests l'
  | _ :: l' => destroy_requests l'
  end.

(** ** The instance property *)

(** [SetInstanceProperty]: [SetProp] fails on the null handle, and the
    failure is only logged. *)
Definition SetInstanceProperty (hwnd : HWND) (instance : ptr) (w : World)
    : World :=
  if (hwnd =? 0)%N then w
  else {| heap := heap w;
          instance_property := <[hwnd := instance]> (instance_property w);
          gw_owner := gw_owner w; effects := effects w |}.

(** ** The entity of a window that exists already *)

(** [FlutterHostWindow(controller, hwnd, view)], run on the fresh object at
    address [this]; [None] is the failed [FML_CHECK(view != nullptr)].  The
    members the constructor does not assign keep the values of
    [default_members]; [view_controller_], a [std::unique_ptr], is null. *)
Definition constructor_from_handle (w : World) (this : ptr) (hwnd : HWND)
    (view : option FlutterWindowsView) : option World :=
  let e0 :=
    FlutterHostWindow.set_window_handle_ hwnd
      FlutterHostWindow.default_members in
  let w1 := SetInstanceProperty hwnd this w in
  match view with
  | Some v =>
      Some (store this
              (FlutterHostWindow.set_child_content_ (view_window_handle v) e0)
              w1)
  | None => None
  end.

(** ** FindFirstEnabledDescendant *)

(** The loop over the owned windows: the first result that is not null, or
    null.  [find] is [FindFirstEnabledDescendant] on an owned window; it has
    no result when it does not return. *)
Fixpoint first_found (find : ptr -> option (option ptr)) (owned : list ptr)
    : option (option ptr) :=
  match owned with
  | [] => Some None
  | p :: rest =>
      match find p with
      | Some (Some result) => Some (Some result)
      | Some None => first_found find rest
      | None => None
      end
  end.

(** [FindFirstEnabledDescendant()] on the object at [this], with the answers
    of [IsWindowEnabled].  The recursion follows the owned sets, which the
    code does not bound: [fuel] bounds the depth of the calls, and there is
    no result ([None]) when it runs out or when a dangling pointer is
    followed.  A result [Some None] is the null pointer. *)
Fixpoint FindFirstEnabledDescendant (fuel : nat)
    (IsWindowEnabled : HWND -> bool) (w : World) (this : ptr)
    : option (option ptr) :=
  match fuel with
  | O => None
  | S fuel' =>
      e ← heap w !! this;
      if IsWindowEnabled (FlutterHostWindow.GetWindowHandle e)
      then Some (Some this)
      else first_found (FindFirstEnabledDescendant fuel' IsWindowEnabled w)
             (in_address_order (owned_windows_ e))
  end.

(** [q] is [p] or is reached from [p] through owned sets. *)
Inductive descendant (w : World) : ptr -> ptr -> Prop :=
  | descendant_self (p : ptr) : descendant w p p
  | descendant_owned (p q r : ptr) (e : FlutterHostWindow) :
      heap w !! p = Some e -> q ∈ owned_windows_ e -> descendant w q r ->
      descendant w p r.

(** The window at [p] is live and enabled. *)
Definition enabled_at (IsWindowEnabled : HWND -> bool) (w : World) (p : ptr)
    : Prop :=
  exists e, heap w !! p = Some e /\
            IsWindowEnabled (FlutterHostWindow.GetWindowHandle e) = true.

(** Every owned window is live and its [depth] is below that of the window
    that owns it: the owned sets form a forest. *)
Definition owned_below (depth : ptr -> nat) (w : World) : bool :=
  forallb
    (λ pe : ptr * FlutterHostWindow,
       forallb
         (λ q, bool_decide (is_Some (heap w !! q))
               && (depth q <? depth pe.1)%nat)
         (elements (owned_windows_ pe.2)))
    (map_to_list (heap w)).

(** ** Destroy notifications *)

(** [HandleMessage] of each window of a list, in order, for the destroy
    notification of its own handle. *)
Fixpoint destroy_each (env : Env) (w : World) (windows : list ptr)
    : option World :=
  match windows with
  | [] => Some w
  | p :: rest =>
      e ← heap w !! p;
      '(w', _) ←
        FlutterHostWindow.HandleMessage env w p (window_handle_ e)
          Win32.WM_DESTROY 0%Z 0%Z;
      destroy_each env w' rest
  end.

(** ** OnEngineShutdown *)

(** The keys of a [std::map], in the order a walk visits them. *)
Definition in_handle_order (m : gmap HWND ptr) : list HWND :=
  merge_sort N.le (map fst (map_to_list m)).

(** [FlutterHostWindowController::OnEngineShutdown()].  [DestroyWindow] is
    logged like every call into Win32.  The notifications it makes the
    system send, [WM_DESTROY] and [WM_NCDESTROY] among them, reach
    [HandleMessage] before it returns; here they are events that follow
    [OnEngineShutdown], whose loop reads only its copy of the handles.  The
    registry and the heap this function returns are therefore those before
    the notifications. *)
Definition OnEngineShutdown (c : FlutterHostWindowController.t) (w : World)
    : FlutterHostWindowController.t * World :=
  let c1 :=
    {| FlutterHostWindowController.active_windows_ :=
         FlutterHostWindowController.active_windows_ c;
       FlutterHostWindowController.on_message_ := None;
       FlutterHostWindowController.isolate_ :=
         FlutterHostWindowController.isolate_ c;
       FlutterHostWindowController.pending_messages_ :=
         FlutterHostWindowController.pending_messages_ c |} in
  let active_handles :=
    in_handle_order (FlutterHostWindowController.active_windows_ c1) in
  (c1, foldl (λ w' hwnd, emit (DestroyWindow hwnd) w') w active_handles).


(** ** Offsets between windows *)

Module Helpers.
Local Open Scope Z_scope.

(** [GetOffsetBetweenWindows(from, to)], with the answers of
    [GetWindowRect]: [None] when the call fails.  The function has no
    result, [None], when a difference of two coordinates is no [LONG]. *)
Definition GetOffsetBetweenWindows (get_window_rect : HWND -> option Win32.RECT)
    (from to : HWND) : option Win32.POINT :=
  let offset := {| Win32.x := 0; Win32.y := 0 |} in
  if negb (to =? 0)%N && negb (from =? 0)%N then
    match get_window_rect to, get_window_rect from with
    | Some to_rect, Some from_rect =>
        offset_x ← LONG_sub (Win32.left to_rect) (Win32.left from_rect);
        offset_y ← LONG_sub (Win32.top to_rect) (Win32.top from_rect);
        Some {| Win32.x := offset_x; Win32.y := offset_y |}
    | _, _ => Some offset
    end
  else Some offset.

(** [a + b] on offsets. *)
Definition add (a b : Win32.POINT) : Win32.POINT :=
  {| Win32.x := Win32.x a + Win32.x b; Win32.y := Win32.y a + Win32.y b |}.

(** [-a] on offsets. *)
Definition opp (a : Win32.POINT) : Win32.POINT :=
  {| Win32.x := - Win32.x a; Win32.y := - Win32.y a |}.

End Helpers.

(** ** Orders on doubles *)

(** [a <= b] on doubles. *)
Definition double_le (a b : double) : bool := PrimFloat.leb a b.
(** [a == b] on doubles. *)
Definition double_eq (a b : double) : bool := PrimFloat.eqb a b.
(** [std::isnan]. *)
Definition isnan (a : double) : bool := PrimFloat.is_nan a.

(** ** The pending-show latch *)

(** A window that waits for its first show in [w'] was waiting for it in
    [w]. *)
Definition no_new_pending_show (w w' : World) : Prop :=
  forall (p : ptr) (e' : FlutterHostWindow),
    heap w' !! p = Some e' -> pending_show_ e' = true ->
    exists e, heap w !! p = Some e /\ pending_show_ e = true.

(** ** Close requests *)

(** The close request [CloseOwnedPopups] posts for a popup: none when the
    native owner of the popup has no entity. *)
Definition close_request_of (w : World) (popup : ptr) : list (HWND * UINT) :=
  match heap w !! popup with
  | Some pe =>
      match GetThisFromHandle w (GetWindow_GW_OWNER w (window_handle_ pe)) with
      | Some _ => [(window_handle_ pe, Win32.WM_CLOSE)]
      | None => []
      end
  | None => []
  end.

(** The window at [p] has a handle, its native owner is the window at
    [owner], and the lifecycle manager leaves its destroy notification to
    [HandleMessage]. *)
Definition destroy_reaches_owner (env : Env) (w : World) (owner p : ptr)
    : bool :=
  match heap w !! p with
  | Some pe =>
      negb (window_handle_ pe =? 0)%N
      && bool_decide (FlutterHostWindow.GetOwnerWindow w pe = Some owner)
      && negb (lifecycle_WindowProc env (window_handle_ pe) Win32.WM_DESTROY
                 0%Z 0%Z)
  | None => false
  end.

(** The value that is not a number, in the specification of binary64. *)
Definition SF_is_nan (f : SpecFloat.spec_float) : bool :=
  match f with
  | SpecFloat.S754_nan => true
  | _ => false
  end.

(** [lo <= v && v <= hi] *)
Definition double_within (lo v hi : double) : bool :=
  double_le lo v && double_le v hi.

(** Each component of [s] lies between zero and the extent of the virtual
    screen, or is not a number. *)
Definition on_virtual_screen (env : Env) (s : flutter.Size) : bool :=
  (isnan (flutter.width s)
   || double_within 0%float (flutter.width s)
        (flutter.width (virtual_screen env)))
  && (isnan (flutter.height s)
      || double_within 0%float (flutter.height s)
           (flutter.height (virtual_screen env))).



(** ** GetWindowSizeForClientSize *)

(** [std::max(a, b)] and [std::min(a, b)] on doubles. *)
Definition double_max (a b : double) : double :=
  if PrimFloat.ltb a b then b else a.
Definition double_min (a b : double) : double :=
  if PrimFloat.ltb b a then b else a.

(** What the process finds in [User32.dll]. *)
Record User32 := {
  (** [LoadLibraryA("User32.dll")] returns a module *)
  user32_loaded : bool;
  (** [GetProcAddress(user32, "AdjustWindowRectExForDpi")] returns an
      address *)
  adjust_window_rect_found : bool;
  (** the rectangle [AdjustWindowRectExForDpi] leaves for a rectangle, a
      style, an extended style and a dpi; [None] when it returns [FALSE] *)
  AdjustWindowRectExForDpi :
    Win32.RECT -> DWORD -> DWORD -> Z -> option Win32.RECT
}.

Module SizeForClientSize.

(** The physical size of a bound given in logical coordinates:
    [ClampToVirtualScreen(Size(s.width() * scale_factor + non_client_width,
    s.height() * scale_factor + non_client_height))]. *)
Definition physical_bound (env : Env) (scale_factor non_client_width
    non_client_height : double) (s : flutter.Size) : flutter.Size :=
  ClampToVirtualScreen env
    {| flutter.width :=
         PrimFloat.add (PrimFloat.mul (flutter.width s) scale_factor)
           non_client_width;
       flutter.height :=
         PrimFloat.add (PrimFloat.mul (flutter.height s) scale_factor)
           non_client_height |}.

(** "Apply size constraints", for the size [width] by [height] of the
    adjusted rectangle. *)
Definition apply_size_constraints (env : Env) (client_size : flutter.Size)
    (min_size max_size : option flutter.Size) (scale_factor width height : double)
    : flutter.Size :=
  let non_client_width :=
    PrimFloat.sub width (PrimFloat.mul (flutter.width client_size) scale_factor) in
  let non_client_height :=
    PrimFloat.sub height
      (PrimFloat.mul (flutter.height client_size) scale_factor) in
  let bound :=
    physical_bound env scale_factor non_client_width non_client_height in
  let width1 :=
    match min_size with
    | Some mn => double_max width (flutter.width (bound mn))
    | None => width
    end in
  let height1 :=
    match min_size with
    | Some mn => double_max height (flutter.height (bound mn))
    | None => height
    end in
  let width2 :=
    match max_size with
    | Some mx => double_min width1 (flutter.width (bound mx))
    | None => width1
    end in
  let height2 :=
    match max_size with
    | Some mx => double_min height1 (flutter.height (bound mx))
    | None => height1
    end in
  {| flutter.width := width2; flutter.height := height2 |}.

(** [GetWindowSizeForClientSize(client_size, min_size, max_size,
    window_style, extended_window_style, owner_hwnd)].  The result is
    [Some None] where the function returns [std::nullopt], and [None] where
    a conversion to [LONG] is undefined.  The constructor above takes the
    answer of this function from the environment; here the function is
    embedded itself, with what it finds in [User32.dll] as a parameter. *)
Definition GetWindowSizeForClientSize (env : Env) (user32 : User32)
    (client_size : flutter.Size) (min_size max_size : option flutter.Size)
    (window_style extended_window_style : DWORD) (owner_hwnd : HWND)
    : option (option flutter.Size) :=
  let dpi := GetDpiForHWND env owner_hwnd in
  let scale_factor := scale_factor_of dpi in
  right ←
    LONG_of_double (PrimFloat.mul (flutter.width client_size) scale_factor);
  bottom ←
    LONG_of_double (PrimFloat.mul (flutter.height client_size) scale_factor);
  let rect :=
    {| Win32.left := 0%Z; Win32.top := 0%Z; Win32.right := right;
       Win32.bottom := bottom |} in
  if negb (user32_loaded user32) then Some None else
  if negb (adjust_window_rect_found user32) then Some None else
  match AdjustWindowRectExForDpi user32 rect window_style
          extended_window_style dpi with
  | None => Some None
  | Some adjusted =>
      let width :=
        double_of_LONG (Win32.right adjusted - Win32.left adjusted)%Z in
      let height :=
        double_of_LONG (Win32.bottom adjusted - Win32.top adjusted)%Z in
      Some (Some (apply_size_constraints env client_size min_size max_size
                    scale_factor width height))
  end.

End SizeForClientSize.


(** * Properties *)

(** Closed facts about the sample worlds are settled by evaluation. *)
Ltac by_evaluation :=
  vm_compute; first [reflexivity | discriminate | (intros ?; discriminate)].

Ltac split_all :=
  repeat match goal with |- _ /\ _ => split end.

(** ** The effect log *)

Lemma delivered_in_app (l1 l2 : list Effect) :
  delivered_in (l1 ++ l2) = delivered_in l1 ++ delivered_in l2.
Proof.
  induction l1 as [|e l1 IH]; [reflexivity|].
  destruct e; simpl; rewrite IH; reflexivity.
Qed.

Lemma delivered_emit_OnMessage (m : WindowsMessage.t) (w : World) :
  delivered (emit (OnMessage m) w) = delivered w ++ [m].
Proof. unfold delivered, emit; simpl. apply delivered_in_app. Qed.

Lemma delivered_destructor (w : World) (p : ptr) :
  delivered (FlutterHostWindow.destructor w p) = delivered w.
Proof.
  unfold FlutterHostWindow.destructor.
  destruct (heap w !! p) as [e|]; [|reflexivity].
  case_bool_decide; [|reflexivity].
  unfold delivered, emit; simpl.
  rewrite delivered_in_app; simpl. apply app_nil_r.
Qed.

(** ** The controller's message bridge *)

Section Bridge.
Import FlutterHostWindowController.
Variable env : Env.

Lemma erase_window_keeps (c : t) (w : World) (h : HWND) :
  on_message_ (erase_window c w h).1 = on_message_ c /\
  isolate_ (erase_window c w h).1 = isolate_ c /\
  pending_messages_ (erase_window c w h).1 = pending_messages_ c /\
  delivered (erase_window c w h).2 = delivered w.
Proof.
  unfold erase_window.
  destruct (active_windows_ c !! h); simpl; repeat split; try reflexivity.
  apply delivered_destructor.
Qed.

Lemma after_erase_keeps (c : t) (w : World) (h : HWND) (msg : UINT) :
  on_message_ (after_erase c w h msg).1 = on_message_ c /\
  isolate_ (after_erase c w h msg).1 = isolate_ c /\
  pending_messages_ (after_erase c w h msg).1 = pending_messages_ c /\
  delivered (after_erase c w h msg).2 = delivered w.
Proof.
  unfold after_erase. destruct (msg =? Win32.WM_NCDESTROY)%Z.
  - apply erase_window_keeps.
  - simpl; auto.
Qed.

Lemma HandleMessage_unfold (c : t) (w : World) (h : HWND) (msg : UINT)
    (wp : WPARAM) (lp : LPARAM) :
  HandleMessage env c w h msg wp lp =
  let c1 := (after_erase c w h msg).1 in
  let w1 := (after_erase c w h msg).2 in
  match GetViewFromTopLevelWindow env h with
  | None => Some (c1, w1, None)
  | Some view_id =>
      let m := message_struct view_id h msg wp lp in
      match isolate_ c1 with
      | None => Some (push_back m c1, w1, None)
      | Some _ =>
          '(m', w2) ← call_on_message (on_message_ c1) m w1;
          Some (c1, w2,
                if WindowsMessage.handled m'
                then Some (WindowsMessage.result m') else None)
      end
  end.
Proof.
  unfold HandleMessage. destruct (after_erase c w h msg); reflexivity.
Qed.

(** Before [Initialize]: an event is dropped when its view does not resolve
    and appended to the buffer otherwise; nothing reaches the callback. *)
Lemma HandleMessage_buffers (c : t) (w : World) (ev : NativeEvent.t) :
  isolate_ c = None ->
  exists c' w',
    HandleMessage env c w (NativeEvent.hwnd ev) (NativeEvent.message ev)
      (NativeEvent.wparam ev) (NativeEvent.lparam ev) = Some (c', w', None) /\
    isolate_ c' = None /\
    on_message_ c' = on_message_ c /\
    pending_messages_ c' = pending_messages_ c ++ wrap_all env [ev] /\
    delivered w' = delivered w.
Proof.
  intros Hiso. rewrite HandleMessage_unfold.
  destruct (after_erase_keeps c w (NativeEvent.hwnd ev) (NativeEvent.message ev))
    as (Hcb & Hi & Hp & Hd).
  unfold wrap_all, wrap; simpl.
  destruct (GetViewFromTopLevelWindow env (NativeEvent.hwnd ev)) as [v|]; simpl.
  - rewrite Hi, Hiso. eexists _, _; split; [reflexivity|].
    simpl. rewrite Hi, Hcb, Hp, Hd. auto.
  - eexists _, _; split; [reflexivity|].
    rewrite Hi, Hcb, Hp, Hd, app_nil_r. auto.
Qed.

(** After [Initialize]: an event whose view resolves is handed to the
    callback at once, and the buffer is left alone. *)
Lemma HandleMessage_forwards (c : t) (w : World) (ev : NativeEvent.t)
    (cb : callback) (iso : Isolate) :
  isolate_ c = Some iso ->
  on_message_ c = Some cb ->
  exists c' w' r,
    HandleMessage env c w (NativeEvent.hwnd ev) (NativeEvent.message ev)
      (NativeEvent.wparam ev) (NativeEvent.lparam ev) = Some (c', w', r) /\
    isolate_ c' = Some iso /\
    on_message_ c' = Some cb /\
    pending_messages_ c' = pending_messages_ c /\
    delivered w' = delivered w ++ wrap_all env [ev].
Proof.
  intros Hiso Hon. rewrite HandleMessage_unfold.
  destruct (after_erase_keeps c w (NativeEvent.hwnd ev) (NativeEvent.message ev))
    as (Hcb & Hi & Hp & Hd).
  unfold wrap_all, wrap; simpl.
  destruct (GetViewFromTopLevelWindow env (NativeEvent.hwnd ev)) as [v|]; simpl.
  - rewrite Hi, Hiso, Hcb, Hon. simpl.
    eexists _, _, _; split; [reflexivity|].
    rewrite Hi, Hcb, Hp, delivered_emit_OnMessage, Hd. auto.
  - eexists _, _, _; split; [reflexivity|].
    rewrite Hi, Hcb, Hp, Hd, app_nil_r. auto.
Qed.

Lemma wrap_all_cons (ev : NativeEvent.t) (rest : list NativeEvent.t) :
  wrap_all env (ev :: rest) = wrap_all env [ev] ++ wrap_all env rest.
Proof.
  unfold wrap_all; simpl. destruct (wrap env ev); reflexivity.
Qed.

Lemma handle_all_buffers (events : list NativeEvent.t) :
  forall (c : t) (w : World),
  isolate_ c = None ->
  exists c' w',
    handle_all env c w events = Some (c', w') /\
    isolate_ c' = None /\
    on_message_ c' = on_message_ c /\
    pending_messages_ c' = pending_messages_ c ++ wrap_all env events /\
    delivered w' = delivered w.
Proof.
  induction events as [|ev rest IH]; intros c w Hiso.
  - exists c, w. simpl. rewrite app_nil_r. auto.
  - destruct (HandleMessage_buffers c w ev Hiso)
      as (c1 & w1 & Hstep & Hi1 & Hcb1 & Hp1 & Hd1).
    destruct (IH c1 w1 Hi1) as (c2 & w2 & Hrest & Hi2 & Hcb2 & Hp2 & Hd2).
    exists c2, w2. rewrite wrap_all_cons. cbn [handle_all].
    rewrite Hstep; simpl. rewrite Hrest.
    rewrite Hp2, Hp1, Hd2, Hd1, Hcb2, Hcb1, app_assoc. auto.
Qed.

Lemma handle_all_forwards (events : list NativeEvent.t) (cb : callback)
    (iso : Isolate) :
  forall (c : t) (w : World),
  isolate_ c = Some iso ->
  on_message_ c = Some cb ->
  exists c' w',
    handle_all env c w events = Some (c', w') /\
    isolate_ c' = Some iso /\
    on_message_ c' = Some cb /\
    pending_messages_ c' = pending_messages_ c /\
    delivered w' = delivered w ++ wrap_all env events.
Proof.
  induction events as [|ev rest IH]; intros c w Hiso Hon.
  - exists c, w. simpl. rewrite app_nil_r. auto.
  - destruct (HandleMessage_forwards c w ev cb iso Hiso Hon)
      as (c1 & w1 & r & Hstep & Hi1 & Hcb1 & Hp1 & Hd1).
    destruct (IH c1 w1 Hi1 Hcb1) as (c2 & w2 & Hrest & Hi2 & Hcb2 & Hp2 & Hd2).
    exists c2, w2. rewrite wrap_all_cons. cbn [handle_all].
    rewrite Hstep; simpl. rewrite Hrest.
    rewrite Hp2, Hp1, Hd2, Hd1, app_assoc. auto.
Qed.

(** The replay loop hands every buffered message to the callback, in the
    order of the buffer. *)
Lemma replay_delivers (cb : callback) (pending : list WindowsMessage.t) :
  forall w : World,
  exists w',
    replay (Some cb) pending w = Some w' /\
    delivered w' = delivered w ++ pending.
Proof.
  induction pending as [|m rest IH]; intros w.
  - exists w. simpl. rewrite app_nil_r. auto.
  - destruct (IH (emit (OnMessage m) w)) as (w' & Hr & Hd).
    exists w'. simpl. rewrite Hr. split; [reflexivity|].
    rewrite Hd, delivered_emit_OnMessage, <- app_assoc. reflexivity.
Qed.

End Bridge.

(** C1 (as amended).  For every sequence of native events delivered to a
    controller that has not been initialised, every event whose view resolves
    is appended to the buffer and none reaches a callback; [Initialize]
    installs the callback, hands it every buffered message in arrival order,
    once each, and clears the buffer; every later event whose view resolves
    is handed to the callback as it arrives and the buffer stays empty.
    Events whose view does not resolve are dropped in either phase. *)
Theorem Initialize_replays_buffer_in_order (env : Env)
    (c : FlutterHostWindowController.t) (w : World)
    (cb : FlutterHostWindowController.callback)
    (before after : list NativeEvent.t) :
  FlutterHostWindowController.isolate_ c = None ->
  two_phase_delivery env c w cb before after.
Proof.
  intros Hiso. unfold two_phase_delivery.
  destruct (handle_all_buffers env before c w Hiso)
    as (c1 & w1 & H1 & Hi1 & Hcb1 & Hp1 & Hd1).
  destruct (replay_delivers cb (FlutterHostWindowController.pending_messages_ c1) w1)
    as (w2 & Hr & Hd2).
  set (c2 :=
    {| FlutterHostWindowController.active_windows_ :=
         FlutterHostWindowController.active_windows_ c1;
       FlutterHostWindowController.on_message_ := Some cb;
       FlutterHostWindowController.isolate_ :=
         Some FlutterHostWindowController.CurrentIsolate;
       FlutterHostWindowController.pending_messages_ := [] |}).
  destruct (handle_all_forwards env after cb
              FlutterHostWindowController.CurrentIsolate c2 w2 eq_refl eq_refl)
    as (c3 & w3 & H3 & Hi3 & Hcb3 & Hp3 & Hd3).
  exists c1, w1, c2, w2, c3, w3.
  repeat split; try assumption; try reflexivity.
  - unfold FlutterHostWindowController.Initialize; simpl. rewrite Hr. reflexivity.
  - rewrite Hd2, Hd1, Hp1. reflexivity.
Qed.

(** The hypothesis of C1 holds for a freshly constructed controller: two
    events before [Initialize], one after. *)
Lemma Initialize_replays_buffer_in_order_witness :
  let env := sample_env 100%N (fun _ => Some 7%Z) (fun _ => 0%N) in
  let ev (m : UINT) :=
    {| NativeEvent.hwnd := 100%N; NativeEvent.message := m;
       NativeEvent.wparam := 0%Z; NativeEvent.lparam := 0%Z |} in
  FlutterHostWindowController.isolate_ FlutterHostWindowController.constructor
    = None /\
  two_phase_delivery env FlutterHostWindowController.constructor empty_world
    (fun m => m) [ev Win32.WM_SIZE; ev Win32.WM_ACTIVATE] [ev Win32.WM_CLOSE].
Proof.
  split; [reflexivity|].
  apply Initialize_replays_buffer_in_order. reflexivity.
Defined.

(** C1 as stated fails for an event whose view does not resolve: it arrives
    before [Initialize], is not buffered, and [Initialize] replays nothing. *)
Lemma event_without_view_is_not_buffered :
  let env := sample_env 100%N (fun _ => None) (fun _ => 0%N) in
  let ev :=
    {| NativeEvent.hwnd := 100%N; NativeEvent.message := Win32.WM_SIZE;
       NativeEvent.wparam := 0%Z; NativeEvent.lparam := 0%Z |} in
  exists c1 w1 c2 w2,
    handle_all env FlutterHostWindowController.constructor empty_world [ev]
      = Some (c1, w1) /\
    FlutterHostWindowController.pending_messages_ c1 = [] /\
    FlutterHostWindowController.Initialize c1 w1
      {| FlutterHostWindowController.WindowingInitRequest.on_message :=
           Some (fun m => m) |} = Some (c2, w2) /\
    delivered w2 = [].
Proof.
  simpl. eexists _, _, _, _.
  split; [reflexivity|]. split; [reflexivity|]. split; reflexivity.
Qed.

(** C2.  Once the callback is installed, an event whose view resolves is
    handed to the callback within [HandleMessage], which returns the
    callback's result exactly when the callback marked the message handled
    and the empty outcome otherwise.  The message handed to the callback
    carries the view, the handle and the parameters of the event, a result
    of zero and the mark "not handled". *)
Theorem HandleMessage_result_iff_handled (env : Env)
    (c : FlutterHostWindowController.t) (w : World) (hwnd : HWND)
    (message : UINT) (wparam : WPARAM) (lparam : LPARAM)
    (cb : FlutterHostWindowController.callback)
    (iso : FlutterHostWindowController.Isolate) (view_id : FlutterViewId) :
  FlutterHostWindowController.isolate_ c = Some iso ->
  FlutterHostWindowController.on_message_ c = Some cb ->
  GetViewFromTopLevelWindow env hwnd = Some view_id ->
  let m :=
    FlutterHostWindowController.message_struct view_id hwnd message wparam
      lparam in
  exists c' w',
    FlutterHostWindowController.HandleMessage env c w hwnd message wparam lparam
      = Some (c', w',
              if WindowsMessage.handled (cb m)
              then Some (WindowsMessage.result (cb m)) else None) /\
    delivered w' = delivered w ++ [m] /\
    FlutterHostWindowController.pending_messages_ c' =
      FlutterHostWindowController.pending_messages_ c /\
    m = {| WindowsMessage.view_id := view_id; WindowsMessage.hwnd := hwnd;
           WindowsMessage.message := message; WindowsMessage.wParam := wparam;
           WindowsMessage.lParam := lparam; WindowsMessage.result := 0%Z;
           WindowsMessage.handled := false |}.
Proof.
  intros Hiso Hon Hview m.
  rewrite HandleMessage_unfold.
  destruct (after_erase_keeps c w hwnd message) as (Hcb & Hi & Hp & Hd).
  rewrite Hview. simpl. rewrite Hi, Hiso, Hcb, Hon. simpl.
  eexists _, _. split; [reflexivity|].
  rewrite delivered_emit_OnMessage, Hd, Hp. auto.
Qed.

(** The hypotheses of C2 hold for an initialised controller whose callback
    marks every message handled with result [42]. *)
Lemma HandleMessage_result_iff_handled_witness :
  let env := sample_env 100%N (fun _ => Some 7%Z) (fun _ => 0%N) in
  let cb (m : WindowsMessage.t) :=
    {| WindowsMessage.view_id := WindowsMessage.view_id m;
       WindowsMessage.hwnd := WindowsMessage.hwnd m;
       WindowsMessage.message := WindowsMessage.message m;
       WindowsMessage.wParam := WindowsMessage.wParam m;
       WindowsMessage.lParam := WindowsMessage.lParam m;
       WindowsMessage.result := 42%Z;
       WindowsMessage.handled := true |} in
  let c :=
    {| FlutterHostWindowController.active_windows_ := ∅;
       FlutterHostWindowController.on_message_ := Some cb;
       FlutterHostWindowController.isolate_ :=
         Some FlutterHostWindowController.CurrentIsolate;
       FlutterHostWindowController.pending_messages_ := [] |} in
  exists c' w',
    FlutterHostWindowController.HandleMessage env c empty_world 100%N
      Win32.WM_SIZE 0%Z 0%Z = Some (c', w', Some 42%Z) /\
    delivered w' =
      [FlutterHostWindowController.message_struct 7%Z 100%N Win32.WM_SIZE 0%Z
         0%Z] /\
    FlutterHostWindowController.pending_messages_ c' = [] /\
    FlutterHostWindowController.message_struct 7%Z 100%N Win32.WM_SIZE 0%Z 0%Z
    = {| WindowsMessage.view_id := 7%Z; WindowsMessage.hwnd := 100%N;
         WindowsMessage.message := Win32.WM_SIZE; WindowsMessage.wParam := 0%Z;
         WindowsMessage.lParam := 0%Z; WindowsMessage.result := 0%Z;
         WindowsMessage.handled := false |}.
Proof.
  intros env cb c.
  exact (HandleMessage_result_iff_handled env c empty_world 100%N Win32.WM_SIZE
           0%Z 0%Z cb FlutterHostWindowController.CurrentIsolate 7%Z
           eq_refl eq_refl eq_refl).
Defined.

(** ** Construction *)

Lemma world_eta (w : World) :
  {| heap := heap w; instance_property := instance_property w;
     gw_owner := gw_owner w; effects := effects w |} = w.
Proof. destruct w; reflexivity. Qed.

Lemma lookup_store_eq (p : ptr) (e : FlutterHostWindow) (w : World) :
  heap (store p e w) !! p = Some e.
Proof. unfold store, with_heap; simpl. apply lookup_insert_eq. Qed.

Lemma lookup_store_ne (p q : ptr) (e : FlutterHostWindow) (w : World) :
  p <> q -> heap (store p e w) !! q = heap w !! q.
Proof. intros H. unfold store, with_heap; simpl. by apply lookup_insert_ne. Qed.

(** Releasing an object that was stored at a free address and never got a
    handle or a view restores the world. *)
Lemma destructor_store_unrealized (w : World) (this : ptr)
    (e : FlutterHostWindow) :
  heap w !! this = None ->
  window_handle_ e = 0%N ->
  view_controller_ e = None ->
  FlutterHostWindow.destructor (store this e w) this = w.
Proof.
  intros Hfree Hh Hv. unfold FlutterHostWindow.destructor.
  rewrite lookup_store_eq, Hh, Hv. simpl.
  rewrite delete_insert_eq, delete_id by assumption.
  apply world_eta.
Qed.

Lemma invalid_combination_fails_a_check (env : Env)
    (settings : WindowCreationSettings.t) :
  invalid_combination env settings ->
  FlutterHostWindow.archetype_preconditions
    (WindowCreationSettings.archetype settings)
    (FlutterHostWindow.owner_of env settings)
    (WindowCreationSettings.positioner settings) = false \/
  FlutterHostWindow.size_constraints_valid
    (WindowCreationSettings.min_size settings)
    (WindowCreationSettings.max_size settings) = false.
Proof.
  unfold invalid_combination, FlutterHostWindow.archetype_preconditions.
  intros [[Ha Hr] | [[Ha Hp] | (mn & mx & Hmn & Hmx & Hgt)]].
  - left. rewrite Ha.
    destruct (N.eqb_spec (FlutterHostWindow.owner_of env settings) 0) as [Ho|Ho];
      simpl; [|reflexivity].
    destruct Hr as [Hr|Hr]; [contradiction|].
    rewrite bool_decide_eq_true_2 by assumption. reflexivity.
  - left. rewrite Ha.
    destruct Hp as [Ho|Hp].
    + rewrite Ho. simpl. case_bool_decide; reflexivity.
    + rewrite Hp. rewrite bool_decide_eq_false_2; [reflexivity|].
      intros [? ?]; discriminate.
  - right. unfold FlutterHostWindow.size_constraints_valid.
    rewrite Hmn, Hmx. destruct Hgt as [Hgt|Hgt]; rewrite Hgt; simpl.
    + reflexivity.
    + rewrite orb_true_r. reflexivity.
Qed.

(** A failed check ends the constructor before anything but [archetype_] is
    assigned and before any call is made. *)
Lemma constructor_returns_at_failed_check (env : Env) (w : World) (this : ptr)
    (settings : WindowCreationSettings.t) :
  FlutterHostWindow.archetype_preconditions
    (WindowCreationSettings.archetype settings)
    (FlutterHostWindow.owner_of env settings)
    (WindowCreationSettings.positioner settings) = false \/
  FlutterHostWindow.size_constraints_valid
    (WindowCreationSettings.min_size settings)
    (WindowCreationSettings.max_size settings) = false ->
  FlutterHostWindow.constructor env w this settings
    = Some (store this (unrealized settings) w).
Proof.
  intros H. unfold FlutterHostWindow.constructor, unrealized. simpl.
  destruct (FlutterHostWindow.archetype_preconditions _ _ _); simpl;
    [|reflexivity].
  destruct H as [H|H]; [discriminate|]. rewrite H. reflexivity.
Qed.

(** C3.  A construction request with an invalid combination of archetype,
    owner, positioner and size bounds makes the constructor return at once:
    whatever the address of the new object, it is left with no handle and no
    view, no window property, owner link or call is added to the world; the
    controller then releases the object, registers nothing and answers with
    the identifier zero. *)
Theorem invalid_combination_aborts_construction (env : Env)
    (c : FlutterHostWindowController.t) (w : World)
    (settings : WindowCreationSettings.t) :
  invalid_combination env settings ->
  (forall this : ptr,
     FlutterHostWindow.constructor env w this settings
       = Some (store this (unrealized settings) w)) /\
  FlutterHostWindow.GetWindowHandle (unrealized settings) = 0%N /\
  view_controller_ (unrealized settings) = None /\
  FlutterHostWindowController.create_from_settings env c w settings
    = Some (0%Z, c, w).
Proof.
  intros Hinv.
  pose proof (invalid_combination_fails_a_check env settings Hinv) as Hfail.
  split; [|split; [reflexivity|split; [reflexivity|]]].
  - intros this. by apply constructor_returns_at_failed_check.
  - unfold FlutterHostWindowController.create_from_settings.
    rewrite (constructor_returns_at_failed_check env w _ settings Hfail).
    cbn [mbind option_bind]. rewrite lookup_store_eq.
    cbn [mbind option_bind].
    change (FlutterHostWindow.GetWindowHandle (unrealized settings) =? 0)%N
      with true. cbn iota.
    rewrite destructor_store_unrealized; try reflexivity.
    apply not_elem_of_dom, is_fresh.
Qed.

(** The hypothesis of C3 holds for a regular window that is given a
    positioner. *)
Lemma invalid_combination_aborts_construction_witness :
  let env := sample_env 100%N (fun _ => Some 7%Z) (fun _ => 0%N) in
  let settings :=
    {| WindowCreationSettings.archetype := kRegular;
       WindowCreationSettings.parent_view_id := None;
       WindowCreationSettings.positioner :=
         Some {| anchor_rect := None; placement_rules := 0%Z |};
       WindowCreationSettings.size := Size_of 800%float 600%float;
       WindowCreationSettings.min_size := None;
       WindowCreationSettings.max_size := None;
       WindowCreationSettings.state := None;
       WindowCreationSettings.title := None |} in
  invalid_combination env settings /\
  FlutterHostWindowController.create_from_settings env
    FlutterHostWindowController.constructor empty_world settings
    = Some (0%Z, FlutterHostWindowController.constructor, empty_world).
Proof.
  intros env settings.
  assert (Hinv : invalid_combination env settings).
  { left. split; [reflexivity|]. right. eexists; reflexivity. }
  split; [exact Hinv|].
  apply (invalid_combination_aborts_construction env
           FlutterHostWindowController.constructor empty_world settings Hinv).
Defined.

(** The size bounds of the object the constructor leaves at [this]. *)
Lemma constructor_size_bounds (env : Env) (w w1 : World) (this : ptr)
    (settings : WindowCreationSettings.t) (e : FlutterHostWindow) :
  FlutterHostWindow.constructor env w this settings = Some w1 ->
  heap w1 !! this = Some e ->
  let checked :=
    FlutterHostWindow.archetype_preconditions
      (WindowCreationSettings.archetype settings)
      (FlutterHostWindow.owner_of env settings)
      (WindowCreationSettings.positioner settings)
    && FlutterHostWindow.size_constraints_valid
         (WindowCreationSettings.min_size settings)
         (WindowCreationSettings.max_size settings) in
  let scale :=
    FlutterHostWindow.scale_size
      (scale_factor_of
         (GetDpiForHWND env (FlutterHostWindow.owner_of env settings))) in
  min_size_ e =
    (if checked
     then scale <$> FlutterHostWindow.drop_infinite
                      (WindowCreationSettings.min_size settings)
     else None) /\
  max_size_ e =
    (if checked
     then scale <$> FlutterHostWindow.drop_infinite
                      (WindowCreationSettings.max_size settings)
     else None).
Proof.
  intros Hc He. unfold FlutterHostWindow.constructor in Hc. simpl in Hc.
  destruct (FlutterHostWindow.archetype_preconditions _ _ _); simpl in *.
  2: { injection Hc as <-. rewrite lookup_store_eq in He.
       injection He as <-. auto. }
  destruct (FlutterHostWindow.size_constraints_valid _ _); simpl in *.
  2: { injection Hc as <-. rewrite lookup_store_eq in He.
       injection He as <-. auto. }
  destruct (FlutterHostWindow.drop_infinite
              (WindowCreationSettings.min_size settings)) as [mn|],
           (FlutterHostWindow.drop_infinite
              (WindowCreationSettings.max_size settings)) as [mx|];
    simpl in *;
    (destruct (engine_CreateView env _ _ _ _) as [view|];
     [|injection Hc as <-; rewrite lookup_store_eq in He;
       injection He as <-; auto]);
    (destruct (engine_running env); [|discriminate]);
    (destruct (window_class_registered env); simpl in Hc;
     [|injection Hc as <-; rewrite lookup_store_eq in He;
       injection He as <-; auto]);
    (destruct (CreateWindowEx env _ _ _ _ =? 0)%N; simpl in Hc;
     [injection Hc as <-; rewrite lookup_store_eq in He;
      injection He as <-; auto|]);
    (destruct (FlutterHostWindow.link_to_owner _ _ _ _); simpl in Hc;
     [|discriminate]);
    injection Hc as <-; rewrite lookup_store_eq in He;
    injection He as <-;
    repeat match goal with
           | |- context [if ?b then _ else _] => destruct b
           end; auto.
Qed.

(** An object the constructor leaves with a handle has passed both
    checks. *)
Lemma realized_passed_the_checks (env : Env) (w w1 : World) (this : ptr)
    (settings : WindowCreationSettings.t) (e : FlutterHostWindow) :
  FlutterHostWindow.constructor env w this settings = Some w1 ->
  heap w1 !! this = Some e ->
  window_handle_ e <> 0%N ->
  FlutterHostWindow.archetype_preconditions
    (WindowCreationSettings.archetype settings)
    (FlutterHostWindow.owner_of env settings)
    (WindowCreationSettings.positioner settings)
  && FlutterHostWindow.size_constraints_valid
       (WindowCreationSettings.min_size settings)
       (WindowCreationSettings.max_size settings) = true.
Proof.
  intros Hc He Hh. unfold FlutterHostWindow.constructor in Hc. simpl in Hc.
  destruct (FlutterHostWindow.archetype_preconditions _ _ _); simpl in *.
  2: { injection Hc as <-. rewrite lookup_store_eq in He.
       injection He as <-. contradiction. }
  destruct (FlutterHostWindow.size_constraints_valid _ _); simpl in *;
    [reflexivity|].
  injection Hc as <-. rewrite lookup_store_eq in He.
  injection He as <-. contradiction.
Qed.

(** The heap the destructor leaves. *)
Lemma destructor_heap (w : World) (p : ptr) :
  heap (FlutterHostWindow.destructor w p) = delete p (heap w).
Proof.
  unfold FlutterHostWindow.destructor.
  destruct (heap w !! p) as [e|] eqn:He.
  - destruct (bool_decide _); reflexivity.
  - symmetry. by apply delete_id.
Qed.

(** The object [CreateWindow_] has allocated is live on return only when its
    constructor has left it with a handle; it is then registered under that
    handle. *)
Lemma created_window_is_realized (env : Env)
    (c c' : FlutterHostWindowController.t) (w w' : World)
    (settings : WindowCreationSettings.t) (id : FlutterViewId)
    (e : FlutterHostWindow) :
  let this := fresh (dom (heap w)) in
  FlutterHostWindowController.create_from_settings env c w settings
    = Some (id, c', w') ->
  heap w' !! this = Some e ->
  window_handle_ e <> 0%N /\
  FlutterHostWindowController.active_windows_ c' !! window_handle_ e
    = Some this /\
  exists w1,
    FlutterHostWindow.constructor env w this settings = Some w1 /\
    heap w1 !! this = Some e.
Proof.
  intros this.
  unfold FlutterHostWindowController.create_from_settings. fold this.
  destruct (FlutterHostWindow.constructor env w this settings) as [w1|] eqn:Hc;
    [cbn [mbind option_bind]|discriminate].
  destruct (heap w1 !! this) as [window|] eqn:Hw;
    [cbn [mbind option_bind]|discriminate].
  unfold FlutterHostWindow.GetWindowHandle.
  destruct (N.eqb_spec (window_handle_ window) 0) as [Hz|Hnz].
  { intros [= _ _ <-]. rewrite destructor_heap, lookup_delete_eq.
    discriminate. }
  destruct (view_controller_ window) as [view|];
    [cbn [mbind option_bind]|discriminate].
  unfold FlutterHostWindowController.register_window.
  intros [= _ <- <-]. simpl.
  destruct (FlutterHostWindowController.active_windows_ c
              !! window_handle_ window) as [old|].
  - rewrite destructor_heap.
    destruct (decide (old = this)) as [->|Hne].
    + rewrite lookup_delete_eq. discriminate.
    + rewrite lookup_delete_ne by exact Hne. rewrite Hw. intros [= <-].
      split; [exact Hnz|]. split; [apply lookup_insert_eq|]. by exists w1.
  - rewrite Hw. intros [= <-].
    split; [exact Hnz|]. split; [apply lookup_insert_eq|]. by exists w1.
Qed.

(** C10.  [CreateWindow_] always hands the constructor a minimum size, made
    of [min_width] and [min_height] as they are, zero or not; it hands it a
    maximum size only when [max_width] and [max_height] both differ from
    zero.  The window [CreateWindow_] has created and registered therefore
    has the minimum size of the request (scaled to physical size, or dropped
    when a component is infinite) and has a maximum size, that of the
    request, only when both maximum components differ from zero; a request
    whose minimum exceeds a maximum with two components other than zero is
    refused; and a request with a zero maximum component is treated as the
    same request without any maximum. *)
Theorem CreateWindow_passes_max_only_if_both_nonzero (env : Env)
    (c : FlutterHostWindowController.t) (w : World)
    (request : FlutterHostWindowController.WindowCreationRequest.t) :
  let min_w :=
    FlutterHostWindowController.WindowCreationRequest.min_width request in
  let min_h :=
    FlutterHostWindowController.WindowCreationRequest.min_height request in
  let max_w :=
    FlutterHostWindowController.WindowCreationRequest.max_width request in
  let max_h :=
    FlutterHostWindowController.WindowCreationRequest.max_height request in
  let both_nonzero := double_ne max_w 0%float && double_ne max_h 0%float in
  let this := fresh (dom (heap w)) in
  let scale :=
    FlutterHostWindow.scale_size (scale_factor_of (GetDpiForHWND env 0%N)) in
  let kept (s : flutter.Size) :=
    if isinf (flutter.width s) || isinf (flutter.height s) then None
    else Some (scale s) in
  (forall (id : FlutterViewId) (c' : FlutterHostWindowController.t)
          (w' : World) (e : FlutterHostWindow),
     FlutterHostWindowController.CreateWindow_ env c w request
       = Some (id, c', w') ->
     heap w' !! this = Some e ->
     window_handle_ e <> 0%N /\
     FlutterHostWindowController.active_windows_ c' !! window_handle_ e
       = Some this /\
     min_size_ e = kept (Size_of min_w min_h) /\
     max_size_ e = (if both_nonzero then kept (Size_of max_w max_h) else None)) /\
  (both_nonzero = true ->
   double_gt min_w max_w || double_gt min_h max_h = true ->
   FlutterHostWindowController.CreateWindow_ env c w request
     = Some (0%Z, c, w)) /\
  (both_nonzero = false ->
   FlutterHostWindowController.CreateWindow_ env c w request
     = FlutterHostWindowController.CreateWindow_ env c w (without_max request)).
Proof.
  intros min_w min_h max_w max_h both_nonzero this scale kept.
  split; [|split].
  - intros id c' w' e Hcreate He.
    unfold FlutterHostWindowController.CreateWindow_ in Hcreate.
    destruct (created_window_is_realized env c c' w w' _ id e Hcreate He)
      as (Hh & Hreg & w1 & Hc & He1).
    split; [exact Hh|]. split; [exact Hreg|].
    destruct (constructor_size_bounds env w w1 _ _ e Hc He1) as [Hmin Hmax].
    rewrite (realized_passed_the_checks env w w1 _ _ e Hc He1 Hh)
      in Hmin, Hmax.
    rewrite Hmin, Hmax.
    unfold FlutterHostWindowController.settings_of,
      FlutterHostWindow.drop_infinite, FlutterHostWindow.owner_of, kept.
    unfold both_nonzero. simpl. fold min_w min_h max_w max_h scale.
    split.
    + destruct (isinf min_w || isinf min_h); reflexivity.
    + destruct (double_ne max_w 0%float && double_ne max_h 0%float);
        [|reflexivity].
      simpl. destruct (isinf max_w || isinf max_h); reflexivity.
  - intros Hboth Hgt.
    unfold FlutterHostWindowController.CreateWindow_,
      FlutterHostWindowController.create_from_settings.
    assert (Hfail :
      FlutterHostWindow.archetype_preconditions
        (WindowCreationSettings.archetype
           (FlutterHostWindowController.settings_of request))
        (FlutterHostWindow.owner_of env
           (FlutterHostWindowController.settings_of request))
        (WindowCreationSettings.positioner
           (FlutterHostWindowController.settings_of request)) = false \/
      FlutterHostWindow.size_constraints_valid
        (WindowCreationSettings.min_size
           (FlutterHostWindowController.settings_of request))
        (WindowCreationSettings.max_size
           (FlutterHostWindowController.settings_of request)) = false).
    { right. unfold FlutterHostWindowController.settings_of. simpl.
      fold min_w min_h max_w max_h both_nonzero. rewrite Hboth. simpl.
      rewrite Hgt. reflexivity. }
    rewrite (constructor_returns_at_failed_check env w _ _ Hfail).
    cbn [mbind option_bind]. rewrite lookup_store_eq.
    cbn [mbind option_bind].
    change (FlutterHostWindow.GetWindowHandle
              (unrealized (FlutterHostWindowController.settings_of request))
            =? 0)%N with true.
    cbn iota.
    rewrite destructor_store_unrealized; try reflexivity.
    apply not_elem_of_dom, is_fresh.
  - intros Hboth.
    unfold FlutterHostWindowController.CreateWindow_. f_equal.
    unfold FlutterHostWindowController.settings_of, without_max. simpl.
    fold max_w max_h both_nonzero. rewrite Hboth.
    reflexivity.
Qed.

(** C10 at a request whose maximum height alone is zero, for the first
    window of an application: the window is created and registered, keeps
    its minimum size of zero by zero and has no maximum; the request has the
    outcome of the same request with a maximum of zero by zero. *)
Lemma CreateWindow_passes_max_only_if_both_nonzero_witness :
  let env := sample_env 100%N (fun _ => Some 7%Z) (fun _ => 0%N) in
  let c := FlutterHostWindowController.constructor in
  let request := request_with 0%float 0%float 500%float 0%float in
  let out := FlutterHostWindowController.CreateWindow_ env c empty_world request in
  let c' := default c ((fun r => snd (fst r)) <$> out) in
  let w' := default empty_world (snd <$> out) in
  let e := window_at w' 1%positive in
  out = Some (7%Z, c', w') /\
  (window_handle_ e <> 0%N /\
   FlutterHostWindowController.active_windows_ c' !! window_handle_ e
     = Some 1%positive /\
   min_size_ e = Some (Size_of 0%float 0%float) /\
   max_size_ e = None) /\
  out = FlutterHostWindowController.CreateWindow_ env c empty_world
          (request_with 0%float 0%float 0%float 0%float).
Proof.
  intros env c request out c' w' e.
  destruct (CreateWindow_passes_max_only_if_both_nonzero env c empty_world
              request) as (Hcreated & _ & Hsame).
  split; [by_evaluation|]. split.
  - apply (Hcreated 7%Z c' w' e); by_evaluation.
  - apply Hsame. by_evaluation.
Defined.

(** ** Infinite size bounds *)

Lemma nothing_exceeds_infinity (a : double) : double_gt a infinity = false.
Proof.
  unfold double_gt. rewrite FloatAxioms.ltb_spec. unfold SFltb. simpl.
  destruct (Prim2SF a) as [s| s| |s m ex]; simpl; try reflexivity;
    destruct s; reflexivity.
Qed.

Lemma infinity_exceeds_finite (a : double) :
  isfinite a = true -> double_gt infinity a = true.
Proof.
  unfold isfinite, PrimFloat.is_finite, PrimFloat.is_nan,
    PrimFloat.is_infinity, double_gt.
  rewrite !FloatAxioms.eqb_spec, FloatAxioms.ltb_spec, FloatAxioms.abs_spec.
  unfold SFeqb, SFltb.
  destruct (Prim2SF a) as [s| s| |s m ex]; simpl; try reflexivity;
    try destruct s; try reflexivity; try discriminate.
  all: rewrite ?Z.compare_refl, ?Pos.compare_cont_refl; simpl;
    try discriminate.
Qed.

(** A minimum size with a component of positive infinity fails the check
    against a maximum size whose component on the same axis is finite. *)
Lemma infinite_min_fails_the_check (mn mx : flutter.Size) :
  (flutter.width mn = infinity /\ isfinite (flutter.width mx) = true) \/
  (flutter.height mn = infinity /\ isfinite (flutter.height mx) = true) ->
  FlutterHostWindow.size_constraints_valid (Some mn) (Some mx) = false.
Proof.
  unfold FlutterHostWindow.size_constraints_valid.
  intros [[-> Hfin] | [-> Hfin]];
    rewrite (infinity_exceeds_finite _ Hfin); simpl;
    rewrite ?orb_true_r; reflexivity.
Qed.

(** C8 (as amended).  For a request that passes the archetype checks, the
    check of the minimum against the maximum size comes first and compares
    the bounds as given: a minimum component of positive infinity against a
    finite maximum component on the same axis fails construction (the object
    is left without handle and view, nothing is added to the world, and the
    controller answers with the identifier zero and registers nothing), and
    a maximum size of infinity by infinity passes the check against every
    minimum size.  Once the check has passed, a bound with an infinite width
    or height is discarded whole, its other component included, and a bound
    without infinite component is kept, scaled to physical size; the other
    bound is treated on its own. *)
Theorem infinite_bound_discarded_whole_after_check (env : Env) (w : World)
    (this : ptr) (settings : WindowCreationSettings.t) :
  FlutterHostWindow.archetype_preconditions
    (WindowCreationSettings.archetype settings)
    (FlutterHostWindow.owner_of env settings)
    (WindowCreationSettings.positioner settings) = true ->
  let scale :=
    FlutterHostWindow.scale_size
      (scale_factor_of
         (GetDpiForHWND env (FlutterHostWindow.owner_of env settings))) in
  let kept (bound : option flutter.Size) :=
    match bound with
    | Some s =>
        if isinf (flutter.width s) || isinf (flutter.height s) then None
        else Some (scale s)
    | None => None
    end in
  (forall mn mx : flutter.Size,
     WindowCreationSettings.min_size settings = Some mn ->
     WindowCreationSettings.max_size settings = Some mx ->
     (flutter.width mn = infinity /\ isfinite (flutter.width mx) = true) \/
     (flutter.height mn = infinity /\ isfinite (flutter.height mx) = true) ->
     FlutterHostWindow.constructor env w this settings
       = Some (store this (unrealized settings) w) /\
     FlutterHostWindow.GetWindowHandle (unrealized settings) = 0%N /\
     view_controller_ (unrealized settings) = None /\
     forall c : FlutterHostWindowController.t,
       FlutterHostWindowController.create_from_settings env c w settings
         = Some (0%Z, c, w)) /\
  (forall mn : flutter.Size,
     FlutterHostWindow.size_constraints_valid (Some mn)
       (Some (Size_of infinity infinity)) = true) /\
  (forall (w1 : World) (e : FlutterHostWindow),
     FlutterHostWindow.size_constraints_valid
       (WindowCreationSettings.min_size settings)
       (WindowCreationSettings.max_size settings) = true ->
     FlutterHostWindow.constructor env w this settings = Some w1 ->
     heap w1 !! this = Some e ->
     min_size_ e = kept (WindowCreationSettings.min_size settings) /\
     max_size_ e = kept (WindowCreationSettings.max_size settings)).
Proof.
  intros Hpre scale kept.
  split; [|split].
  - intros mn mx Hmn Hmx Hinf.
    assert (Hfail :
      FlutterHostWindow.archetype_preconditions
        (WindowCreationSettings.archetype settings)
        (FlutterHostWindow.owner_of env settings)
        (WindowCreationSettings.positioner settings) = false \/
      FlutterHostWindow.size_constraints_valid
        (WindowCreationSettings.min_size settings)
        (WindowCreationSettings.max_size settings) = false).
    { right. rewrite Hmn, Hmx. by apply infinite_min_fails_the_check. }
    split; [by apply constructor_returns_at_failed_check|].
    split; [reflexivity|]. split; [reflexivity|].
    intros c. unfold FlutterHostWindowController.create_from_settings.
    rewrite (constructor_returns_at_failed_check env w _ settings Hfail).
    cbn [mbind option_bind]. rewrite lookup_store_eq.
    cbn [mbind option_bind].
    change (FlutterHostWindow.GetWindowHandle (unrealized settings) =? 0)%N
      with true. cbn iota.
    rewrite destructor_store_unrealized; try reflexivity.
    apply not_elem_of_dom, is_fresh.
  - intros mn. unfold FlutterHostWindow.size_constraints_valid. simpl.
    rewrite !nothing_exceeds_infinity. reflexivity.
  - intros w1 e Hsize Hc He.
    destruct (constructor_size_bounds env w w1 this settings e Hc He)
      as [Hmin Hmax].
    rewrite Hpre, Hsize in Hmin, Hmax. simpl in Hmin, Hmax.
    split.
    + rewrite Hmin. unfold kept, FlutterHostWindow.drop_infinite.
      destruct (WindowCreationSettings.min_size settings) as [s|];
        [|reflexivity].
      destruct (isinf _ || isinf _); reflexivity.
    + rewrite Hmax. unfold kept, FlutterHostWindow.drop_infinite.
      destruct (WindowCreationSettings.max_size settings) as [s|];
        [|reflexivity].
      destruct (isinf _ || isinf _); reflexivity.
Qed.

(** C8 at two requests for a regular window.  With a minimum size of
    infinity by 0 and a maximum size of 1000 by 1000 construction fails.
    With a maximum size of infinity by 500 the window is created, keeps its
    minimum size and has no maximum size. *)
Lemma infinite_bound_discarded_whole_after_check_witness :
  let env := sample_env 100%N (fun _ => Some 7%Z) (fun _ => 0%N) in
  let size := Size_of 800%float 600%float in
  let refused :=
    regular_settings size (Some (Size_of infinity 0%float))
      (Some (Size_of 1000%float 1000%float)) in
  let unbounded_above :=
    regular_settings size (Some (Size_of 100%float 100%float))
      (Some (Size_of infinity 500%float)) in
  let built settings :=
    default empty_world
      (FlutterHostWindow.constructor env empty_world 1%positive settings) in
  (FlutterHostWindow.constructor env empty_world 1%positive refused
     = Some (store 1%positive (unrealized refused) empty_world) /\
   FlutterHostWindow.GetWindowHandle (unrealized refused) = 0%N /\
   view_controller_ (unrealized refused) = None /\
   forall c : FlutterHostWindowController.t,
     FlutterHostWindowController.create_from_settings env c empty_world refused
       = Some (0%Z, c, empty_world)) /\
  (window_handle_ (window_at (built unbounded_above) 1%positive) = 100%N /\
   min_size_ (window_at (built unbounded_above) 1%positive)
     = Some (Size_of 100%float 100%float) /\
   max_size_ (window_at (built unbounded_above) 1%positive) = None).
Proof.
  intros env size refused unbounded_above built.
  split.
  - destruct (infinite_bound_discarded_whole_after_check env empty_world
                1%positive refused eq_refl) as (Hfail & _ & _).
    apply (Hfail (Size_of infinity 0%float) (Size_of 1000%float 1000%float)
             eq_refl eq_refl).
    left. split; reflexivity.
  - destruct (infinite_bound_discarded_whole_after_check env empty_world
                1%positive unbounded_above eq_refl) as (_ & _ & Hkept).
    destruct (Hkept (built unbounded_above)
                (window_at (built unbounded_above) 1%positive))
      as (Hmin & Hmax); [by_evaluation ..|].
    split; [by_evaluation|]. split; [exact Hmin | exact Hmax].
Defined.

(** C8 as stated fails twice.  An infinite minimum width against a finite
    maximum makes construction fail, where the same request with a finite
    minimum succeeds; and the finite height of a maximum size of infinity by
    500 bounds nothing, the whole maximum being dropped. *)
Lemma infinite_component_can_fail_construction :
  let env := sample_env 100%N (fun _ => Some 7%Z) (fun _ => 0%N) in
  let c := FlutterHostWindowController.constructor in
  let create request :=
    FlutterHostWindowController.CreateWindow_ env c empty_world request in
  let world_of out : World := default empty_world (snd <$> out) in
  let registry_of out :=
    FlutterHostWindowController.active_windows_
      (default c ((fun r => snd (fst r)) <$> out)) in
  let id_of out : option FlutterViewId := (fun r => fst (fst r)) <$> out in
  let infinite_min := create (request_with infinity 0%float 1000%float 1000%float) in
  let finite_min := create (request_with 10%float 0%float 1000%float 1000%float) in
  let infinite_max := create (request_with 0%float 0%float infinity 500%float) in
  isinf infinity = true /\
  infinite_min = Some (0%Z, c, empty_world) /\
  (id_of finite_min = Some 7%Z /\
   registry_of finite_min !! 100%N = Some 1%positive /\
   window_handle_ (window_at (world_of finite_min) 1%positive) = 100%N) /\
  (id_of infinite_max = Some 7%Z /\
   registry_of infinite_max !! 100%N = Some 1%positive /\
   window_handle_ (window_at (world_of infinite_max) 1%positive) = 100%N /\
   max_size_ (window_at (world_of infinite_max) 1%positive) = None).
Proof. cbv zeta. split_all; by_evaluation. Qed.

(** ** Destroy notifications *)

Lemma focus_requests_app (l1 l2 : list Effect) :
  focus_requests (l1 ++ l2) = focus_requests l1 ++ focus_requests l2.
Proof.
  induction l1 as [|e l1 IH]; [reflexivity|].
  destruct e; simpl; rewrite IH; reflexivity.
Qed.

Lemma after_switch_focus (env : Env) (w : World) (e : FlutterHostWindow)
    (h : HWND) (msg : UINT) (wp : WPARAM) (lp : LPARAM) :
  heap (FlutterHostWindow.after_switch env w e h msg wp lp).1 = heap w /\
  focus_requests
    (effects (FlutterHostWindow.after_switch env w e h msg wp lp).1)
    = focus_requests (effects w).
Proof.
  unfold FlutterHostWindow.after_switch.
  destruct (negb _); simpl; [auto|].
  rewrite focus_requests_app. simpl. rewrite app_nil_r. auto.
Qed.

(** C4 (as amended).  For a popup with a live owner whose popup count is
    positive, the destroy notification, unless the lifecycle manager consumes
    it, removes the popup from the owner's owned set, lowers the owner's
    popup count by one, and sets the focus to the owner's content whenever
    the owner has a content window, whatever the resulting count. *)
Theorem popup_destroy_unlinks_and_focuses_owner (env : Env) (w : World)
    (this owner : ptr) (e oe : FlutterHostWindow) (hwnd : HWND)
    (wparam : WPARAM) (lparam : LPARAM) :
  heap w !! this = Some e ->
  archetype_ e = kPopup ->
  window_handle_ e <> 0%N ->
  FlutterHostWindow.GetOwnerWindow w e = Some owner ->
  heap w !! owner = Some oe ->
  (0 < num_owned_popups_ oe)%Z ->
  lifecycle_WindowProc env hwnd Win32.WM_DESTROY wparam lparam = false ->
  exists w' r oe',
    FlutterHostWindow.HandleMessage env w this hwnd Win32.WM_DESTROY wparam
      lparam = Some (w', r) /\
    heap w' !! owner = Some oe' /\
    owned_windows_ oe' = owned_windows_ oe ∖ {[this]} /\
    num_owned_popups_ oe' = (num_owned_popups_ oe - 1)%Z /\
    focus_requests (effects w') =
      focus_requests (effects w)
      ++ (if (child_content_ oe =? 0)%N then [] else [child_content_ oe]).
Proof.
  intros He Ha Hh Ho Hoe Hpos Hlc.
  unfold FlutterHostWindow.HandleMessage. rewrite He. simpl.
  rewrite Hlc, andb_false_r.
  unfold FlutterHostWindow.on_destroy.
  apply N.eqb_neq in Hh. rewrite Hh, Ha, Ho. simpl. rewrite Hoe. simpl.
  apply Z.ltb_lt in Hpos. rewrite Hpos. simpl.
  match goal with
  | |- context [FlutterHostWindow.after_switch ?a ?b ?c ?d ?f ?g ?i] =>
      destruct (after_switch_focus a b c d f g i) as [Hheap Hfocus];
      destruct (FlutterHostWindow.after_switch a b c d f g i) as [w' r]
  end.
  simpl in Hheap, Hfocus.
  assert (Hdec : size_t_dec (num_owned_popups_ oe) = (num_owned_popups_ oe - 1)%Z).
  { unfold size_t_dec. apply Z.ltb_lt in Hpos.
    destruct (Z.eqb_spec (num_owned_popups_ oe) 0); [lia|reflexivity]. }
  exists w', r.
  rewrite Hheap, Hfocus.
  destruct (child_content_ oe =? 0)%N eqn:Hcc; simpl;
    (eexists; split; [reflexivity|]);
    (split; [apply lookup_insert_eq|]); simpl;
    (split; [reflexivity|]); (split; [exact Hdec|]).
  - rewrite app_nil_r. reflexivity.
  - rewrite focus_requests_app. reflexivity.
Qed.

(** The hypotheses of C4 hold for the popup at address [2] of
    [two_popups_world], owned by the window at address [1]. *)
Lemma popup_destroy_unlinks_and_focuses_owner_witness :
  let oe := window_at two_popups_world 1%positive in
  exists w' r oe',
    FlutterHostWindow.HandleMessage two_popups_env two_popups_world 2%positive
      200%N Win32.WM_DESTROY 0%Z 0%Z = Some (w', r) /\
    heap w' !! 1%positive = Some oe' /\
    owned_windows_ oe' = owned_windows_ oe ∖ {[2%positive]} /\
    num_owned_popups_ oe' = (num_owned_popups_ oe - 1)%Z /\
    focus_requests (effects w') =
      focus_requests (effects two_popups_world)
      ++ (if (child_content_ oe =? 0)%N then [] else [child_content_ oe]).
Proof.
  intros oe.
  refine (popup_destroy_unlinks_and_focuses_owner two_popups_env
            two_popups_world 2%positive 1%positive
            (window_at two_popups_world 2%positive) oe 200%N 0%Z 0%Z
            _ _ _ _ _ _ _); by_evaluation.
Defined.

(** C4 as stated fails in [two_popups_world]: destroying one of the two
    popups leaves the owner with a popup count of one, not zero, and the
    focus is set to the owner's content all the same. *)
Lemma focus_set_although_a_popup_remains :
  let out :=
    FlutterHostWindow.HandleMessage two_popups_env two_popups_world 2%positive
      200%N Win32.WM_DESTROY 0%Z 0%Z in
  let w' := default empty_world (fst <$> out) in
  let oe' := window_at w' 1%positive in
  out = Some (w', 0%Z) /\
  heap w' !! 1%positive = Some oe' /\
  num_owned_popups_ oe' = 1%Z /\
  owned_windows_ oe' = {[3%positive]} /\
  child_content_ oe' = 101%N /\
  effects w' =
    effects two_popups_world
    ++ [SetFocus 101%N; DefWindowProc 200%N Win32.WM_DESTROY 0%Z 0%Z].
Proof. cbv zeta. split_all; by_evaluation. Qed.

(** ** Closing owned popups *)

Lemma same_on_refl {A : Type} (f : FlutterHostWindow -> A) (w : World) :
  same_on f w w.
Proof. intros p. reflexivity. Qed.

Lemma same_on_trans {A : Type} (f : FlutterHostWindow -> A)
    (w1 w2 w3 : World) :
  same_on f w1 w2 -> same_on f w2 w3 -> same_on f w1 w3.
Proof. intros H12 H23 p. rewrite H23. apply H12. Qed.

Lemma same_on_emit {A : Type} (f : FlutterHostWindow -> A) (e : Effect)
    (w : World) :
  same_on f w (emit e w).
Proof. intros p. reflexivity. Qed.

Lemma same_on_store {A : Type} (f : FlutterHostWindow -> A) (w : World)
    (p : ptr) (e e' : FlutterHostWindow) :
  heap w !! p = Some e ->
  f e' = f e ->
  same_on f w (store p e' w).
Proof.
  intros He Hb q. destruct (decide (p = q)) as [<-|Hne].
  - rewrite lookup_store_eq, He. simpl. by rewrite Hb.
  - by rewrite lookup_store_ne.
Qed.

(** Posting the close request to one popup changes the inactive-redraw flag
    of its owner back and forth and nothing of the bookkeeping. *)
Lemma close_popup_same (w w' : World) (popup : ptr) :
  FlutterHostWindow.close_popup w popup = Some w' -> same_bookkeeping w w'.
Proof.
  unfold FlutterHostWindow.close_popup.
  destruct (heap w !! popup) as [pe|]; [simpl|discriminate].
  destruct (GetThisFromHandle w _) as [owner|].
  2: { intros [= <-]. apply same_on_refl. }
  destruct (heap w !! owner) as [oe|] eqn:Hoe; [simpl|discriminate].
  set (oe1 := FlutterHostWindow.set_enable_redraw_non_client_as_inactive_ false oe).
  set (oe2 := FlutterHostWindow.set_enable_redraw_non_client_as_inactive_ true oe1).
  assert (H1 : same_bookkeeping w (store owner oe1 w))
    by (by apply (same_on_store bookkeeping w owner oe)).
  assert (H3 : same_bookkeeping w
                 (store owner oe2
                    (emit (PostMessage (FlutterHostWindow.GetWindowHandle pe)
                             Win32.WM_CLOSE 0%Z 0%Z) (store owner oe1 w)))).
  { eapply same_on_trans; [exact H1|].
    eapply same_on_trans; [apply same_on_emit|].
    apply (same_on_store bookkeeping _ owner oe1); [|reflexivity].
    apply lookup_store_eq. }
  destruct (num_owned_popups_ oe =? 0)%Z; intros [= <-]; [|exact H3].
  eapply same_on_trans; [exact H3|apply same_on_emit].
Qed.

Lemma close_popups_same (popups : list ptr) :
  forall w w' : World,
  FlutterHostWindow.close_popups popups w = Some w' -> same_bookkeeping w w'.
Proof.
  induction popups as [|p rest IH]; intros w w'; simpl.
  - intros [= <-]. apply same_on_refl.
  - destruct (FlutterHostWindow.close_popup w p) as [w1|] eqn:H1;
      [simpl|discriminate].
    intros Hrest. eapply same_on_trans.
    + by eapply close_popup_same.
    + by apply IH.
Qed.

Lemma size_t_sub_diag (a : Z) : size_t_sub a a = 0%Z.
Proof. unfold size_t_sub. by rewrite Z.sub_diag. Qed.

(** What [CloseOwnedPopups] does, for every world in which it returns: with
    a popup count of zero nothing; otherwise the popups are taken out of the
    owned set and no count changes.  The value returned is zero either way. *)
Lemma CloseOwnedPopups_outcome (w w' : World) (this : ptr) (n : Z) :
  FlutterHostWindow.CloseOwnedPopups w this = Some (w', n) ->
  exists e,
    heap w !! this = Some e /\
    n = 0%Z /\
    (num_owned_popups_ e = 0%Z -> w' = w) /\
    (num_owned_popups_ e <> 0%Z ->
     exists e',
       heap w' !! this = Some e' /\
       owned_windows_ e' =
         owned_windows_ e ∖ FlutterHostWindow.popups_in w (owned_windows_ e) /\
       num_owned_popups_ e' = num_owned_popups_ e /\
       state_ e' = state_ e /\
       (forall p, p <> this ->
          bookkeeping <$> heap w' !! p = bookkeeping <$> heap w !! p) /\
       (forall p, FlutterHostWindow.is_popup w' p
                  = FlutterHostWindow.is_popup w p)).
Proof.
  unfold FlutterHostWindow.CloseOwnedPopups.
  destruct (heap w !! this) as [e|] eqn:He; [simpl|discriminate].
  destruct (Z.eqb_spec (num_owned_popups_ e) 0) as [Hz|Hnz].
  { intros [= <- <-]. exists e. repeat split; auto. contradiction. }
  destruct (negb _); [discriminate|].
  set (popups := FlutterHostWindow.popups_in w (owned_windows_ e)).
  set (e1 := FlutterHostWindow.set_owned_windows_ (owned_windows_ e ∖ popups) e).
  rewrite lookup_insert_eq. simpl.
  destruct (FlutterHostWindow.close_popups _ _) as [w2|] eqn:Hclose;
    [simpl|discriminate].
  pose proof (close_popups_same _ _ _ Hclose) as Hsame.
  pose proof (Hsame this) as Hthis. rewrite lookup_store_eq in Hthis.
  destruct (heap w2 !! this) as [e2|] eqn:He2; [simpl in *|discriminate].
  injection Hthis as Ha Ho Hn Hs.
  intros [= <- <-]. exists e.
  split; [reflexivity|]. split; [rewrite Hn; apply size_t_sub_diag|].
  split; [contradiction|]. intros _. exists e2.
  split; [exact He2|]. split; [exact Ho|]. split; [exact Hn|].
  split; [exact Hs|].
  assert (Hother : forall p, p <> this ->
            bookkeeping <$> heap w2 !! p = bookkeeping <$> heap w !! p).
  { intros p Hp. rewrite Hsame. by rewrite lookup_store_ne. }
  split; [exact Hother|].
  intros p. unfold FlutterHostWindow.is_popup.
  destruct (decide (p = this)) as [->|Hp].
  - rewrite He2, He. by rewrite Ha.
  - specialize (Hother p Hp).
    destruct (heap w2 !! p) as [a|], (heap w !! p) as [b|];
      simpl in Hother; try discriminate; [|reflexivity].
    injection Hother as Hab _ _ _. by rewrite Hab.
Qed.

(** C5, evaluated in [two_popups_world].  The owner at address [1] has two
    popups in its owned set and a popup count of two.  [CloseOwnedPopups]
    takes both out of the owned set and posts a close request to each; the
    popup count is still two when it returns, and the value returned, the
    count before less the count after, is zero, not two. *)
Lemma CloseOwnedPopups_returns_zero_for_two_popups :
  let before := window_at two_popups_world 1%positive in
  let out := FlutterHostWindow.CloseOwnedPopups two_popups_world 1%positive in
  let w' := default empty_world (fst <$> out) in
  let after := window_at w' 1%positive in
  owned_popups two_popups_world before = 2 /\
  num_owned_popups_ before = 2%Z /\
  out = Some (w', 0%Z) /\
  owned_popups w' after = 0 /\
  num_owned_popups_ after = 2%Z /\
  length (posted (effects w')) = 2 /\
  list_to_set (posted (effects w')) =
    ({[(200%N, Win32.WM_CLOSE); (300%N, Win32.WM_CLOSE)]} : gset (HWND * UINT)).
Proof. cbv zeta. split_all; by_evaluation. Qed.

(** X1.  Whatever the world, when [CloseOwnedPopups] returns it returns
    zero, and the popup count of the window it was called on is what it was:
    the close requests are posted, and no destroy notification is handled
    before the return. *)
Theorem CloseOwnedPopups_always_returns_zero (w w' : World) (this : ptr)
    (n : Z) :
  FlutterHostWindow.CloseOwnedPopups w this = Some (w', n) ->
  n = 0%Z /\
  num_owned_popups_ <$> heap w' !! this = num_owned_popups_ <$> heap w !! this.
Proof.
  intros Hclose.
  destruct (CloseOwnedPopups_outcome w w' this n Hclose)
    as (e & He & Hn & Hzero & Hnonzero).
  split; [exact Hn|].
  destruct (Z.eq_dec (num_owned_popups_ e) 0%Z) as [Hz|Hnz].
  - by rewrite (Hzero Hz).
  - destruct (Hnonzero Hnz) as (e' & He' & _ & Hnum & _).
    rewrite He, He'. simpl. by rewrite Hnum.
Qed.

Lemma CloseOwnedPopups_always_returns_zero_witness :
  let out := FlutterHostWindow.CloseOwnedPopups two_popups_world 1%positive in
  let w' := default empty_world (fst <$> out) in
  0%Z = 0%Z /\
  num_owned_popups_ <$> heap w' !! 1%positive
    = num_owned_popups_ <$> heap two_popups_world !! 1%positive.
Proof.
  intros out w'.
  apply (CloseOwnedPopups_always_returns_zero two_popups_world w' 1%positive
           0%Z).
  by_evaluation.
Defined.

(** ** The popup count and the owned set *)

(** The object a successful constructor leaves at [this], and the world it
    leaves around it. *)
Lemma constructor_realized (env : Env) (w w1 : World) (this : ptr)
    (settings : WindowCreationSettings.t) (e : FlutterHostWindow) :
  FlutterHostWindow.constructor env w this settings = Some w1 ->
  heap w1 !! this = Some e ->
  window_handle_ e <> 0%N ->
  archetype_ e = WindowCreationSettings.archetype settings /\
  FlutterHostWindow.archetype_preconditions
    (WindowCreationSettings.archetype settings)
    (FlutterHostWindow.owner_of env settings)
    (WindowCreationSettings.positioner settings) = true /\
  exists w2 w3,
    heap w2 = heap w /\
    instance_property w2 = <[window_handle_ e := this]> (instance_property w) /\
    FlutterHostWindow.link_to_owner (FlutterHostWindow.owner_of env settings)
      this (WindowCreationSettings.archetype settings) w2 = Some w3 /\
    heap w1 = <[this := e]> (heap w3).
Proof.
  intros Hc He Hh. unfold FlutterHostWindow.constructor in Hc. simpl in Hc.
  destruct (FlutterHostWindow.archetype_preconditions _ _ _); simpl in *.
  2: { injection Hc as <-. rewrite lookup_store_eq in He.
       injection He as <-. contradiction. }
  destruct (FlutterHostWindow.size_constraints_valid _ _); simpl in *.
  2: { injection Hc as <-. rewrite lookup_store_eq in He.
       injection He as <-. contradiction. }
  destruct (engine_CreateView env _ _ _ _) as [view|].
  2: { injection Hc as <-. rewrite lookup_store_eq in He.
       injection He as <-.
       destruct (FlutterHostWindow.drop_infinite _),
                (FlutterHostWindow.drop_infinite _); contradiction. }
  destruct (engine_running env); [simpl in Hc|discriminate].
  destruct (window_class_registered env); simpl in Hc.
  2: { injection Hc as <-. rewrite lookup_store_eq in He.
       injection He as <-.
       destruct (FlutterHostWindow.drop_infinite _),
                (FlutterHostWindow.drop_infinite _); contradiction. }
  destruct (CreateWindowEx env _ _ _ _ =? 0)%N eqn:Hcreated; simpl in Hc.
  { injection Hc as <-. rewrite lookup_store_eq in He.
    injection He as <-.
    destruct (FlutterHostWindow.drop_infinite _),
             (FlutterHostWindow.drop_infinite _); contradiction. }
  match type of Hc with
  | context [FlutterHostWindow.link_to_owner ?o ?t ?a ?w2] =>
      destruct (FlutterHostWindow.link_to_owner o t a w2) as [w3|] eqn:Hlink;
      [simpl in Hc|discriminate];
      assert (Ha : a = WindowCreationSettings.archetype settings)
        by (destruct (FlutterHostWindow.drop_infinite _),
                     (FlutterHostWindow.drop_infinite _),
                     (negb _); try reflexivity;
            destruct (negb _); reflexivity);
      rewrite Ha in Hlink;
      pose (world2 := w2)
  end.
  injection Hc as <-. rewrite lookup_store_eq in He. injection He as <-.
  split; [exact Ha|]. split; [reflexivity|].
  exists world2, w3. split; [reflexivity|]. split; [reflexivity|].
  split; [exact Hlink|]. reflexivity.
Qed.

Lemma owned_popups_insert_popup (w w' : World) (this : ptr) (s : gset ptr) :
  this ∉ s ->
  FlutterHostWindow.is_popup w' this = true ->
  (forall p, p ∈ s ->
     FlutterHostWindow.is_popup w' p = FlutterHostWindow.is_popup w p) ->
  size (FlutterHostWindow.popups_in w' ({[this]} ∪ s))
  = S (size (FlutterHostWindow.popups_in w s)).
Proof.
  intros Hfresh Hthis Hsame. unfold FlutterHostWindow.popups_in.
  rewrite filter_union_L.
  rewrite (filter_singleton_True_L
             (λ p, FlutterHostWindow.is_popup w' p = true) this Hthis).
  rewrite size_union, size_singleton.
  - f_equal. f_equal. apply set_eq. intros p. rewrite !elem_of_filter.
    split; intros [Hp Hin]; (split; [|exact Hin]).
    + by rewrite <- Hsame.
    + by rewrite Hsame.
  - intros p Hp1 Hp2. apply elem_of_singleton in Hp1 as ->.
    apply elem_of_filter in Hp2 as [_ Hin]. contradiction.
  - apply _.
Qed.

Lemma owned_popups_remove_popup (w w' : World) (this : ptr) (s : gset ptr) :
  this ∈ s ->
  FlutterHostWindow.is_popup w this = true ->
  (forall p, FlutterHostWindow.is_popup w' p = FlutterHostWindow.is_popup w p) ->
  S (size (FlutterHostWindow.popups_in w' (s ∖ {[this]})))
  = size (FlutterHostWindow.popups_in w s).
Proof.
  intros Hin Hthis Hsame. unfold FlutterHostWindow.popups_in.
  assert (Heq : filter (λ p, FlutterHostWindow.is_popup w p = true) s
                = {[this]} ∪ filter (λ p, FlutterHostWindow.is_popup w' p = true)
                                (s ∖ {[this]})).
  { apply set_eq. intros p.
    rewrite elem_of_union, !elem_of_filter, elem_of_singleton,
      elem_of_difference, elem_of_singleton, Hsame.
    split.
    - intros [Hp Hs]. destruct (decide (p = this)) as [->|Hne];
        [by left|right; auto].
    - intros [-> | (Hp & Hs & _)]; auto. }
  rewrite Heq, size_union, size_singleton; [reflexivity|].
  intros p Hp1 Hp2. apply elem_of_singleton in Hp1 as ->.
  apply elem_of_filter in Hp2 as [_ Hp2].
  apply elem_of_difference in Hp2 as [_ Hp2]. apply Hp2.
  by apply elem_of_singleton.
Qed.

(** Construction keeps the popup count of the owner equal to the number of
    popups in its owned set. *)
Lemma constructor_keeps_count (env : Env) (w w1 : World) (this owner : ptr)
    (settings : WindowCreationSettings.t) (e oe : FlutterHostWindow) :
  heap w !! this = None ->
  FlutterHostWindow.constructor env w this settings = Some w1 ->
  heap w1 !! this = Some e ->
  window_handle_ e <> 0%N ->
  GetThisFromHandle w (FlutterHostWindow.owner_of env settings) = Some owner ->
  heap w !! owner = Some oe ->
  this ∉ owned_windows_ oe ->
  num_owned_popups_ oe <> size_t_max ->
  count_matches w oe ->
  exists oe',
    heap w1 !! owner = Some oe' /\
    owned_windows_ oe' = {[this]} ∪ owned_windows_ oe /\
    count_matches w1 oe'.
Proof.
  intros Hfree Hc He Hh Hown Hoe Hnotin Hmax Hcount.
  destruct (constructor_realized env w w1 this settings e Hc He Hh)
    as (Ha & Hpre & w2 & w3 & Hheap2 & Hprop2 & Hlink & Hheap1).
  assert (Hne : owner <> this) by (intros ->; congruence).
  (* the request is for a popup: a regular window has no owner *)
  unfold GetThisFromHandle in Hown.
  destruct (FlutterHostWindow.owner_of env settings =? 0)%N eqn:Hnull;
    [discriminate|].
  assert (Hpopup : WindowCreationSettings.archetype settings = kPopup).
  { unfold FlutterHostWindow.archetype_preconditions in Hpre.
    destruct (WindowCreationSettings.archetype settings); [|reflexivity].
    rewrite Hnull in Hpre. discriminate. }
  (* the owner is found through its window property *)
  unfold FlutterHostWindow.link_to_owner, GetThisFromHandle in Hlink.
  rewrite Hnull, Hprop2 in Hlink.
  destruct (decide (window_handle_ e = FlutterHostWindow.owner_of env settings))
    as [Hsame|Hdiff].
  { rewrite Hsame, lookup_insert_eq in Hlink. simpl in Hlink.
    rewrite Hheap2, Hfree in Hlink. discriminate. }
  rewrite lookup_insert_ne, Hown in Hlink by exact Hdiff.
  rewrite Hheap2, Hoe in Hlink. simpl in Hlink.
  rewrite Hpopup in Hlink. simpl in Hlink. injection Hlink as <-.
  eexists. split.
  { rewrite Hheap1, lookup_insert_ne by auto.
    unfold store, with_heap; simpl. apply lookup_insert_eq. }
  split; [reflexivity|].
  unfold count_matches, owned_popups in *. simpl.
  rewrite (owned_popups_insert_popup w w1 this (owned_windows_ oe) Hnotin).
  - unfold size_t_inc. destruct (Z.eqb_spec (num_owned_popups_ oe) size_t_max);
      [contradiction|]. rewrite Hcount. lia.
  - unfold FlutterHostWindow.is_popup. rewrite He, Ha, Hpopup.
    by apply bool_decide_eq_true_2.
  - intros p Hp. unfold FlutterHostWindow.is_popup. rewrite Hheap1.
    assert (p <> this) by (intros ->; contradiction).
    rewrite lookup_insert_ne by auto.
    unfold store, with_heap; simpl. rewrite Hheap2.
    destruct (decide (owner = p)) as [<-|Hop].
    + rewrite lookup_insert_eq, Hoe. reflexivity.
    + by rewrite lookup_insert_ne.
Qed.

(** ** What HandleMessage leaves alone *)

Lemma HandleMessage_WM_DESTROY (env : Env) (w : World) (this : ptr)
    (e : FlutterHostWindow) (hwnd : HWND) (wparam : WPARAM) (lparam : LPARAM) :
  heap w !! this = Some e ->
  FlutterHostWindow.HandleMessage env w this hwnd Win32.WM_DESTROY wparam lparam
  = if negb (window_handle_ e =? 0)%N
       && bool_decide (is_Some (view_controller_ e))
       && lifecycle_WindowProc env hwnd Win32.WM_DESTROY wparam lparam
    then Some (w, 0%Z)
    else w1 ← FlutterHostWindow.on_destroy w this e;
         Some (FlutterHostWindow.after_switch env w1 e hwnd Win32.WM_DESTROY
                 wparam lparam).
Proof.
  intros He. unfold FlutterHostWindow.HandleMessage. rewrite He. reflexivity.
Qed.

Lemma after_switch_same {A : Type} (f : FlutterHostWindow -> A) (env : Env)
    (w : World) (e : FlutterHostWindow) (h : HWND) (msg : UINT) (wp : WPARAM)
    (lp : LPARAM) :
  same_on f w (FlutterHostWindow.after_switch env w e h msg wp lp).1.
Proof.
  unfold FlutterHostWindow.after_switch.
  destruct (negb _); simpl; [apply same_on_refl|apply same_on_emit].
Qed.

(** The [WM_DESTROY] case either leaves the heap alone or rewrites the owner
    of a popup: the popup is taken out of the owned set and the popup count,
    which is positive, is lowered by one. *)
Lemma on_destroy_outcome (w w1 : World) (this : ptr) (e : FlutterHostWindow) :
  FlutterHostWindow.on_destroy w this e = Some w1 ->
  heap w1 = heap w \/
  exists owner oe,
    archetype_ e = kPopup /\
    FlutterHostWindow.GetOwnerWindow w e = Some owner /\
    heap w !! owner = Some oe /\
    (0 < num_owned_popups_ oe)%Z /\
    heap w1 =
      <[owner :=
          FlutterHostWindow.set_num_owned_popups_
            (num_owned_popups_ oe - 1)%Z
            (FlutterHostWindow.set_owned_windows_
               (owned_windows_ oe ∖ {[this]}) oe)]> (heap w).
Proof.
  unfold FlutterHostWindow.on_destroy.
  destruct (window_handle_ e =? 0)%N; [intros [= <-]; by left|].
  destruct (archetype_ e) eqn:Ha; [intros [= <-]; by left|].
  destruct (FlutterHostWindow.GetOwnerWindow w e) as [owner|] eqn:Ho;
    [|intros [= <-]; by left].
  destruct (heap w !! owner) as [oe|] eqn:Hoe; [simpl|discriminate].
  destruct (Z.ltb_spec 0 (num_owned_popups_ oe)) as [Hpos|]; [simpl|discriminate].
  intros Hw1. right. exists owner, oe.
  split; [reflexivity|]. split; [reflexivity|]. split; [exact Hoe|].
  split; [exact Hpos|].
  assert (Hdec : size_t_dec (num_owned_popups_ oe) = (num_owned_popups_ oe - 1)%Z).
  { unfold size_t_dec.
    destruct (Z.eqb_spec (num_owned_popups_ oe) 0); [lia|reflexivity]. }
  rewrite Hdec in Hw1.
  destruct (negb _); injection Hw1 as <-; reflexivity.
Qed.

Lemma on_destroy_same (w w1 : World) (this : ptr) (e : FlutterHostWindow) :
  FlutterHostWindow.on_destroy w this e = Some w1 ->
  same_on kind_and_state w w1.
Proof.
  intros H. destruct (on_destroy_outcome w w1 this e H)
    as [Hheap | (owner & oe & _ & _ & Hoe & _ & Hheap)]; intros p; rewrite Hheap.
  - reflexivity.
  - destruct (decide (owner = p)) as [<-|Hne].
    + rewrite lookup_insert_eq, Hoe. reflexivity.
    + by rewrite lookup_insert_ne.
Qed.

(** The [WM_GETMINMAXINFO] case writes track sizes and changes nothing
    else. *)
Lemma on_getminmaxinfo_writes (env : Env) (w w' : World)
    (e : FlutterHostWindow) (h : HWND) (lp : LPARAM) :
  FlutterHostWindow.on_getminmaxinfo env w e h lp = Some w' ->
  exists written : list Effect,
    w' = {| heap := heap w; instance_property := instance_property w;
            gw_owner := gw_owner w; effects := effects w ++ written |} /\
    Forall (λ ef, match ef with
                  | SetMinTrackSize _ _ | SetMaxTrackSize _ _ => True
                  | _ => False
                  end) written.
Proof.
  unfold FlutterHostWindow.on_getminmaxinfo.
  repeat match goal with
         | |- context [LONG_sub ?a ?b] =>
             destruct (LONG_sub a b); cbn [mbind option_bind];
             [|discriminate]
         end.
  destruct (min_size_ e) as [mn|], (max_size_ e) as [mx|];
    cbn [mbind option_bind];
    repeat match goal with
           | |- context [LONG_of_double ?d] =>
               destruct (LONG_of_double d); cbn [mbind option_bind];
               [|discriminate]
           end;
    intros [= <-]; unfold emit; simpl.
  - eexists [_; _]. rewrite <- app_assoc. split; [reflexivity|].
    repeat constructor.
  - eexists [_]. split; [reflexivity|]. repeat constructor.
  - eexists [_]. split; [reflexivity|]. repeat constructor.
  - exists []. rewrite app_nil_r. split; [by destruct w|]. constructor.
Qed.

Lemma on_getminmaxinfo_world (env : Env) (w w' : World)
    (e : FlutterHostWindow) (h : HWND) (lp : LPARAM) :
  FlutterHostWindow.on_getminmaxinfo env w e h lp = Some w' ->
  heap w' = heap w /\ instance_property w' = instance_property w /\
  gw_owner w' = gw_owner w.
Proof.
  intros H. destruct (on_getminmaxinfo_writes _ _ _ _ _ _ H) as (l & -> & _).
  auto.
Qed.

(** No message changes the archetype or the stored state of any window. *)
Lemma HandleMessage_keeps_kind_and_state (env : Env) (w w' : World) (this : ptr)
    (hwnd : HWND) (message : UINT) (wparam : WPARAM) (lparam : LPARAM)
    (r : LRESULT) :
  FlutterHostWindow.HandleMessage env w this hwnd message wparam lparam
    = Some (w', r) ->
  same_on kind_and_state w w'.
Proof.
  unfold FlutterHostWindow.HandleMessage.
  destruct (heap w !! this) as [e|] eqn:He; [simpl|discriminate].
  destruct (_ && _ && _); [intros [= <- _]; apply same_on_refl|].
  destruct (message =? Win32.WM_DESTROY)%Z.
  { destruct (FlutterHostWindow.on_destroy w this e) as [w1|] eqn:Hd;
      [simpl|discriminate].
    intros Hout. eapply same_on_trans; [by eapply on_destroy_same|].
    pose proof (after_switch_same kind_and_state env w1 e hwnd message wparam
                  lparam) as Hs.
    destruct (FlutterHostWindow.after_switch _ _ _ _ _ _ _).
    injection Hout as <- _. exact Hs. }
  destruct (message =? Win32.WM_DPICHANGED)%Z;
    [intros [= <- _]; apply same_on_emit|].
  destruct (message =? Win32.WM_SHOWWINDOW)%Z.
  { destruct (_ && _ && _); [|intros [= <- _]; apply same_on_refl].
    destruct (FlutterHostWindow.show_cmd_of _); [simpl|discriminate].
    intros [= <- _].
    eapply same_on_trans; [|apply same_on_emit].
    by apply (same_on_store kind_and_state w this e). }
  destruct (message =? Win32.WM_GETMINMAXINFO)%Z.
  { destruct (FlutterHostWindow.on_getminmaxinfo env w e hwnd lparam)
      as [w1|] eqn:Hinfo; [simpl|discriminate].
    intros [= <- _].
    destruct (on_getminmaxinfo_world _ _ _ _ _ _ Hinfo) as (Hh & _).
    intros p. by rewrite Hh. }
  destruct (message =? Win32.WM_SIZE)%Z.
  { destruct (negb _); intros [= <- _];
      [apply same_on_emit|apply same_on_refl]. }
  destruct (message =? Win32.WM_ACTIVATE)%Z.
  { destruct (negb _); [|intros [= <- _]; apply same_on_refl].
    destruct (negb _); intros [= <- _];
      [apply same_on_emit|apply same_on_refl]. }
  destruct (message =? Win32.WM_NCACTIVATE)%Z.
  { destruct (_ && _ && _); [intros [= <- _]; apply same_on_refl|].
    pose proof (after_switch_same kind_and_state env w e hwnd message wparam
                  lparam) as Hs.
    destruct (FlutterHostWindow.after_switch _ _ _ _ _ _ _).
    intros [= <- _]. exact Hs. }
  destruct (message =? Win32.WM_DWMCOLORIZATIONCOLORCHANGED)%Z;
    [intros [= <- _]; apply same_on_emit|].
  pose proof (after_switch_same kind_and_state env w e hwnd message wparam
                lparam) as Hs.
  destruct (FlutterHostWindow.after_switch _ _ _ _ _ _ _).
  intros [= <- _]. exact Hs.
Qed.

Lemma is_popup_same_kind (w w' : World) (p : ptr) :
  same_on kind_and_state w w' ->
  FlutterHostWindow.is_popup w' p = FlutterHostWindow.is_popup w p.
Proof.
  intros H. specialize (H p). unfold FlutterHostWindow.is_popup.
  destruct (heap w' !! p) as [e'|], (heap w !! p) as [e|];
    simpl in H; try discriminate; [|reflexivity].
  injection H as Ha _. by rewrite Ha.
Qed.

(** The destroy notification of a popup that is a member of its owner's
    owned set keeps the owner's popup count equal to the number of popups in
    that set. *)
Lemma destroy_keeps_count (env : Env) (w w' : World) (this owner : ptr)
    (e oe : FlutterHostWindow) (hwnd : HWND) (wparam : WPARAM)
    (lparam : LPARAM) (r : LRESULT) :
  heap w !! this = Some e ->
  archetype_ e = kPopup ->
  window_handle_ e <> 0%N ->
  FlutterHostWindow.GetOwnerWindow w e = Some owner ->
  heap w !! owner = Some oe ->
  this ∈ owned_windows_ oe ->
  lifecycle_WindowProc env hwnd Win32.WM_DESTROY wparam lparam = false ->
  count_matches w oe ->
  FlutterHostWindow.HandleMessage env w this hwnd Win32.WM_DESTROY wparam lparam
    = Some (w', r) ->
  exists oe',
    heap w' !! owner = Some oe' /\
    owned_windows_ oe' = owned_windows_ oe ∖ {[this]} /\
    count_matches w' oe'.
Proof.
  intros He Ha Hh Ho Hoe Hin Hlc Hcount Hout.
  pose proof (HandleMessage_keeps_kind_and_state _ _ _ _ _ _ _ _ _ Hout) as Hkind.
  rewrite (HandleMessage_WM_DESTROY env w this e) in Hout by exact He.
  rewrite Hlc, andb_false_r in Hout.
  destruct (FlutterHostWindow.on_destroy w this e) as [w1|] eqn:Hd;
    [simpl in Hout|discriminate].
  destruct (after_switch_focus env w1 e hwnd Win32.WM_DESTROY wparam lparam)
    as [Hheap _].
  destruct (FlutterHostWindow.after_switch _ _ _ _ _ _ _) as [w2 r2].
  injection Hout as -> ->. simpl in Hheap.
  destruct (on_destroy_outcome w w1 this e Hd)
    as [Hsame | (owner' & oe0 & _ & Ho' & Hoe' & Hpos & Hheap1)].
  { (* the case needs a null handle, a regular window or a missing owner *)
    exfalso. unfold FlutterHostWindow.on_destroy in Hd.
    apply N.eqb_neq in Hh. rewrite Hh, Ha, Ho in Hd. simpl in Hd.
    rewrite Hoe in Hd. simpl in Hd.
    destruct (negb (0 <? num_owned_popups_ oe)%Z); [discriminate|].
    assert (Hl : heap w1 !! owner
                 = Some (FlutterHostWindow.set_num_owned_popups_
                           (size_t_dec (num_owned_popups_ oe))
                           (FlutterHostWindow.set_owned_windows_
                              (owned_windows_ oe ∖ {[this]}) oe))).
    { destruct (negb _); injection Hd as <-; apply lookup_insert_eq. }
    rewrite Hsame, Hoe in Hl. injection Hl as Hl.
    apply (f_equal owned_windows_) in Hl. simpl in Hl.
    assert (this ∈ owned_windows_ oe ∖ {[this]}) as Hbad by (rewrite <- Hl; exact Hin).
    apply elem_of_difference in Hbad as [_ Hbad]. apply Hbad.
    by apply elem_of_singleton. }
  rewrite Ho in Ho'. injection Ho' as <-.
  rewrite Hoe in Hoe'. injection Hoe' as <-.
  eexists. split; [rewrite Hheap, Hheap1; apply lookup_insert_eq|].
  split; [reflexivity|].
  unfold count_matches, owned_popups in *. simpl.
  assert (Hp : FlutterHostWindow.is_popup w this = true).
  { unfold FlutterHostWindow.is_popup. rewrite He, Ha.
    by apply bool_decide_eq_true_2. }
  pose proof (owned_popups_remove_popup w w' this (owned_windows_ oe) Hin Hp
                (fun p => is_popup_same_kind w w' p Hkind)) as Hsize.
  rewrite Hcount, <- Hsize. lia.
Qed.

(** After [CloseOwnedPopups] the owned set holds no popup; a popup count
    that was not below the number of popups in the set is not below it
    afterwards. *)
Lemma CloseOwnedPopups_unlinks_popups (w w' : World) (this : ptr) (n : Z)
    (e e' : FlutterHostWindow) :
  heap w !! this = Some e ->
  (Z.of_nat (owned_popups w e) <= num_owned_popups_ e)%Z ->
  FlutterHostWindow.CloseOwnedPopups w this = Some (w', n) ->
  heap w' !! this = Some e' ->
  owned_popups w' e' = 0 /\
  (Z.of_nat (owned_popups w' e') <= num_owned_popups_ e')%Z.
Proof.
  intros He Hle Hclose He'.
  destruct (CloseOwnedPopups_outcome w w' this n Hclose)
    as (e0 & He0 & _ & Hzero & Hnonzero).
  rewrite He in He0. injection He0 as <-.
  assert (Hgoal : owned_popups w' e' = 0).
  { destruct (Z.eq_dec (num_owned_popups_ e) 0%Z) as [Hz|Hnz].
    - rewrite (Hzero Hz) in He'. rewrite He in He'. injection He' as <-.
      rewrite (Hzero Hz). lia.
    - destruct (Hnonzero Hnz) as (e1 & He1 & Hown & _ & _ & _ & Hpop).
      rewrite He' in He1. injection He1 as <-.
      unfold owned_popups. rewrite Hown.
      unfold FlutterHostWindow.popups_in.
      apply size_empty_iff. apply set_equiv. intros p.
      rewrite elem_of_filter, elem_of_difference, elem_of_filter, Hpop.
      split; [intros (Hp & Hin & Hnot); exfalso; apply Hnot; auto|].
      intros Hp. by apply not_elem_of_empty in Hp. }
  split; [exact Hgoal|]. rewrite Hgoal.
  destruct (Z.eq_dec (num_owned_popups_ e) 0%Z) as [Hz|Hnz].
  - rewrite (Hzero Hz) in He'. rewrite He in He'. injection He' as <-. lia.
  - destruct (Hnonzero Hnz) as (e1 & He1 & _ & Hnum & _).
    rewrite He' in He1. injection He1 as <-. rewrite Hnum. lia.
Qed.

(** C6 (as amended).  The popup count of an owner equals the number of
    popups in its owned set after the construction of a popup for it, and
    after the destroy notification of a popup that is a member of the set,
    provided it did before.  [CloseOwnedPopups] takes the popups out of the
    owned set ahead of their destroy notifications: after it the set holds no
    popup and the count is not below the number of popups in the set, the two
    being equal again only once the count has come down. *)
Theorem popup_count_follows_owned_set :
  (forall (env : Env) (w w1 : World) (this owner : ptr)
          (settings : WindowCreationSettings.t) (e oe : FlutterHostWindow),
     heap w !! this = None ->
     FlutterHostWindow.constructor env w this settings = Some w1 ->
     heap w1 !! this = Some e ->
     window_handle_ e <> 0%N ->
     GetThisFromHandle w (FlutterHostWindow.owner_of env settings)
       = Some owner ->
     heap w !! owner = Some oe ->
     this ∉ owned_windows_ oe ->
     num_owned_popups_ oe <> size_t_max ->
     count_matches w oe ->
     exists oe',
       heap w1 !! owner = Some oe' /\
       owned_windows_ oe' = {[this]} ∪ owned_windows_ oe /\
       count_matches w1 oe') /\
  (forall (env : Env) (w w' : World) (this owner : ptr)
          (e oe : FlutterHostWindow) (hwnd : HWND) (wparam : WPARAM)
          (lparam : LPARAM) (r : LRESULT),
     heap w !! this = Some e ->
     archetype_ e = kPopup ->
     window_handle_ e <> 0%N ->
     FlutterHostWindow.GetOwnerWindow w e = Some owner ->
     heap w !! owner = Some oe ->
     this ∈ owned_windows_ oe ->
     lifecycle_WindowProc env hwnd Win32.WM_DESTROY wparam lparam = false ->
     count_matches w oe ->
     FlutterHostWindow.HandleMessage env w this hwnd Win32.WM_DESTROY wparam
       lparam = Some (w', r) ->
     exists oe',
       heap w' !! owner = Some oe' /\
       owned_windows_ oe' = owned_windows_ oe ∖ {[this]} /\
       count_matches w' oe') /\
  (forall (w w' : World) (this : ptr) (n : Z) (e e' : FlutterHostWindow),
     heap w !! this = Some e ->
     (Z.of_nat (owned_popups w e) <= num_owned_popups_ e)%Z ->
     FlutterHostWindow.CloseOwnedPopups w this = Some (w', n) ->
     heap w' !! this = Some e' ->
     owned_popups w' e' = 0 /\
     (Z.of_nat (owned_popups w' e') <= num_owned_popups_ e')%Z).
Proof.
  split; [|split].
  - intros env w w1 this owner settings e oe. apply constructor_keeps_count.
  - intros env w w' this owner e oe hwnd wparam lparam r.
    apply destroy_keeps_count.
  - intros w w' this n e e'. apply CloseOwnedPopups_unlinks_popups.
Qed.

(** C6 on the sample worlds: the construction of the first popup for the
    window at address [1], the destroy notification of that popup once there
    are two, and [CloseOwnedPopups] on the owner of the two. *)
Lemma popup_count_follows_owned_set_witness :
  let settings := popup_settings 7%Z (Size_of 200%float 100%float) in
  let constructed :=
    default empty_world
      (FlutterHostWindow.constructor (env_for 200%N) owner_world 2%positive
         settings) in
  let destroyed :=
    default empty_world
      (fst <$> FlutterHostWindow.HandleMessage two_popups_env two_popups_world
                 2%positive 200%N Win32.WM_DESTROY 0%Z 0%Z) in
  let closed :=
    default empty_world
      (fst <$> FlutterHostWindow.CloseOwnedPopups two_popups_world 1%positive) in
  (exists oe',
     heap constructed !! 1%positive = Some oe' /\
     owned_windows_ oe' =
       {[2%positive]} ∪ owned_windows_ (window_at owner_world 1%positive) /\
     count_matches constructed oe') /\
  (exists oe',
     heap destroyed !! 1%positive = Some oe' /\
     owned_windows_ oe' =
       owned_windows_ (window_at two_popups_world 1%positive) ∖ {[2%positive]} /\
     count_matches destroyed oe') /\
  (owned_popups closed (window_at closed 1%positive) = 0 /\
   (Z.of_nat (owned_popups closed (window_at closed 1%positive))
    <= num_owned_popups_ (window_at closed 1%positive))%Z).
Proof.
  intros settings constructed destroyed closed.
  destruct popup_count_follows_owned_set as (Hconstruct & Hdestroy & Hclose).
  split; [|split].
  - apply (Hconstruct (env_for 200%N) owner_world constructed 2%positive
             1%positive settings (window_at constructed 2%positive)
             (window_at owner_world 1%positive)); by_evaluation.
  - apply (Hdestroy two_popups_env two_popups_world destroyed 2%positive
             1%positive (window_at two_popups_world 2%positive)
             (window_at two_popups_world 1%positive) 200%N 0%Z 0%Z 0%Z);
      by_evaluation.
  - apply (Hclose two_popups_world closed 1%positive 0%Z
             (window_at two_popups_world 1%positive)
             (window_at closed 1%positive)); by_evaluation.
Defined.

(** C6 as stated fails in [two_popups_world]: the popup count of the owner
    equals the number of popups in its owned set before [CloseOwnedPopups],
    and once [CloseOwnedPopups] has returned the count is two while the set
    holds no popup. *)
Lemma count_exceeds_owned_popups_after_close :
  let before := window_at two_popups_world 1%positive in
  let out := FlutterHostWindow.CloseOwnedPopups two_popups_world 1%positive in
  let w' := default empty_world (fst <$> out) in
  let after := window_at w' 1%positive in
  count_matches two_popups_world before /\
  out = Some (w', 0%Z) /\
  heap w' !! 1%positive = Some after /\
  num_owned_popups_ after = 2%Z /\
  owned_popups w' after = 0.
Proof. cbv zeta. split_all; by_evaluation. Qed.

(** ** The stored state *)

Lemma same_kind_and_state_state (w w' : World) (p : ptr) :
  same_on kind_and_state w w' ->
  state_ <$> heap w' !! p = state_ <$> heap w !! p.
Proof.
  intros H. specialize (H p).
  destruct (heap w' !! p) as [e'|], (heap w !! p) as [e|];
    simpl in *; try discriminate; [|reflexivity].
  injection H as _ Hs. by rewrite Hs.
Qed.

Lemma CloseOwnedPopups_keeps_state (w w' : World) (this : ptr) (n : Z)
    (p : ptr) :
  FlutterHostWindow.CloseOwnedPopups w this = Some (w', n) ->
  state_ <$> heap w' !! p = state_ <$> heap w !! p.
Proof.
  intros Hclose.
  destruct (CloseOwnedPopups_outcome w w' this n Hclose)
    as (e & He & _ & Hzero & Hnonzero).
  destruct (Z.eq_dec (num_owned_popups_ e) 0%Z) as [Hz|Hnz].
  { by rewrite (Hzero Hz). }
  destruct (Hnonzero Hnz) as (e' & He' & _ & _ & Hs & Hother & _).
  destruct (decide (p = this)) as [->|Hp].
  - rewrite He, He'. simpl. by rewrite Hs.
  - specialize (Hother p Hp).
    destruct (heap w' !! p) as [a|], (heap w !! p) as [b|];
      simpl in *; try discriminate; [|reflexivity].
    injection Hother as _ _ _ Hab. by rewrite Hab.
Qed.

(** C7 (as amended).  Once a window is constructed its stored state is
    written by [SetState] alone: [HandleMessage] leaves the stored state of
    every window as it is, whatever the message, and so does
    [CloseOwnedPopups]; [SetState] stores the state it is given in the window
    it is called on, asks the system for the matching placement and leaves
    every other window alone.  No native notification is mirrored into the
    stored state. *)
Theorem stored_state_written_by_SetState_only :
  (forall (env : Env) (w w' : World) (this : ptr) (hwnd : HWND)
          (message : UINT) (wparam : WPARAM) (lparam : LPARAM) (r : LRESULT)
          (p : ptr),
     FlutterHostWindow.HandleMessage env w this hwnd message wparam lparam
       = Some (w', r) ->
     state_ <$> heap w' !! p = state_ <$> heap w !! p) /\
  (forall (w w' : World) (this : ptr) (n : Z) (p : ptr),
     FlutterHostWindow.CloseOwnedPopups w this = Some (w', n) ->
     state_ <$> heap w' !! p = state_ <$> heap w !! p) /\
  (forall (w w' : World) (this : ptr) (s : WindowState),
     FlutterHostWindow.SetState w this s = Some w' ->
     state_ <$> heap w' !! this = Some (Some s) /\
     (forall p, p <> this -> heap w' !! p = heap w !! p) /\
     exists e,
       heap w !! this = Some e /\
       effects w' =
         effects w
         ++ [SetWindowPlacement (window_handle_ e)
               match s with
               | kRestored => Win32.SW_RESTORE
               | kMaximized => Win32.SW_MAXIMIZE
               | kMinimized => Win32.SW_MINIMIZE
               end]).
Proof.
  split; [|split].
  - intros env w w' this hwnd message wparam lparam r p Hout.
    apply same_kind_and_state_state.
    by eapply HandleMessage_keeps_kind_and_state.
  - intros w w' this n p. apply CloseOwnedPopups_keeps_state.
  - intros w w' this s. unfold FlutterHostWindow.SetState.
    destruct (heap w !! this) as [e|]; [simpl|discriminate].
    intros [= <-]. split; [by rewrite lookup_store_eq|].
    split; [intros p Hp; by rewrite lookup_store_ne|].
    eexists. split; reflexivity.
Qed.

(** C7 on [owner_world]: the regular window at address [1] is shown, then
    told that it was maximized, then asked by [SetState] to minimize. *)
Lemma stored_state_written_by_SetState_only_witness :
  let shown :=
    default empty_world
      (fst <$> FlutterHostWindow.HandleMessage two_popups_env owner_world
                 1%positive 100%N Win32.WM_SHOWWINDOW Win32.TRUE 0%Z) in
  let notified :=
    default empty_world
      (fst <$> FlutterHostWindow.HandleMessage two_popups_env shown 1%positive
                 100%N Win32.WM_SIZE Win32.SIZE_MAXIMIZED 0%Z) in
  let closed :=
    default empty_world
      (fst <$> FlutterHostWindow.CloseOwnedPopups two_popups_world 1%positive) in
  let minimized :=
    default empty_world
      (FlutterHostWindow.SetState notified 1%positive kMinimized) in
  state_ <$> heap notified !! 1%positive = state_ <$> heap shown !! 1%positive /\
  state_ <$> heap closed !! 1%positive
    = state_ <$> heap two_popups_world !! 1%positive /\
  state_ <$> heap minimized !! 1%positive = Some (Some kMinimized).
Proof.
  intros shown notified closed minimized.
  destruct stored_state_written_by_SetState_only as (Hmsg & Hclose & Hset).
  split; [|split].
  - apply (Hmsg two_popups_env shown notified 1%positive 100%N Win32.WM_SIZE
             Win32.SIZE_MAXIMIZED 0%Z 0%Z 1%positive). by_evaluation.
  - apply (Hclose two_popups_world closed 1%positive 0%Z 1%positive).
    by_evaluation.
  - apply (Hset notified minimized 1%positive kMinimized). by_evaluation.
Defined.

(** C7 as stated fails in [owner_world]: the regular window at address [1],
    stored as restored, is shown for the first time and then receives the
    notification that it was maximized; its stored state is still
    "restored". *)
Lemma maximize_notification_is_not_mirrored :
  let shown :=
    default empty_world
      (fst <$> FlutterHostWindow.HandleMessage two_popups_env owner_world
                 1%positive 100%N Win32.WM_SHOWWINDOW Win32.TRUE 0%Z) in
  let out :=
    FlutterHostWindow.HandleMessage two_popups_env shown 1%positive 100%N
      Win32.WM_SIZE Win32.SIZE_MAXIMIZED 0%Z in
  let notified := default empty_world (fst <$> out) in
  archetype_ (window_at shown 1%positive) = kRegular /\
  pending_show_ (window_at shown 1%positive) = false /\
  notified_state Win32.SIZE_MAXIMIZED = Some kMaximized /\
  out = Some (notified, 0%Z) /\
  heap notified !! 1%positive = Some (window_at notified 1%positive) /\
  state_ (window_at notified 1%positive) = Some kRestored.
Proof. cbv zeta. split_all; by_evaluation. Qed.

(** ** Placement *)

Section PlacementFacts.
Import Placement.
Local Open Scope Z_scope.

Lemma fits_spec (start length o_start o_length : Z) :
  fits start length o_start o_length = true <->
  o_start <= start /\ start + length <= o_start + o_length.
Proof. unfold fits. rewrite andb_true_iff, !Z.leb_le. reflexivity. Qed.

(** Sliding brings a frame that is no longer than the output into the
    output. *)
Lemma slid_fits (start length o_start o_length : Z) :
  length <= o_length ->
  fits (slid start length o_start o_length) length o_start o_length = true.
Proof.
  intros Hlen. apply fits_spec. unfold slid.
  destruct (Z.ltb_spec start o_start); [lia|].
  destruct (Z.ltb_spec (o_start + o_length) (start + length)); lia.
Qed.

(** With slide enabled, a frame no longer than the output ends up inside the
    output on this axis, at its full length. *)
Lemma place_axis_within (p : Policy) (anchor_e popup_e : Edge)
    (a_start a_length length offset o_start o_length : Z) :
  slide p = true ->
  length <= o_length ->
  (place_axis p anchor_e popup_e a_start a_length length offset o_start
     o_length).2 = length /\
  o_start <=
    (place_axis p anchor_e popup_e a_start a_length length offset o_start
       o_length).1 /\
  (place_axis p anchor_e popup_e a_start a_length length offset o_start
     o_length).1 + length <= o_start + o_length.
Proof.
  intros Hslide Hlen. unfold place_axis.
  destruct (fits (base_start anchor_e popup_e _ _ _ _) _ _ _) eqn:Hbase.
  { apply fits_spec in Hbase. simpl. lia. }
  destruct (flip p && fits _ _ _ _) eqn:Hflip.
  { apply andb_true_iff in Hflip as [_ Hflip]. apply fits_spec in Hflip.
    simpl. lia. }
  rewrite Hslide, slid_fits by exact Hlen. simpl.
  pose proof (slid_fits
                (base_start anchor_e popup_e a_start a_length length offset)
                length o_start o_length Hlen) as Hs.
  apply fits_spec in Hs. lia.
Qed.

(** With no adjustment enabled the frame stays where the gravities and the
    offset put it, at its full length. *)
Lemma place_axis_without_adjustment (p : Policy) (anchor_e popup_e : Edge)
    (a_start a_length length offset o_start o_length : Z) :
  flip p = false -> slide p = false -> resize p = false ->
  place_axis p anchor_e popup_e a_start a_length length offset o_start
    o_length
  = (base_start anchor_e popup_e a_start a_length length offset, length).
Proof.
  intros Hflip Hslide Hresize. unfold place_axis.
  rewrite Hflip, Hslide, Hresize. simpl.
  destruct (fits (base_start anchor_e popup_e a_start a_length length offset)
              length o_start o_length); [reflexivity|].
  destruct (shrunk (base_start anchor_e popup_e a_start a_length length offset)
              length o_start o_length); reflexivity.
Qed.

End PlacementFacts.

(** C9 (as amended).  For every positioner whose policy has slide enabled,
    whatever its gravities, its offset and the anchor rectangle, and every
    frame no wider and no higher than the output rectangle, the rectangle
    [Place] returns has the size of the frame and lies entirely within the
    output rectangle.  With no adjustment enabled [Place] returns the base
    placement, inside the output rectangle or not. *)
Theorem Place_within_output_when_sliding (positioner : Placement.Positioner)
    (frameSize : Placement.Size)
    (anchorRect ownerRect outputRect : Placement.Rect) :
  let placed :=
    Placement.Place positioner frameSize anchorRect ownerRect outputRect in
  (Placement.slide (Placement.policy positioner) = true ->
   (Placement.width frameSize <= Placement.rect_width outputRect)%Z ->
   (Placement.height frameSize <= Placement.rect_height outputRect)%Z ->
   Placement.within placed outputRect /\
   Placement.rect_width placed = Placement.width frameSize /\
   Placement.rect_height placed = Placement.height frameSize) /\
  (Placement.flip (Placement.policy positioner) = false ->
   Placement.slide (Placement.policy positioner) = false ->
   Placement.resize (Placement.policy positioner) = false ->
   placed =
     {| Placement.left :=
          Placement.base_start
            (Placement.horizontal (Placement.anchor_gravity positioner))
            (Placement.horizontal (Placement.popup_gravity positioner))
            (Placement.left anchorRect) (Placement.rect_width anchorRect)
            (Placement.width frameSize) (Placement.offset_x positioner);
        Placement.top :=
          Placement.base_start
            (Placement.vertical (Placement.anchor_gravity positioner))
            (Placement.vertical (Placement.popup_gravity positioner))
            (Placement.top anchorRect) (Placement.rect_height anchorRect)
            (Placement.height frameSize) (Placement.offset_y positioner);
        Placement.rect_width := Placement.width frameSize;
        Placement.rect_height := Placement.height frameSize |}).
Proof.
  intros placed. subst placed. split.
  - intros Hslide Hw Hh.
    unfold Placement.Place, Placement.within, Placement.right, Placement.bottom.
    pose proof (place_axis_within (Placement.policy positioner)
                  (Placement.horizontal (Placement.anchor_gravity positioner))
                  (Placement.horizontal (Placement.popup_gravity positioner))
                  (Placement.left anchorRect) (Placement.rect_width anchorRect)
                  (Placement.width frameSize) (Placement.offset_x positioner)
                  (Placement.left outputRect) (Placement.rect_width outputRect)
                  Hslide Hw) as (Hx1 & Hx2 & Hx3).
    pose proof (place_axis_within (Placement.policy positioner)
                  (Placement.vertical (Placement.anchor_gravity positioner))
                  (Placement.vertical (Placement.popup_gravity positioner))
                  (Placement.top anchorRect) (Placement.rect_height anchorRect)
                  (Placement.height frameSize) (Placement.offset_y positioner)
                  (Placement.top outputRect) (Placement.rect_height outputRect)
                  Hslide Hh) as (Hy1 & Hy2 & Hy3).
    destruct (Placement.place_axis _ _ _ _ _ _ _ _ _) as [px wx].
    destruct (Placement.place_axis _ _ _ _ _ _ _ _ _) as [py wy].
    simpl in *. subst wx wy. repeat split; lia.
  - intros Hflip Hslide Hresize.
    unfold Placement.Place.
    rewrite !(place_axis_without_adjustment _ _ _ _ _ _ _ _ _ Hflip Hslide
                Hresize).
    reflexivity.
Qed.

(** C9 with slide alone enabled: the frame that would reach past the right
    edge of the display is moved back inside. *)
Lemma Place_within_output_when_sliding_witness :
  let sliding :=
    {| Placement.flip := false; Placement.slide := true;
       Placement.resize := false |} in
  let placed :=
    Placement.Place (Placement.right_of_anchor sliding) Placement.sample_frame
      Placement.sample_anchor Placement.sample_anchor Placement.sample_output in
  placed =
    {| Placement.left := 1720%Z; Placement.top := 500%Z;
       Placement.rect_width := 200%Z; Placement.rect_height := 100%Z |} /\
  Placement.within placed Placement.sample_output /\
  Placement.rect_width placed = 200%Z /\
  Placement.rect_height placed = 100%Z.
Proof.
  intros sliding placed. split; [reflexivity|].
  apply (Place_within_output_when_sliding (Placement.right_of_anchor sliding)
           Placement.sample_frame Placement.sample_anchor
           Placement.sample_anchor Placement.sample_output);
    [reflexivity | discriminate | discriminate].
Defined.

(** C9 as stated fails for a positioner without any adjustment enabled: the
    anchor lies inside the output, the frame is smaller than the output, and
    the frame is placed from 1900 to 2100 on a display that ends at 1920. *)
Lemma placement_without_adjustment_overflows :
  let none :=
    {| Placement.flip := false; Placement.slide := false;
       Placement.resize := false |} in
  let placed :=
    Placement.Place (Placement.right_of_anchor none) Placement.sample_frame
      Placement.sample_anchor Placement.sample_anchor Placement.sample_output in
  Placement.within Placement.sample_anchor Placement.sample_output /\
  (Placement.width Placement.sample_frame
   < Placement.rect_width Placement.sample_output)%Z /\
  (Placement.height Placement.sample_frame
   < Placement.rect_height Placement.sample_output)%Z /\
  placed =
    {| Placement.left := 1900%Z; Placement.top := 500%Z;
       Placement.rect_width := 200%Z; Placement.rect_height := 100%Z |} /\
  Placement.right placed = 2100%Z /\
  Placement.right Placement.sample_output = 1920%Z /\
  ~ Placement.within placed Placement.sample_output.
Proof.
  cbv zeta. split_all; try reflexivity.
  - unfold Placement.within; vm_compute; split_all; discriminate.
  - unfold Placement.within, Placement.right. vm_compute.
    intros (_ & H & _). apply H. reflexivity.
Qed.

(** ** Activation of the title bar and the first show *)

(** X2.  A window that is not a popup answers the query for an inactive
    title bar with [TRUE], and does nothing else, as long as it owns a popup
    or its inactive redraw is disabled. *)
Theorem title_bar_stays_active_while_popups_are_owned (env : Env) (w : World)
    (this : ptr) (e : FlutterHostWindow) (hwnd : HWND) (lparam : LPARAM) :
  heap w !! this = Some e ->
  archetype_ e <> kPopup ->
  (0 < num_owned_popups_ e)%Z \/
    enable_redraw_non_client_as_inactive_ e = false ->
  lifecycle_WindowProc env hwnd Win32.WM_NCACTIVATE Win32.FALSE lparam = false ->
  FlutterHostWindow.HandleMessage env w this hwnd Win32.WM_NCACTIVATE
    Win32.FALSE lparam = Some (w, Win32.TRUE).
Proof.
  intros He Ha Hforce Hlc. unfold FlutterHostWindow.HandleMessage.
  rewrite He. simpl. rewrite Hlc, andb_false_r.
  rewrite (bool_decide_eq_false_2 _ Ha). simpl.
  destruct Hforce as [Hpos|Hflag].
  - apply Z.ltb_lt in Hpos. rewrite Hpos, orb_true_r. reflexivity.
  - rewrite Hflag. reflexivity.
Qed.

Lemma title_bar_stays_active_while_popups_are_owned_witness :
  FlutterHostWindow.HandleMessage two_popups_env two_popups_world 1%positive
    100%N Win32.WM_NCACTIVATE Win32.FALSE 0%Z
  = Some (two_popups_world, Win32.TRUE).
Proof.
  apply (title_bar_stays_active_while_popups_are_owned two_popups_env
           two_popups_world 1%positive (window_at two_popups_world 1%positive));
    [by_evaluation | by_evaluation | left; by_evaluation | by_evaluation].
Defined.

(** X3.  The first notification that a regular window is being shown
    clears the latch and asks for the placement that matches the stored
    state; a later one does nothing. *)
Theorem first_show_applies_stored_state (env : Env) (w : World) (this : ptr)
    (e : FlutterHostWindow) (hwnd : HWND) (s : WindowState) :
  heap w !! this = Some e ->
  archetype_ e = kRegular ->
  state_ e = Some s ->
  lifecycle_WindowProc env hwnd Win32.WM_SHOWWINDOW Win32.TRUE 0%Z = false ->
  FlutterHostWindow.HandleMessage env w this hwnd Win32.WM_SHOWWINDOW
    Win32.TRUE 0%Z
  = if pending_show_ e
    then Some (emit (SetWindowPlacement hwnd
                       match s with
                       | kRestored => Win32.SW_SHOW
                       | kMaximized => Win32.SW_SHOWMAXIMIZED
                       | kMinimized => Win32.SW_SHOWMINIMIZED
                       end)
                 (store this (FlutterHostWindow.set_pending_show_ false e) w),
               0%Z)
    else Some (w, 0%Z).
Proof.
  intros He Ha Hs Hlc. unfold FlutterHostWindow.HandleMessage.
  rewrite He. simpl. rewrite Hlc, andb_false_r.
  destruct (pending_show_ e); [|reflexivity].
  unfold FlutterHostWindow.show_cmd_of. simpl. rewrite Ha, Hs.
  destruct s; reflexivity.
Qed.

Lemma first_show_applies_stored_state_witness :
  FlutterHostWindow.HandleMessage two_popups_env owner_world 1%positive 100%N
    Win32.WM_SHOWWINDOW Win32.TRUE 0%Z
  = if pending_show_ (window_at owner_world 1%positive)
    then Some (emit (SetWindowPlacement 100%N Win32.SW_SHOW)
                 (store 1%positive
                    (FlutterHostWindow.set_pending_show_ false
                       (window_at owner_world 1%positive)) owner_world),
               0%Z)
    else Some (owner_world, 0%Z).
Proof.
  apply (first_show_applies_stored_state two_popups_env owner_world 1%positive
           (window_at owner_world 1%positive) 100%N kRestored); by_evaluation.
Defined.

(** ** Windows without a view *)

Lemma default_calls_app (l1 l2 : list Effect) :
  default_calls (l1 ++ l2) = default_calls l1 ++ default_calls l2.
Proof.
  induction l1 as [|e l1 IH]; [reflexivity|].
  destruct e; simpl; rewrite IH; reflexivity.
Qed.

Lemma on_destroy_default_calls (w w1 : World) (this : ptr)
    (e : FlutterHostWindow) :
  FlutterHostWindow.on_destroy w this e = Some w1 ->
  default_calls (effects w1) = default_calls (effects w).
Proof.
  unfold FlutterHostWindow.on_destroy.
  destruct (window_handle_ e =? 0)%N; [by intros [= <-]|].
  destruct (archetype_ e); [by intros [= <-]|].
  destruct (FlutterHostWindow.GetOwnerWindow w e) as [owner|];
    [|by intros [= <-]].
  destruct (heap w !! owner) as [oe|]; [simpl|discriminate].
  destruct (negb (0 <? _)%Z); [discriminate|].
  destruct (negb _); intros [= <-]; simpl; [|reflexivity].
  rewrite default_calls_app. apply app_nil_r.
Qed.

(** X4.  A window without a view (one whose constructor returned early, or
    the entity of a window that existed already) hands no message on to
    [DefWindowProc]: whatever the message, when [HandleMessage] returns, the
    calls of [DefWindowProc] are what they were, and the value returned is
    zero, or [TRUE] for a non-client activation query. *)
Theorem window_without_view_never_calls_DefWindowProc (env : Env)
    (w w' : World) (this : ptr) (e : FlutterHostWindow) (hwnd : HWND)
    (message : UINT) (wparam : WPARAM) (lparam : LPARAM) (r : LRESULT) :
  heap w !! this = Some e ->
  view_controller_ e = None ->
  FlutterHostWindow.HandleMessage env w this hwnd message wparam lparam
    = Some (w', r) ->
  default_calls (effects w') = default_calls (effects w) /\
  (r = 0%Z \/ (r = Win32.TRUE /\ message = Win32.WM_NCACTIVATE)).
Proof.
  intros He Hv. unfold FlutterHostWindow.HandleMessage.
  rewrite He. simpl. unfold FlutterHostWindow.after_switch. rewrite Hv.
  rewrite (bool_decide_eq_false_2 (is_Some None)) by (intros [? ?]; discriminate).
  rewrite andb_false_r. simpl.
  destruct (message =? Win32.WM_DESTROY)%Z.
  { destruct (FlutterHostWindow.on_destroy w this e) as [w1|] eqn:Hd;
      [simpl|discriminate].
    intros [= <- <-]. split; [by eapply on_destroy_default_calls|by left]. }
  destruct (message =? Win32.WM_DPICHANGED)%Z.
  { intros [= <- <-]. simpl. rewrite default_calls_app, app_nil_r. auto. }
  destruct (message =? Win32.WM_SHOWWINDOW)%Z.
  { destruct (_ && _ && _); [|intros [= <- <-]; auto].
    destruct (FlutterHostWindow.show_cmd_of _); [simpl|discriminate].
    intros [= <- <-]. simpl. rewrite default_calls_app, app_nil_r. auto. }
  destruct (message =? Win32.WM_GETMINMAXINFO)%Z.
  { destruct (FlutterHostWindow.on_getminmaxinfo env w e hwnd lparam)
      as [w1|] eqn:Hinfo; [simpl|discriminate].
    intros [= <- <-].
    destruct (on_getminmaxinfo_writes _ _ _ _ _ _ Hinfo) as (l & -> & Hl).
    simpl. rewrite default_calls_app.
    split; [|by left]. rewrite <- (app_nil_r (default_calls (effects w))) at 2.
    f_equal. clear Hinfo. induction Hl as [|ef l Hef _ IH]; [reflexivity|].
    destruct ef; try contradiction; exact IH. }
  destruct (message =? Win32.WM_SIZE)%Z.
  { destruct (negb _); intros [= <- <-]; simpl;
      rewrite ?default_calls_app, ?app_nil_r; auto. }
  destruct (message =? Win32.WM_ACTIVATE)%Z.
  { destruct (negb _); [|intros [= <- <-]; auto].
    destruct (negb _); intros [= <- <-]; simpl;
      rewrite ?default_calls_app, ?app_nil_r; auto. }
  destruct (Z.eqb_spec message Win32.WM_NCACTIVATE) as [->|_].
  { destruct (_ && _ && _); intros [= <- <-]; auto. }
  destruct (message =? Win32.WM_DWMCOLORIZATIONCOLORCHANGED)%Z.
  { intros [= <- <-]. simpl. rewrite default_calls_app, app_nil_r. auto. }
  intros [= <- <-]. auto.
Qed.

Lemma window_without_view_never_calls_DefWindowProc_witness :
  let w :=
    default empty_world
      (constructor_from_handle empty_world 1%positive 100%N
         (Some {| view_id_of := 7%Z; view_window_handle := 101%N |})) in
  let out :=
    FlutterHostWindow.HandleMessage two_popups_env w 1%positive 100%N
      Win32.WM_CLOSE 0%Z 0%Z in
  let w' := default empty_world (fst <$> out) in
  default_calls (effects w') = default_calls (effects w) /\
  (0%Z = 0%Z \/ (0%Z = Win32.TRUE /\ Win32.WM_CLOSE = Win32.WM_NCACTIVATE)).
Proof.
  intros w out w'.
  apply (window_without_view_never_calls_DefWindowProc two_popups_env w w'
           1%positive (window_at w 1%positive) 100%N Win32.WM_CLOSE 0%Z 0%Z
           0%Z); by_evaluation.
Defined.

(** ** What HandleMessage changes *)

Lemma on_destroy_tables (w w1 : World) (this : ptr) (e : FlutterHostWindow) :
  FlutterHostWindow.on_destroy w this e = Some w1 ->
  instance_property w1 = instance_property w /\ gw_owner w1 = gw_owner w.
Proof.
  unfold FlutterHostWindow.on_destroy.
  destruct (window_handle_ e =? 0)%N; [by intros [= <-]|].
  destruct (archetype_ e); [by intros [= <-]|].
  destruct (FlutterHostWindow.GetOwnerWindow w e) as [owner|];
    [|by intros [= <-]].
  destruct (heap w !! owner) as [oe|]; [simpl|discriminate].
  destruct (negb (0 <? _)%Z); [discriminate|].
  destruct (negb _); intros [= <-]; auto.
Qed.

Lemma after_switch_world (env : Env) (w : World) (e : FlutterHostWindow)
    (h : HWND) (msg : UINT) (wp : WPARAM) (lp : LPARAM) :
  let w' := (FlutterHostWindow.after_switch env w e h msg wp lp).1 in
  heap w' = heap w /\ instance_property w' = instance_property w /\
  gw_owner w' = gw_owner w.
Proof.
  unfold FlutterHostWindow.after_switch. destruct (negb _); simpl; auto.
Qed.


(** The heap [HandleMessage] leaves: it is the heap it found, except that
    the destroy notification of a popup rewrites the owner (the popup leaves
    the owned set, the count goes down by one) and the first show
    notification clears [pending_show_] of the window that handles it. *)
Lemma HandleMessage_heap (env : Env) (w w' : World) (this : ptr) (hwnd : HWND)
    (message : UINT) (wparam : WPARAM) (lparam : LPARAM) (r : LRESULT) :
  FlutterHostWindow.HandleMessage env w this hwnd message wparam lparam
    = Some (w', r) ->
  instance_property w' = instance_property w /\
  gw_owner w' = gw_owner w /\
  (heap w' = heap w \/
   (message = Win32.WM_DESTROY /\
    exists owner oe,
      heap w !! owner = Some oe /\
      heap w' =
        <[owner :=
            FlutterHostWindow.set_num_owned_popups_
              (num_owned_popups_ oe - 1)%Z
              (FlutterHostWindow.set_owned_windows_
                 (owned_windows_ oe ∖ {[this]}) oe)]> (heap w)) \/
   (message = Win32.WM_SHOWWINDOW /\
    exists e,
      heap w !! this = Some e /\
      heap w' = <[this := FlutterHostWindow.set_pending_show_ false e]> (heap w))).
Proof.
  unfold FlutterHostWindow.HandleMessage.
  destruct (heap w !! this) as [e|] eqn:He; [simpl|discriminate].
  destruct (_ && _ && _); [intros [= <- _]; auto|].
  destruct (Z.eqb_spec message Win32.WM_DESTROY) as [->|Hnd].
  { destruct (FlutterHostWindow.on_destroy w this e) as [w1|] eqn:Hd;
      [simpl|discriminate].
    destruct (after_switch_world env w1 e hwnd Win32.WM_DESTROY wparam lparam)
      as (Hh & Hi & Hg).
    destruct (on_destroy_tables w w1 this e Hd) as (Hi1 & Hg1).
    destruct (FlutterHostWindow.after_switch _ _ _ _ _ _ _) as [w2 r2].
    intros [= <- _]. simpl in *.
    split; [congruence|]. split; [congruence|]. rewrite Hh.
    destruct (on_destroy_outcome w w1 this e Hd)
      as [-> | (owner & oe & _ & _ & Hoe & _ & ->)]; [by left|].
    right; left. split; [reflexivity|]. by exists owner, oe. }
  destruct (message =? Win32.WM_DPICHANGED)%Z; [intros [= <- _]; auto|].
  destruct (Z.eqb_spec message Win32.WM_SHOWWINDOW) as [->|Hns].
  { destruct (_ && _ && _); [|intros [= <- _]; auto].
    destruct (FlutterHostWindow.show_cmd_of _); [simpl|discriminate].
    intros [= <- _]. simpl.
    split; [reflexivity|]. split; [reflexivity|].
    right; right. split; [reflexivity|]. by exists e. }
  destruct (message =? Win32.WM_GETMINMAXINFO)%Z.
  { destruct (FlutterHostWindow.on_getminmaxinfo env w e hwnd lparam)
      as [w1|] eqn:Hinfo; [simpl|discriminate].
    intros [= <- _].
    destruct (on_getminmaxinfo_world _ _ _ _ _ _ Hinfo) as (Hh & Hi & Hg).
    auto. }
  destruct (message =? Win32.WM_SIZE)%Z.
  { destruct (negb _); intros [= <- _]; auto. }
  destruct (message =? Win32.WM_ACTIVATE)%Z.
  { destruct (negb _); [|intros [= <- _]; auto].
    destruct (negb _); intros [= <- _]; auto. }
  destruct (message =? Win32.WM_NCACTIVATE)%Z.
  { destruct (_ && _ && _); [intros [= <- _]; auto|].
    destruct (after_switch_world env w e hwnd message wparam lparam)
      as (Hh & Hi & Hg).
    destruct (FlutterHostWindow.after_switch _ _ _ _ _ _ _) as [w2 r2].
    intros [= <- _]. simpl in *. auto. }
  destruct (message =? Win32.WM_DWMCOLORIZATIONCOLORCHANGED)%Z;
    [intros [= <- _]; auto|].
  destruct (after_switch_world env w e hwnd message wparam lparam)
    as (Hh & Hi & Hg).
  destruct (FlutterHostWindow.after_switch _ _ _ _ _ _ _) as [w2 r2].
  intros [= <- _]. simpl in *. auto.
Qed.

(** ** The pending-show latch *)

Lemma same_on_no_new_pending_show (w w' : World) :
  same_on pending_show_ w w' -> no_new_pending_show w w'.
Proof.
  intros Hsame p e' He' Hp. specialize (Hsame p). rewrite He' in Hsame.
  destruct (heap w !! p) as [e|]; [|discriminate].
  injection Hsame as Hsame. exists e. split; [reflexivity|congruence].
Qed.

(** Posting the close request to one popup changes nothing but the
    inactive-redraw flag of its owner. *)
Lemma close_popup_same_on {A : Type} (f : FlutterHostWindow -> A)
    (w w' : World) (popup : ptr) :
  (forall b e,
     f (FlutterHostWindow.set_enable_redraw_non_client_as_inactive_ b e) = f e) ->
  FlutterHostWindow.close_popup w popup = Some w' -> same_on f w w'.
Proof.
  intros Hf. unfold FlutterHostWindow.close_popup.
  destruct (heap w !! popup) as [pe|]; [simpl|discriminate].
  destruct (GetThisFromHandle w _) as [owner|].
  2: { intros [= <-]. apply same_on_refl. }
  destruct (heap w !! owner) as [oe|] eqn:Hoe; [simpl|discriminate].
  set (oe1 := FlutterHostWindow.set_enable_redraw_non_client_as_inactive_ false oe).
  set (oe2 := FlutterHostWindow.set_enable_redraw_non_client_as_inactive_ true oe1).
  assert (H1 : same_on f w (store owner oe1 w))
    by (apply (same_on_store f w owner oe); [exact Hoe|apply Hf]).
  assert (H3 : same_on f w
                 (store owner oe2
                    (emit (PostMessage (FlutterHostWindow.GetWindowHandle pe)
                             Win32.WM_CLOSE 0%Z 0%Z) (store owner oe1 w)))).
  { eapply same_on_trans; [exact H1|].
    eapply same_on_trans; [apply same_on_emit|].
    apply (same_on_store f _ owner oe1); [apply lookup_store_eq|apply Hf]. }
  destruct (num_owned_popups_ oe =? 0)%Z; intros [= <-]; [|exact H3].
  eapply same_on_trans; [exact H3|apply same_on_emit].
Qed.

Lemma close_popups_same_on {A : Type} (f : FlutterHostWindow -> A)
    (popups : list ptr) :
  (forall b e,
     f (FlutterHostWindow.set_enable_redraw_non_client_as_inactive_ b e) = f e) ->
  forall w w' : World,
  FlutterHostWindow.close_popups popups w = Some w' -> same_on f w w'.
Proof.
  intros Hf. induction popups as [|p rest IH]; intros w w'; simpl.
  - intros [= <-]. apply same_on_refl.
  - destruct (FlutterHostWindow.close_popup w p) as [w1|] eqn:H1;
      [simpl|discriminate].
    intros Hrest. eapply same_on_trans.
    + by eapply close_popup_same_on.
    + by apply IH.
Qed.

(** [CloseOwnedPopups] changes owned sets and inactive-redraw flags, and
    nothing else of any window. *)
Lemma CloseOwnedPopups_same_on {A : Type} (f : FlutterHostWindow -> A)
    (w w' : World) (this : ptr) (n : Z) :
  (forall b e,
     f (FlutterHostWindow.set_enable_redraw_non_client_as_inactive_ b e) = f e) ->
  (forall s e, f (FlutterHostWindow.set_owned_windows_ s e) = f e) ->
  FlutterHostWindow.CloseOwnedPopups w this = Some (w', n) -> same_on f w w'.
Proof.
  intros Hflag Hset. unfold FlutterHostWindow.CloseOwnedPopups.
  destruct (heap w !! this) as [e|] eqn:He; [simpl|discriminate].
  destruct (num_owned_popups_ e =? 0)%Z; [intros [= <- _]; apply same_on_refl|].
  destruct (negb _); [discriminate|].
  rewrite lookup_insert_eq. simpl.
  destruct (FlutterHostWindow.close_popups _ _) as [w2|] eqn:Hclose;
    [simpl|discriminate].
  destruct (heap w2 !! this) as [e2|]; [simpl|discriminate].
  intros [= <- _].
  eapply same_on_trans; [|by eapply close_popups_same_on].
  apply (same_on_store f w this e); [exact He|apply Hset].
Qed.

(** X6.  [pending_show_] is a latch: no message, no [CloseOwnedPopups] and no
    [SetState] sets it again.  A window that waits for its first show after
    one of them was waiting for it before. *)
Theorem pending_show_is_never_set_again :
  (forall (env : Env) (w w' : World) (this : ptr) (hwnd : HWND) (message : UINT)
          (wparam : WPARAM) (lparam : LPARAM) (r : LRESULT),
     FlutterHostWindow.HandleMessage env w this hwnd message wparam lparam
       = Some (w', r) ->
     no_new_pending_show w w') /\
  (forall (w w' : World) (this : ptr) (n : Z),
     FlutterHostWindow.CloseOwnedPopups w this = Some (w', n) ->
     no_new_pending_show w w') /\
  (forall (w w' : World) (this : ptr) (state : WindowState),
     FlutterHostWindow.SetState w this state = Some w' ->
     no_new_pending_show w w').
Proof.
  split_all.
  - intros env w w' this hwnd message wparam lparam r Hout.
    destruct (HandleMessage_heap _ _ _ _ _ _ _ _ _ Hout)
      as (_ & _ & [Hh | [(_ & owner & oe & Hoe & Hh) | (_ & e & He & Hh)]]);
      intros p e' He' Hp; rewrite Hh in He'.
    + by exists e'.
    + destruct (decide (owner = p)) as [<-|Hne].
      * rewrite lookup_insert_eq in He'. injection He' as <-.
        exists oe. split; [exact Hoe|exact Hp].
      * rewrite lookup_insert_ne in He' by exact Hne. by exists e'.
    + destruct (decide (this = p)) as [<-|Hne].
      * rewrite lookup_insert_eq in He'. injection He' as <-. discriminate.
      * rewrite lookup_insert_ne in He' by exact Hne. by exists e'.
  - intros w w' this n Hclose. apply same_on_no_new_pending_show.
    by apply (CloseOwnedPopups_same_on pending_show_ w w' this n).
  - intros w w' this state. unfold FlutterHostWindow.SetState.
    destruct (heap w !! this) as [e|] eqn:He; [simpl|discriminate].
    intros [= <-]. apply same_on_no_new_pending_show.
    eapply same_on_trans; [apply same_on_emit|].
    by apply (same_on_store pending_show_ _ this e).
Qed.

(** X6 on the sample worlds: the first show notification of the regular
    window at address [1], [CloseOwnedPopups] on the owner of two popups, and
    [SetState] on the window that has been shown. *)
Lemma pending_show_is_never_set_again_witness :
  let shown :=
    default empty_world
      (fst <$> FlutterHostWindow.HandleMessage two_popups_env owner_world
                 1%positive 100%N Win32.WM_SHOWWINDOW Win32.TRUE 0%Z) in
  let closed :=
    default empty_world
      (fst <$> FlutterHostWindow.CloseOwnedPopups two_popups_world 1%positive) in
  let maximized :=
    default empty_world
      (FlutterHostWindow.SetState shown 1%positive kMaximized) in
  no_new_pending_show owner_world shown /\
  no_new_pending_show two_popups_world closed /\
  no_new_pending_show shown maximized.
Proof.
  intros shown closed maximized.
  destruct pending_show_is_never_set_again as (Hmsg & Hclose & Hset).
  split_all.
  - apply (Hmsg two_popups_env owner_world shown 1%positive 100%N
             Win32.WM_SHOWWINDOW Win32.TRUE 0%Z 0%Z). by_evaluation.
  - apply (Hclose two_popups_world closed 1%positive 0%Z). by_evaluation.
  - apply (Hset shown maximized 1%positive kMaximized). by_evaluation.
Defined.

(** ** A destroy notification beyond the popup count *)

(** X7.  The destroy notification of a popup whose owner has a popup count
    of zero ends the process at the check that the count is positive; the
    count is never taken below zero.  The owner's count is zero while the
    popup exists when the popup was destroyed before, or was never
    counted. *)
Theorem popup_destroy_with_zero_count_is_fatal (env : Env) (w : World)
    (this owner : ptr) (e oe : FlutterHostWindow) (hwnd : HWND)
    (wparam : WPARAM) (lparam : LPARAM) :
  heap w !! this = Some e ->
  archetype_ e = kPopup ->
  window_handle_ e <> 0%N ->
  FlutterHostWindow.GetOwnerWindow w e = Some owner ->
  heap w !! owner = Some oe ->
  num_owned_popups_ oe = 0%Z ->
  lifecycle_WindowProc env hwnd Win32.WM_DESTROY wparam lparam = false ->
  FlutterHostWindow.HandleMessage env w this hwnd Win32.WM_DESTROY wparam lparam
    = None.
Proof.
  intros He Ha Hh Ho Hoe Hzero Hlc.
  rewrite (HandleMessage_WM_DESTROY env w this e) by exact He.
  rewrite Hlc, andb_false_r.
  unfold FlutterHostWindow.on_destroy.
  apply N.eqb_neq in Hh. rewrite Hh, Ha, Ho. simpl. rewrite Hoe. simpl.
  rewrite Hzero. reflexivity.
Qed.

(** X7 in [two_popups_world]: both popups have been destroyed, and the
    destroy notification of the popup at address [2] arrives once more. *)
Lemma popup_destroy_with_zero_count_is_fatal_witness :
  let w :=
    default empty_world
      (destroy_each two_popups_env two_popups_world [2%positive; 3%positive]) in
  FlutterHostWindow.HandleMessage two_popups_env w 2%positive 200%N
    Win32.WM_DESTROY 0%Z 0%Z = None.
Proof.
  intros w.
  apply (popup_destroy_with_zero_count_is_fatal two_popups_env w 2%positive
           1%positive (window_at w 2%positive) (window_at w 1%positive) 200%N
           0%Z 0%Z); by_evaluation.
Defined.

(** ** The close requests of CloseOwnedPopups *)

Lemma posted_app (l1 l2 : list Effect) :
  posted (l1 ++ l2) = posted l1 ++ posted l2.
Proof.
  induction l1 as [|e l1 IH]; [reflexivity|].
  destruct e; simpl; rewrite IH; reflexivity.
Qed.

Lemma close_popup_tables (w w' : World) (popup : ptr) :
  FlutterHostWindow.close_popup w popup = Some w' ->
  instance_property w' = instance_property w /\ gw_owner w' = gw_owner w.
Proof.
  unfold FlutterHostWindow.close_popup.
  destruct (heap w !! popup) as [pe|]; [simpl|discriminate].
  destruct (GetThisFromHandle w _) as [owner|]; [|by intros [= <-]].
  destruct (heap w !! owner) as [oe|]; [simpl|discriminate].
  destruct (_ =? 0)%Z; intros [= <-]; auto.
Qed.

Lemma close_popups_tables (popups : list ptr) :
  forall w w' : World,
  FlutterHostWindow.close_popups popups w = Some w' ->
  instance_property w' = instance_property w /\ gw_owner w' = gw_owner w.
Proof.
  induction popups as [|p rest IH]; intros w w'; simpl.
  - by intros [= <-].
  - destruct (FlutterHostWindow.close_popup w p) as [w1|] eqn:H1;
      [simpl|discriminate].
    intros Hrest. destruct (close_popup_tables _ _ _ H1) as (Hi1 & Hg1).
    destruct (IH _ _ Hrest) as (Hi & Hg). split; congruence.
Qed.

(** The close request of a popup depends on the handles of the windows, the
    window properties and the owner relation only. *)
Lemma close_request_of_same (w w' : World) (p : ptr) :
  same_on window_handle_ w w' ->
  instance_property w' = instance_property w ->
  gw_owner w' = gw_owner w ->
  close_request_of w' p = close_request_of w p.
Proof.
  intros Hsame Hi Hg. unfold close_request_of. specialize (Hsame p).
  destruct (heap w' !! p) as [e'|], (heap w !! p) as [e|];
    simpl in Hsame; try discriminate; [|reflexivity].
  injection Hsame as ->.
  unfold GetThisFromHandle, GetWindow_GW_OWNER. rewrite Hi, Hg. reflexivity.
Qed.

Lemma close_popup_posted (w w' : World) (popup : ptr) :
  FlutterHostWindow.close_popup w popup = Some w' ->
  posted (effects w') = posted (effects w) ++ close_request_of w popup.
Proof.
  unfold FlutterHostWindow.close_popup, close_request_of.
  destruct (heap w !! popup) as [pe|]; [simpl|discriminate].
  destruct (GetThisFromHandle w _) as [owner|].
  2: { intros [= <-]. by rewrite app_nil_r. }
  destruct (heap w !! owner) as [oe|]; [simpl|discriminate].
  destruct (_ =? 0)%Z; intros [= <-]; simpl.
  - rewrite !posted_app. simpl. by rewrite app_nil_r.
  - rewrite posted_app. reflexivity.
Qed.

Lemma close_popups_posted (popups : list ptr) :
  forall w w' : World,
  FlutterHostWindow.close_popups popups w = Some w' ->
  posted (effects w')
  = posted (effects w) ++ mjoin (close_request_of w <$> popups).
Proof.
  induction popups as [|p rest IH]; intros w w'; simpl.
  - intros [= <-]. by rewrite app_nil_r.
  - destruct (FlutterHostWindow.close_popup w p) as [w1|] eqn:H1;
      [simpl|discriminate].
    intros Hrest. rewrite (IH _ _ Hrest), (close_popup_posted _ _ _ H1).
    rewrite <- app_assoc. do 2 f_equal.
    destruct (close_popup_tables _ _ _ H1) as (Hi1 & Hg1).
    assert (Hsame : same_on window_handle_ w w1)
      by (by apply (close_popup_same_on window_handle_ w w1 p)).
    f_equal. apply list_fmap_ext. intros _ q _.
    by apply close_request_of_same.
Qed.

(** X8.  [CloseOwnedPopups] on a window with a popup count other than zero
    posts one close request to every popup of the owned set whose native
    owner has an entity, in ascending order of the addresses of the popups,
    posts nothing else, and takes every popup out of the owned set whether
    or not it was sent a request; the other members stay.  With a popup
    count of zero it posts nothing. *)
Theorem CloseOwnedPopups_posts_one_close_per_popup (w w' : World) (this : ptr)
    (n : Z) (e : FlutterHostWindow) :
  heap w !! this = Some e ->
  FlutterHostWindow.CloseOwnedPopups w this = Some (w', n) ->
  let popups := FlutterHostWindow.popups_in w (owned_windows_ e) in
  if (num_owned_popups_ e =? 0)%Z
  then posted (effects w') = posted (effects w)
  else
    posted (effects w')
    = posted (effects w)
      ++ mjoin (close_request_of w <$> in_address_order popups) /\
    owned_windows_ <$> heap w' !! this = Some (owned_windows_ e ∖ popups).
Proof.
  intros He Hclose popups.
  pose proof (CloseOwnedPopups_outcome w w' this n Hclose)
    as (e0 & He0 & _ & Hzero & Hnonzero).
  rewrite He in He0. injection He0 as <-.
  destruct (Z.eqb_spec (num_owned_popups_ e) 0) as [Hz|Hnz].
  { by rewrite (Hzero Hz). }
  destruct (Hnonzero Hnz) as (e' & He' & Hown & _).
  split; [|by rewrite He'; simpl; rewrite Hown].
  unfold FlutterHostWindow.CloseOwnedPopups in Hclose.
  rewrite He in Hclose. simpl in Hclose.
  apply Z.eqb_neq in Hnz. rewrite Hnz in Hclose.
  destruct (negb _); [discriminate|].
  rewrite lookup_insert_eq in Hclose. simpl in Hclose.
  destruct (FlutterHostWindow.close_popups _ _) as [w2|] eqn:Hloop;
    [simpl in Hclose|discriminate].
  destruct (heap w2 !! this) as [e2|]; [simpl in Hclose|discriminate].
  injection Hclose as <- _.
  rewrite (close_popups_posted _ _ _ Hloop). simpl. do 2 f_equal.
  apply list_fmap_ext. intros _ q _.
  apply close_request_of_same; [|reflexivity|reflexivity].
  by apply (same_on_store window_handle_ w this e).
Qed.

(** X8 in [two_popups_world]: the popup at the address [2], with the handle
    [200], is sent its close request before the popup at the address [3],
    with the handle [300], and both leave the owned set. *)
Lemma CloseOwnedPopups_posts_one_close_per_popup_witness :
  let e := window_at two_popups_world 1%positive in
  let out := FlutterHostWindow.CloseOwnedPopups two_popups_world 1%positive in
  let w' := default empty_world (fst <$> out) in
  let popups := FlutterHostWindow.popups_in two_popups_world (owned_windows_ e) in
  (if (num_owned_popups_ e =? 0)%Z
   then posted (effects w') = posted (effects two_popups_world)
   else
     posted (effects w')
     = posted (effects two_popups_world)
       ++ mjoin (close_request_of two_popups_world
                   <$> in_address_order popups) /\
     owned_windows_ <$> heap w' !! 1%positive
       = Some (owned_windows_ e ∖ popups)) /\
  posted (effects two_popups_world) = [] /\
  posted (effects w') = [(200%N, Win32.WM_CLOSE); (300%N, Win32.WM_CLOSE)].
Proof.
  intros e out w' popups.
  split; [|split; by_evaluation].
  apply (CloseOwnedPopups_posts_one_close_per_popup two_popups_world w'
           1%positive 0%Z e); by_evaluation.
Defined.

(** ** Closing the owned popups twice *)

Lemma same_on_dom {A : Type} (f : FlutterHostWindow -> A) (w w' : World) :
  same_on f w w' -> dom (heap w') = dom (heap w).
Proof.
  intros Hsame. apply set_eq. intros p. rewrite !elem_of_dom.
  specialize (Hsame p).
  destruct (heap w' !! p), (heap w !! p); simpl in Hsame; try discriminate;
    split; intros [? ?]; try discriminate; eauto.
Qed.

Lemma set_owned_windows_same (e : FlutterHostWindow) :
  FlutterHostWindow.set_owned_windows_ (owned_windows_ e) e = e.
Proof. destruct e; reflexivity. Qed.

(** X9.  A second [CloseOwnedPopups] right after the first finds no popup in
    the owned set: it posts nothing, changes nothing and returns zero. *)
Theorem CloseOwnedPopups_twice_changes_nothing (w w' : World) (this : ptr)
    (n : Z) :
  FlutterHostWindow.CloseOwnedPopups w this = Some (w', n) ->
  FlutterHostWindow.CloseOwnedPopups w' this = Some (w', 0%Z).
Proof.
  intros Hclose.
  pose proof (CloseOwnedPopups_outcome w w' this n Hclose)
    as (e & He & _ & Hzero & Hnonzero).
  destruct (Z.eq_dec (num_owned_popups_ e) 0%Z) as [Hz|Hnz].
  { rewrite (Hzero Hz). unfold FlutterHostWindow.CloseOwnedPopups.
    rewrite He. simpl. apply Z.eqb_eq in Hz. by rewrite Hz. }
  destruct (Hnonzero Hnz) as (e' & He' & Hown & Hnum & _ & _ & Hpop).
  assert (Hdom : dom (heap w') = dom (heap w)).
  { apply (same_on_dom (λ _, ())).
    by apply (CloseOwnedPopups_same_on (λ _, ()) w w' this n). }
  assert (Hsub : owned_windows_ e ⊆ dom (heap w)).
  { unfold FlutterHostWindow.CloseOwnedPopups in Hclose.
    rewrite He in Hclose. simpl in Hclose.
    apply Z.eqb_neq in Hnz. rewrite Hnz in Hclose.
    destruct (decide (owned_windows_ e ⊆ dom (heap w))) as [H|H]; [exact H|].
    rewrite (bool_decide_eq_false_2 _ H) in Hclose. discriminate. }
  assert (Hnone : FlutterHostWindow.popups_in w' (owned_windows_ e') = ∅).
  { rewrite Hown. unfold FlutterHostWindow.popups_in.
    apply set_eq. intros p.
    rewrite elem_of_filter, elem_of_difference, elem_of_filter, Hpop.
    split; [intros (Hp & Hin & Hnot); exfalso; apply Hnot; auto|].
    intros Hp. by apply not_elem_of_empty in Hp. }
  unfold FlutterHostWindow.CloseOwnedPopups.
  rewrite He'. simpl. rewrite Hnum.
  apply Z.eqb_neq in Hnz. rewrite Hnz.
  rewrite bool_decide_eq_true_2.
  2: { rewrite Hdom, Hown. intros p Hp.
       apply elem_of_difference in Hp as [Hp _]. by apply Hsub. }
  simpl. rewrite Hnone, difference_empty_L.
  unfold in_address_order. rewrite elements_empty.
  change (merge_sort Pos.le []) with (@nil ptr).
  rewrite set_owned_windows_same, lookup_insert_eq. simpl.
  rewrite lookup_insert_eq. simpl.
  rewrite size_t_sub_diag. do 2 f_equal.
  unfold store, with_heap. rewrite insert_id by exact He'. apply world_eta.
Qed.

(** X9 in [two_popups_world]. *)
Lemma CloseOwnedPopups_twice_changes_nothing_witness :
  let out := FlutterHostWindow.CloseOwnedPopups two_popups_world 1%positive in
  let w' := default empty_world (fst <$> out) in
  FlutterHostWindow.CloseOwnedPopups w' 1%positive = Some (w', 0%Z).
Proof.
  intros out w'.
  apply (CloseOwnedPopups_twice_changes_nothing two_popups_world w' 1%positive
           0%Z).
  by_evaluation.
Defined.

(** ** The popup count after the destroy notifications *)

Lemma CloseOwnedPopups_tables (w w' : World) (this : ptr) (n : Z) :
  FlutterHostWindow.CloseOwnedPopups w this = Some (w', n) ->
  instance_property w' = instance_property w /\ gw_owner w' = gw_owner w.
Proof.
  unfold FlutterHostWindow.CloseOwnedPopups.
  destruct (heap w !! this) as [e|]; [simpl|discriminate].
  destruct (_ =? 0)%Z; [by intros [= <- _]|].
  destruct (negb _); [discriminate|].
  rewrite lookup_insert_eq. simpl.
  destruct (FlutterHostWindow.close_popups _ _) as [w2|] eqn:Hloop;
    [simpl|discriminate].
  destruct (heap w2 !! this); [simpl|discriminate].
  intros [= <- _]. by apply close_popups_tables in Hloop.
Qed.

(** [GetOwnerWindow] reads the handle of the window, the owner relation and
    the window properties. *)
Lemma GetOwnerWindow_same (w w' : World) (e e' : FlutterHostWindow) :
  window_handle_ e' = window_handle_ e ->
  instance_property w' = instance_property w ->
  gw_owner w' = gw_owner w ->
  FlutterHostWindow.GetOwnerWindow w' e' = FlutterHostWindow.GetOwnerWindow w e.
Proof.
  intros Hh Hi Hg.
  unfold FlutterHostWindow.GetOwnerWindow, GetThisFromHandle, GetWindow_GW_OWNER.
  by rewrite Hh, Hi, Hg.
Qed.

(** The destroy notification of a popup whose owner counts at least one
    popup: the popup leaves the owned set of the owner, whether it was a
    member or not, and the count goes down by one. *)
Lemma popup_destroy_step (env : Env) (w : World) (this owner : ptr)
    (e oe : FlutterHostWindow) (wparam : WPARAM) (lparam : LPARAM) :
  heap w !! this = Some e ->
  archetype_ e = kPopup ->
  window_handle_ e <> 0%N ->
  FlutterHostWindow.GetOwnerWindow w e = Some owner ->
  heap w !! owner = Some oe ->
  (0 < num_owned_popups_ oe)%Z ->
  lifecycle_WindowProc env (window_handle_ e) Win32.WM_DESTROY wparam lparam
    = false ->
  exists w' r,
    FlutterHostWindow.HandleMessage env w this (window_handle_ e)
      Win32.WM_DESTROY wparam lparam = Some (w', r) /\
    instance_property w' = instance_property w /\
    gw_owner w' = gw_owner w /\
    heap w' =
      <[owner :=
          FlutterHostWindow.set_num_owned_popups_ (num_owned_popups_ oe - 1)%Z
            (FlutterHostWindow.set_owned_windows_
               (owned_windows_ oe ∖ {[this]}) oe)]> (heap w).
Proof.
  intros He Ha Hh Ho Hoe Hpos Hlc.
  rewrite (HandleMessage_WM_DESTROY env w this e) by exact He.
  rewrite Hlc, andb_false_r.
  destruct (FlutterHostWindow.on_destroy w this e) as [w1|] eqn:Hd.
  2: { exfalso. unfold FlutterHostWindow.on_destroy in Hd.
       apply N.eqb_neq in Hh. rewrite Hh, Ha, Ho in Hd. simpl in Hd.
       rewrite Hoe in Hd. simpl in Hd.
       apply Z.ltb_lt in Hpos. rewrite Hpos in Hd. simpl in Hd.
       destruct (negb _); discriminate. }
  simpl.
  destruct (after_switch_world env w1 e (window_handle_ e) Win32.WM_DESTROY
              wparam lparam) as (Hh2 & Hi2 & Hg2).
  destruct (on_destroy_tables w w1 this e Hd) as (Hi1 & Hg1).
  destruct (FlutterHostWindow.after_switch _ _ _ _ _ _ _) as [w2 r2].
  simpl in *. exists w2, r2. split; [reflexivity|].
  split; [congruence|]. split; [congruence|]. rewrite Hh2.
  destruct (on_destroy_outcome w w1 this e Hd)
    as [Hsame | (owner' & oe' & _ & Ho' & Hoe' & _ & Hheap)].
  - exfalso. unfold FlutterHostWindow.on_destroy in Hd.
    apply N.eqb_neq in Hh. rewrite Hh, Ha, Ho in Hd. simpl in Hd.
    rewrite Hoe in Hd. simpl in Hd.
    destruct (negb (0 <? num_owned_popups_ oe)%Z); [discriminate|].
    assert (Hl : heap w1 !! owner
                 = Some (FlutterHostWindow.set_num_owned_popups_
                           (size_t_dec (num_owned_popups_ oe))
                           (FlutterHostWindow.set_owned_windows_
                              (owned_windows_ oe ∖ {[this]}) oe))).
    { destruct (negb _); injection Hd as <-; apply lookup_insert_eq. }
    rewrite Hsame, Hoe in Hl. injection Hl as Hl.
    apply (f_equal num_owned_popups_) in Hl. simpl in Hl.
    unfold size_t_dec in Hl.
    destruct (Z.eqb_spec (num_owned_popups_ oe) 0); lia.
  - rewrite Ho in Ho'. injection Ho' as <-.
    rewrite Hoe in Hoe'. injection Hoe' as <-. exact Hheap.
Qed.

(** The destroy notifications of popups of one owner, one after the other:
    each lowers the popup count of the owner by one and takes the popup out
    of the owned set. *)
Lemma destroy_each_counts_down (env : Env) (owner : ptr) (ps : list ptr) :
  forall (w : World) (oe : FlutterHostWindow),
  heap w !! owner = Some oe ->
  (Z.of_nat (length ps) <= num_owned_popups_ oe)%Z ->
  (forall p, p ∈ ps ->
     FlutterHostWindow.is_popup w p = true /\
     destroy_reaches_owner env w owner p = true) ->
  exists w' oe',
    destroy_each env w ps = Some w' /\
    heap w' !! owner = Some oe' /\
    num_owned_popups_ oe' = (num_owned_popups_ oe - Z.of_nat (length ps))%Z /\
    owned_windows_ oe' = owned_windows_ oe ∖ list_to_set ps /\
    same_on kind_and_state w w'.
Proof.
  induction ps as [|p rest IH]; intros w oe Hoe Hlen Hps.
  - exists w, oe. simpl. split; [reflexivity|]. split; [exact Hoe|].
    split; [lia|]. split; [|apply same_on_refl].
    by rewrite difference_empty_L.
  - destruct (Hps p) as (Hpop & Hreach); [by left|].
    unfold FlutterHostWindow.is_popup in Hpop.
    unfold destroy_reaches_owner in Hreach.
    destruct (heap w !! p) as [pe|] eqn:Hpe; [|discriminate].
    apply bool_decide_eq_true_1 in Hpop.
    apply andb_prop in Hreach as [Hreach Hlc].
    apply andb_prop in Hreach as [Hh Ho].
    apply negb_true_iff, N.eqb_neq in Hh.
    apply bool_decide_eq_true_1 in Ho. apply negb_true_iff in Hlc.
    simpl in Hlen.
    destruct (popup_destroy_step env w p owner pe oe 0%Z 0%Z Hpe Hpop Hh Ho Hoe
                ltac:(lia) Hlc) as (w1 & r & Hstep & Hi & Hg & Hheap).
    pose proof (HandleMessage_keeps_kind_and_state _ _ _ _ _ _ _ _ _ Hstep)
      as Hkind.
    set (oe1 := FlutterHostWindow.set_num_owned_popups_
                  (num_owned_popups_ oe - 1)%Z
                  (FlutterHostWindow.set_owned_windows_
                     (owned_windows_ oe ∖ {[p]}) oe)) in *.
    assert (Hoe1 : heap w1 !! owner = Some oe1)
      by (rewrite Hheap; apply lookup_insert_eq).
    destruct (IH w1 oe1 Hoe1) as (w2 & oe2 & Hrest & Hoe2 & Hnum & Hown & Hk).
    { simpl. lia. }
    { intros q Hq. destruct (Hps q) as (Hqpop & Hqreach); [by right|].
      split; [by rewrite (is_popup_same_kind w w1 q Hkind)|].
      unfold destroy_reaches_owner in *. rewrite Hheap.
      destruct (decide (owner = q)) as [<-|Hne].
      - rewrite lookup_insert_eq. rewrite Hoe in Hqreach. simpl.
        by rewrite (GetOwnerWindow_same w w1 oe oe1 eq_refl Hi Hg).
      - rewrite lookup_insert_ne by exact Hne.
        destruct (heap w !! q) as [qe|]; [|discriminate].
        by rewrite (GetOwnerWindow_same w w1 qe qe eq_refl Hi Hg). }
    exists w2, oe2. simpl. rewrite Hpe. simpl. rewrite Hstep. simpl.
    split; [exact Hrest|]. split; [exact Hoe2|].
    split; [rewrite Hnum; simpl; lia|].
    split; [|by eapply same_on_trans].
    rewrite Hown. simpl. apply set_eq. intros q.
    rewrite !elem_of_difference, elem_of_union. tauto.
Qed.

(** X10.  The gap [CloseOwnedPopups] opens between the popup count and the
    owned set closes again with the destroy notifications of the popups it
    has unlinked.  For a window whose popup count equals the number of
    popups in its owned set, each of them a window with a handle whose
    native owner is this window: after [CloseOwnedPopups] and the destroy
    notifications of these popups, in any order, every notification has been
    handled, the popup count is zero, the owned set holds the other members,
    and count and set agree again. *)
Theorem destroy_notifications_restore_popup_count (env : Env) (w w1 : World)
    (this : ptr) (n : Z) (e : FlutterHostWindow) (ps : list ptr) :
  let popups := FlutterHostWindow.popups_in w (owned_windows_ e) in
  heap w !! this = Some e ->
  count_matches w e ->
  forallb (destroy_reaches_owner env w this) (elements popups) = true ->
  FlutterHostWindow.CloseOwnedPopups w this = Some (w1, n) ->
  ps ≡ₚ elements popups ->
  exists w2 e2,
    destroy_each env w1 ps = Some w2 /\
    heap w2 !! this = Some e2 /\
    num_owned_popups_ e2 = 0%Z /\
    owned_windows_ e2 = owned_windows_ e ∖ popups /\
    count_matches w2 e2.
Proof.
  intros popups He Hcount Hreach Hclose Hperm.
  (* the world after CloseOwnedPopups *)
  destruct (CloseOwnedPopups_tables w w1 this n Hclose) as (Hi & Hg).
  assert (Hkind : same_on kind_and_state w w1)
    by (by apply (CloseOwnedPopups_same_on kind_and_state w w1 this n)).
  assert (Hhandle : same_on window_handle_ w w1)
    by (by apply (CloseOwnedPopups_same_on window_handle_ w w1 this n)).
  assert (He1 : exists e1,
            heap w1 !! this = Some e1 /\
            owned_windows_ e1 = owned_windows_ e ∖ popups /\
            num_owned_popups_ e1 = num_owned_popups_ e).
  { destruct (CloseOwnedPopups_outcome w w1 this n Hclose)
      as (e0 & He0 & _ & Hzero & Hnonzero).
    rewrite He in He0. injection He0 as <-.
    destruct (Z.eq_dec (num_owned_popups_ e) 0%Z) as [Hz|Hnz].
    - rewrite (Hzero Hz). exists e. split; [exact He|]. split; [|reflexivity].
      unfold count_matches, owned_popups in Hcount. fold popups in Hcount.
      assert (Hempty : popups = ∅)
        by (apply leibniz_equiv, size_empty_iff; lia).
      by rewrite Hempty, difference_empty_L.
    - destruct (Hnonzero Hnz) as (e1 & He1 & Hown & Hnum & _).
      exists e1. auto. }
  destruct He1 as (e1 & He1 & Hown1 & Hnum1).
  assert (Hlen : length ps = size popups).
  { rewrite Hperm. reflexivity. }
  (* the destroy notifications *)
  destruct (destroy_each_counts_down env this ps w1 e1 He1)
    as (w2 & e2 & Hall & He2 & Hnum2 & Hown2 & Hkind2).
  { rewrite Hnum1, Hlen. unfold count_matches, owned_popups in Hcount.
    fold popups in Hcount. lia. }
  { intros p Hp. rewrite Hperm in Hp. apply elem_of_elements in Hp.
    split.
    - rewrite (is_popup_same_kind w w1 p Hkind).
      by apply elem_of_filter in Hp as [Hp _].
    - rewrite forallb_forall in Hreach.
      specialize (Hreach p). rewrite <- list_elem_of_In in Hreach.
      specialize (Hreach ltac:(by apply elem_of_elements)).
      unfold destroy_reaches_owner in *.
      pose proof (Hhandle p) as Hhp.
      destruct (heap w !! p) as [pe|]; [|discriminate].
      destruct (heap w1 !! p) as [pe1|]; [|discriminate].
      simpl in Hhp. injection Hhp as Hhp.
      by rewrite (GetOwnerWindow_same w w1 pe pe1 Hhp Hi Hg), Hhp. }
  exists w2, e2. split; [exact Hall|]. split; [exact He2|].
  assert (Hzero2 : num_owned_popups_ e2 = 0%Z).
  { rewrite Hnum2, Hnum1, Hlen. unfold count_matches, owned_popups in Hcount.
    fold popups in Hcount. lia. }
  assert (Hset2 : owned_windows_ e2 = owned_windows_ e ∖ popups).
  { rewrite Hown2, Hown1. apply set_eq. intros p.
    rewrite !elem_of_difference, elem_of_list_to_set, Hperm, elem_of_elements.
    tauto. }
  split; [exact Hzero2|]. split; [exact Hset2|].
  unfold count_matches, owned_popups. rewrite Hzero2, Hset2.
  assert (Hnone : FlutterHostWindow.popups_in w2 (owned_windows_ e ∖ popups) = ∅).
  { unfold popups, FlutterHostWindow.popups_in. apply set_eq. intros p.
    rewrite elem_of_filter, elem_of_difference, elem_of_filter.
    rewrite (is_popup_same_kind w1 w2 p Hkind2),
      (is_popup_same_kind w w1 p Hkind).
    split; [intros (Hp & Hin & Hnot); exfalso; apply Hnot; auto|].
    intros Hp. by apply not_elem_of_empty in Hp. }
  by rewrite Hnone, size_empty.
Qed.

(** X10 in [two_popups_world]: [CloseOwnedPopups] on the owner at address
    [1], then the destroy notifications of the popups at [3] and [2]. *)
Lemma destroy_notifications_restore_popup_count_witness :
  let e := window_at two_popups_world 1%positive in
  let popups := FlutterHostWindow.popups_in two_popups_world (owned_windows_ e) in
  let w1 :=
    default empty_world
      (fst <$> FlutterHostWindow.CloseOwnedPopups two_popups_world 1%positive) in
  exists w2 e2,
    destroy_each two_popups_env w1 [3%positive; 2%positive] = Some w2 /\
    heap w2 !! 1%positive = Some e2 /\
    num_owned_popups_ e2 = 0%Z /\
    owned_windows_ e2 = owned_windows_ e ∖ popups /\
    count_matches w2 e2.
Proof.
  intros e popups w1.
  apply (destroy_notifications_restore_popup_count two_popups_env
           two_popups_world w1 1%positive 0%Z e [3%positive; 2%positive]).
  - by_evaluation.
  - by_evaluation.
  - by_evaluation.
  - by_evaluation.
  - match goal with
    | |- _ ≡ₚ ?l =>
        assert (Hel : l = [3%positive; 2%positive]
                      \/ l = [2%positive; 3%positive])
          by (vm_compute; first [left; reflexivity | right; reflexivity]);
        destruct Hel as [-> | ->]; [reflexivity|apply Permutation_swap]
    end.
Defined.

(** ** Creation and release through the controller *)

Lemma link_to_owner_tables (owner : HWND) (this : ptr) (a : WindowArchetype)
    (w w' : World) :
  FlutterHostWindow.link_to_owner owner this a w = Some w' ->
  instance_property w' = instance_property w /\ gw_owner w' = gw_owner w /\
  effects w' = effects w.
Proof.
  unfold FlutterHostWindow.link_to_owner.
  destruct (GetThisFromHandle w owner) as [o|]; [|by intros [= <-]].
  destruct (heap w !! o) as [oe|]; [simpl|discriminate].
  by intros [= <-].
Qed.

(** The object a successful constructor leaves at [this]: it has the view
    the engine created, that view's window as content, the requested state
    or else "restored", and it waits for its first show; the window
    properties and the owner relation are those of the new native window. *)
Lemma constructor_success (env : Env) (w w1 : World) (this : ptr)
    (settings : WindowCreationSettings.t) (e : FlutterHostWindow) :
  FlutterHostWindow.constructor env w this settings = Some w1 ->
  heap w1 !! this = Some e ->
  window_handle_ e <> 0%N ->
  let owner := FlutterHostWindow.owner_of env settings in
  (exists view,
     view_controller_ e = Some view /\
     child_content_ e = view_window_handle view) /\
  state_ e
    = Some (default kRestored (WindowCreationSettings.state settings)) /\
  pending_show_ e = true /\
  owned_windows_ e = ∅ /\
  num_owned_popups_ e = 0%Z /\
  instance_property w1 = <[window_handle_ e := this]> (instance_property w) /\
  gw_owner w1 =
    (if (owner =? 0)%N then gw_owner w
     else <[window_handle_ e := owner]> (gw_owner w)).
Proof.
  intros Hc He Hh owner. unfold FlutterHostWindow.constructor in Hc.
  simpl in Hc. fold owner in Hc.
  destruct (FlutterHostWindow.archetype_preconditions _ _ _); simpl in *.
  2: { injection Hc as <-. rewrite lookup_store_eq in He.
       injection He as <-. contradiction. }
  destruct (FlutterHostWindow.size_constraints_valid _ _); simpl in *.
  2: { injection Hc as <-. rewrite lookup_store_eq in He.
       injection He as <-. contradiction. }
  destruct (engine_CreateView env _ _ _ _) as [view|].
  2: { injection Hc as <-. rewrite lookup_store_eq in He.
       injection He as <-.
       destruct (FlutterHostWindow.drop_infinite _),
                (FlutterHostWindow.drop_infinite _); contradiction. }
  destruct (engine_running env); [simpl in Hc|discriminate].
  destruct (window_class_registered env); simpl in Hc.
  2: { injection Hc as <-. rewrite lookup_store_eq in He.
       injection He as <-.
       destruct (FlutterHostWindow.drop_infinite _),
                (FlutterHostWindow.drop_infinite _); contradiction. }
  destruct (CreateWindowEx env _ _ _ _ =? 0)%N eqn:Hcreated; simpl in Hc.
  { injection Hc as <-. rewrite lookup_store_eq in He.
    injection He as <-.
    destruct (FlutterHostWindow.drop_infinite _),
             (FlutterHostWindow.drop_infinite _); contradiction. }
  match type of Hc with
  | context [FlutterHostWindow.link_to_owner ?o ?t ?a ?w2] =>
      destruct (FlutterHostWindow.link_to_owner o t a w2) as [w3|] eqn:Hlink;
      [simpl in Hc|discriminate]
  end.
  apply link_to_owner_tables in Hlink as (Hi & Hg & _).
  injection Hc as <-. rewrite lookup_store_eq in He. injection He as <-.
  simpl. rewrite Hi, Hg. simpl.
  split; [exists view; split|split_all]; try reflexivity;
    destruct (FlutterHostWindow.drop_infinite _),
             (FlutterHostWindow.drop_infinite _), (negb (owner =? 0)%N);
    try reflexivity; destruct (negb _); reflexivity.
Qed.


Lemma fresh_address_is_free (w : World) : heap w !! fresh (dom (heap w)) = None.
Proof. apply not_elem_of_dom, is_fresh. Qed.



Lemma destroy_requests_app (l1 l2 : list Effect) :
  destroy_requests (l1 ++ l2) = destroy_requests l1 ++ destroy_requests l2.
Proof.
  induction l1 as [|e l1 IH]; [reflexivity|].
  destruct e; simpl; rewrite IH; reflexivity.
Qed.

(** What the controller's [HandleMessage] leaves of the world it found after
    its first statement: the callback is the only thing it calls. *)
Lemma HandleMessage_after_erase (env : Env)
    (c c' : FlutterHostWindowController.t) (w w' : World) (hwnd : HWND)
    (message : UINT) (wparam : WPARAM) (lparam : LPARAM) (r : option LRESULT) :
  FlutterHostWindowController.HandleMessage env c w hwnd message wparam lparam
    = Some (c', w', r) ->
  let c1 := (FlutterHostWindowController.after_erase c w hwnd message).1 in
  let w1 := (FlutterHostWindowController.after_erase c w hwnd message).2 in
  FlutterHostWindowController.active_windows_ c'
    = FlutterHostWindowController.active_windows_ c1 /\
  FlutterHostWindowController.on_message_ c'
    = FlutterHostWindowController.on_message_ c /\
  FlutterHostWindowController.isolate_ c'
    = FlutterHostWindowController.isolate_ c /\
  heap w' = heap w1 /\
  instance_property w' = instance_property w1 /\
  gw_owner w' = gw_owner w1 /\
  destroy_requests (effects w') = destroy_requests (effects w1).
Proof.
  rewrite HandleMessage_unfold.
  destruct (after_erase_keeps c w hwnd message) as (Hcb & Hi & _ & _).
  destruct (GetViewFromTopLevelWindow env hwnd) as [v|]; simpl.
  2: { intros [= <- <- _]. auto 10. }
  destruct (FlutterHostWindowController.isolate_ _) eqn:Hiso.
  2: { intros [= <- <- _]. simpl. rewrite Hiso. auto 10. }
  unfold FlutterHostWindowController.call_on_message.
  destruct (FlutterHostWindowController.on_message_ _) as [cb|] eqn:Hon;
    [simpl|discriminate].
  intros [= <- <- _]. simpl. rewrite Hiso, Hon.
  rewrite destroy_requests_app. simpl. rewrite app_nil_r. auto 10.
Qed.

(** X12.  Creation and release are inverse to each other.  When
    [CreateWindow_] has registered a window under a handle that was neither
    registered nor carried a window property, the [WM_NCDESTROY] of that
    handle takes the controller's registry, the heap, the window properties
    and the owner relation back to what they were before the creation, and
    [DestroyWindow] is called on the handle once. *)
Theorem created_window_is_released_on_WM_NCDESTROY (env : Env)
    (c c1 c2 : FlutterHostWindowController.t) (w w1 w2 : World)
    (request : FlutterHostWindowController.WindowCreationRequest.t)
    (id : FlutterViewId) (hwnd : HWND) (this : ptr) (wparam : WPARAM)
    (lparam : LPARAM) (r : option LRESULT) :
  FlutterHostWindowController.CreateWindow_ env c w request
    = Some (id, c1, w1) ->
  FlutterHostWindowController.active_windows_ c !! hwnd = None ->
  FlutterHostWindowController.active_windows_ c1 !! hwnd = Some this ->
  instance_property w !! hwnd = None ->
  FlutterHostWindowController.HandleMessage env c1 w1 hwnd Win32.WM_NCDESTROY
    wparam lparam = Some (c2, w2, r) ->
  FlutterHostWindowController.active_windows_ c2
    = FlutterHostWindowController.active_windows_ c /\
  heap w2 = heap w /\
  instance_property w2 = instance_property w /\
  gw_owner w2 = gw_owner w /\
  destroy_requests (effects w2) = destroy_requests (effects w1) ++ [hwnd].
Proof.
  intros Hcreate Hfree Hreg Hprop Hmsg.
  (* the creation *)
  unfold FlutterHostWindowController.CreateWindow_,
    FlutterHostWindowController.create_from_settings in Hcreate.
  set (p := fresh (dom (heap w))) in Hcreate.
  destruct (FlutterHostWindow.constructor env w p _) as [w0|] eqn:Hc;
    [simpl in Hcreate|discriminate].
  destruct (heap w0 !! p) as [e|] eqn:He; [simpl in Hcreate|discriminate].
  unfold FlutterHostWindow.GetWindowHandle in Hcreate.
  destruct (N.eqb_spec (window_handle_ e) 0) as [Hz|Hnz].
  { injection Hcreate as _ <- _. congruence. }
  destruct (constructor_realized env w w0 p _ e Hc He Hnz)
    as (_ & _ & w2' & w3 & Hheap2 & _ & Hlink & Hheap0).
  destruct (constructor_success env w w0 p _ e Hc He Hnz)
    as ((view & Hview & _) & _ & _ & _ & _ & Hprop0 & Hgw0).
  simpl in Hlink, Hgw0.
  unfold FlutterHostWindow.link_to_owner in Hlink. simpl in Hlink.
  injection Hlink as <-.
  rewrite Hview in Hcreate. simpl in Hcreate.
  injection Hcreate as _ <- <-. simpl in Hreg.
  assert (Hh : window_handle_ e = hwnd).
  { destruct (decide (window_handle_ e = hwnd)) as [H|H]; [exact H|].
    rewrite lookup_insert_ne in Hreg by exact H. congruence. }
  rewrite Hh in *. rewrite lookup_insert_eq in Hreg. injection Hreg as <-.
  rewrite Hfree in Hmsg |- *.
  (* the release *)
  apply HandleMessage_after_erase in Hmsg.
  unfold FlutterHostWindowController.after_erase,
    FlutterHostWindowController.erase_window in Hmsg.
  simpl in Hmsg. rewrite lookup_insert_eq in Hmsg. simpl in Hmsg.
  destruct Hmsg as (Hreg2 & _ & _ & Hheap & Hprops & Hgw & Hdestroy).
  unfold FlutterHostWindow.destructor in *.
  rewrite He, Hh, Hview in *.
  rewrite (bool_decide_eq_true_2 (is_Some (Some view))) in * by eauto.
  apply N.eqb_neq in Hnz. rewrite Hnz in *. simpl in *.
  rewrite Hreg2, Hheap, Hprops, Hgw, Hdestroy.
  split; [rewrite delete_insert_eq; by apply delete_id|].
  split.
  { rewrite Hheap0, Hheap2, delete_insert_eq.
    apply delete_id, fresh_address_is_free. }
  split; [rewrite Hprop0, delete_insert_eq; by apply delete_id|].
  split; [exact Hgw0|].
  by rewrite destroy_requests_app.
Qed.

(** X12 for the first window of an application, created with the handle
    [100] and released before the bridge is initialised. *)
Lemma created_window_is_released_on_WM_NCDESTROY_witness :
  let env := env_for 100%N in
  let c := FlutterHostWindowController.constructor in
  let request := request_with 0%float 0%float 0%float 0%float in
  let created := FlutterHostWindowController.CreateWindow_ env c empty_world request in
  let c1 := default c (snd <$> (fst <$> created)) in
  let w1 := default empty_world (snd <$> created) in
  let released :=
    FlutterHostWindowController.HandleMessage env c1 w1 100%N
      Win32.WM_NCDESTROY 0%Z 0%Z in
  let c2 := default c (fst <$> (fst <$> released)) in
  let w2 := default empty_world (snd <$> (fst <$> released)) in
  FlutterHostWindowController.active_windows_ c2
    = FlutterHostWindowController.active_windows_ c /\
  heap w2 = heap empty_world /\
  instance_property w2 = instance_property empty_world /\
  gw_owner w2 = gw_owner empty_world /\
  destroy_requests (effects w2) = destroy_requests (effects w1) ++ [100%N].
Proof.
  intros env c request created c1 w1 released c2 w2.
  apply (created_window_is_released_on_WM_NCDESTROY env c c1 c2 empty_world w1
           w2 request 7%Z 100%N 1%positive 0%Z 0%Z None); by_evaluation.
Defined.

(** X13.  The registry of the controller changes at [WM_NCDESTROY] and at no
    other message.  At [WM_NCDESTROY] the entry of the handle is erased and
    its window released, whether or not the view of the handle is known, the
    bridge is initialised, or the callback handles the message; any other
    message leaves the registry, the heap and the window properties as they
    are.  The callback and the isolate are never changed. *)
Theorem registry_changes_only_on_WM_NCDESTROY (env : Env)
    (c c' : FlutterHostWindowController.t) (w w' : World) (hwnd : HWND)
    (message : UINT) (wparam : WPARAM) (lparam : LPARAM) (r : option LRESULT) :
  FlutterHostWindowController.HandleMessage env c w hwnd message wparam lparam
    = Some (c', w', r) ->
  FlutterHostWindowController.on_message_ c'
    = FlutterHostWindowController.on_message_ c /\
  FlutterHostWindowController.isolate_ c'
    = FlutterHostWindowController.isolate_ c /\
  (message <> Win32.WM_NCDESTROY ->
   FlutterHostWindowController.active_windows_ c'
     = FlutterHostWindowController.active_windows_ c /\
   heap w' = heap w /\ instance_property w' = instance_property w) /\
  (message = Win32.WM_NCDESTROY ->
   FlutterHostWindowController.active_windows_ c'
     = delete hwnd (FlutterHostWindowController.active_windows_ c) /\
   heap w' =
     match FlutterHostWindowController.active_windows_ c !! hwnd with
     | Some window => delete window (heap w)
     | None => heap w
     end).
Proof.
  intros Hmsg. apply HandleMessage_after_erase in Hmsg.
  destruct Hmsg as (Hreg & Hcb & Hiso & Hheap & Hprops & _ & _).
  split; [exact Hcb|]. split; [exact Hiso|].
  unfold FlutterHostWindowController.after_erase in *.
  destruct (Z.eqb_spec message Win32.WM_NCDESTROY) as [->|Hne].
  - split; [contradiction|]. intros _.
    unfold FlutterHostWindowController.erase_window in *.
    destruct (FlutterHostWindowController.active_windows_ c !! hwnd)
      as [window|] eqn:Hw; simpl in *.
    + split; [exact Hreg|]. rewrite Hheap.
      unfold FlutterHostWindow.destructor.
      destruct (heap w !! window) as [e|] eqn:He.
      * by destruct (bool_decide _).
      * symmetry. by apply delete_id.
    + split; [|exact Hheap]. rewrite Hreg. symmetry. by apply delete_id.
  - simpl in *. split; [auto|]. intros ->. contradiction.
Qed.

Lemma registry_changes_only_on_WM_NCDESTROY_witness :
  let out :=
    FlutterHostWindowController.HandleMessage two_popups_env
      (default FlutterHostWindowController.constructor
         (fst <$> owner_with_two_popups))
      two_popups_world 200%N Win32.WM_NCDESTROY 0%Z 0%Z in
  let c := default FlutterHostWindowController.constructor
             (fst <$> owner_with_two_popups) in
  let c' := default FlutterHostWindowController.constructor
              (fst <$> (fst <$> out)) in
  let w' := default empty_world (snd <$> (fst <$> out)) in
  FlutterHostWindowController.on_message_ c'
    = FlutterHostWindowController.on_message_ c /\
  FlutterHostWindowController.isolate_ c'
    = FlutterHostWindowController.isolate_ c /\
  (Win32.WM_NCDESTROY <> Win32.WM_NCDESTROY ->
   FlutterHostWindowController.active_windows_ c'
     = FlutterHostWindowController.active_windows_ c /\
   heap w' = heap two_popups_world /\
   instance_property w' = instance_property two_popups_world) /\
  (Win32.WM_NCDESTROY = Win32.WM_NCDESTROY ->
   FlutterHostWindowController.active_windows_ c'
     = delete 200%N (FlutterHostWindowController.active_windows_ c) /\
   heap w' =
     match FlutterHostWindowController.active_windows_ c !! 200%N with
     | Some window => delete window (heap two_popups_world)
     | None => heap two_popups_world
     end).
Proof.
  intros out c c' w'.
  apply (registry_changes_only_on_WM_NCDESTROY two_popups_env c c'
           two_popups_world w' 200%N Win32.WM_NCDESTROY 0%Z 0%Z None).
  by_evaluation.
Defined.

(** ** Calls through a null callback *)

(** X14.  The bridge ends the process exactly where it calls a callback that
    is null.  [HandleMessage] does so when the view of the handle is known
    and an isolate is set while no callback is, and in no other case;
    [Initialize] does so when the request carries no callback and a message
    is waiting in the buffer, and in no other case. *)
Theorem bridge_stops_exactly_at_a_null_callback :
  (forall (env : Env) (c : FlutterHostWindowController.t) (w : World)
          (hwnd : HWND) (message : UINT) (wparam : WPARAM) (lparam : LPARAM),
     FlutterHostWindowController.HandleMessage env c w hwnd message wparam
       lparam = None <->
     is_Some (GetViewFromTopLevelWindow env hwnd) /\
     is_Some (FlutterHostWindowController.isolate_ c) /\
     FlutterHostWindowController.on_message_ c = None) /\
  (forall (c : FlutterHostWindowController.t) (w : World)
          (request : FlutterHostWindowController.WindowingInitRequest.t),
     FlutterHostWindowController.Initialize c w request = None <->
     FlutterHostWindowController.WindowingInitRequest.on_message request = None /\
     FlutterHostWindowController.pending_messages_ c <> []).
Proof.
  split.
  - intros env c w hwnd message wparam lparam.
    rewrite HandleMessage_unfold.
    destruct (after_erase_keeps c w hwnd message) as (Hcb & Hi & _ & _).
    destruct (GetViewFromTopLevelWindow env hwnd) as [v|]; simpl.
    2: { split; [discriminate|]. intros ([? ?] & _). discriminate. }
    rewrite Hi, Hcb.
    destruct (FlutterHostWindowController.isolate_ c) as [iso|].
    2: { split; [discriminate|]. intros (_ & [? ?] & _). discriminate. }
    destruct (FlutterHostWindowController.on_message_ c) as [cb|]; simpl.
    + split; [discriminate|]. intros (_ & _ & ?). discriminate.
    + split; [|reflexivity]. intros _. eauto.
  - intros c w request. unfold FlutterHostWindowController.Initialize. simpl.
    destruct (FlutterHostWindowController.WindowingInitRequest.on_message request)
      as [cb|].
    + destruct (replay_delivers cb
                  (FlutterHostWindowController.pending_messages_ c) w)
        as (w' & -> & _). simpl.
      split; [discriminate|]. intros (? & _). discriminate.
    + destruct (FlutterHostWindowController.pending_messages_ c) as [|m rest];
        simpl.
      * split; [discriminate|]. intros (_ & ?). contradiction.
      * split; [|reflexivity]. intros _. split; [reflexivity|discriminate].
Qed.

(** ** Engine shutdown *)


(** X16.  Shutdown clears the callback and leaves the isolate set.  Once the
    bridge has been initialised, a message for a handle whose view is known
    that reaches [HandleMessage] after the first statement of
    [OnEngineShutdown], whatever the world has become by then (the destroy
    notifications of the windows it asks to destroy are such messages), is
    handed to the null callback and ends the process. *)
Theorem message_after_shutdown_calls_a_null_callback (env : Env)
    (c : FlutterHostWindowController.t) (w w' : World) (hwnd : HWND)
    (message : UINT) (wparam : WPARAM) (lparam : LPARAM)
    (iso : FlutterHostWindowController.Isolate) (view_id : FlutterViewId) :
  FlutterHostWindowController.isolate_ c = Some iso ->
  GetViewFromTopLevelWindow env hwnd = Some view_id ->
  FlutterHostWindowController.HandleMessage env (OnEngineShutdown c w).1 w'
    hwnd message wparam lparam = None.
Proof.
  intros Hiso Hview. rewrite HandleMessage_unfold.
  destruct (after_erase_keeps (OnEngineShutdown c w).1 w' hwnd message)
    as (Hcb & Hi & _ & _).
  rewrite Hview. cbv zeta beta iota. rewrite Hi, Hcb. simpl.
  rewrite Hiso. reflexivity.
Qed.

(** X16 for the owner of two popups, initialised and then shut down: the
    destroy notification of the owner arrives next. *)
Lemma message_after_shutdown_calls_a_null_callback_witness :
  let c0 :=
    default FlutterHostWindowController.constructor
      (fst <$> owner_with_two_popups) in
  let initialised :=
    FlutterHostWindowController.Initialize c0 two_popups_world
      {| FlutterHostWindowController.WindowingInitRequest.on_message :=
           Some (fun m => m) |} in
  let c := default c0 (fst <$> initialised) in
  let w := default empty_world (snd <$> initialised) in
  FlutterHostWindowController.HandleMessage two_popups_env
    (OnEngineShutdown c w).1 (OnEngineShutdown c w).2 100%N Win32.WM_DESTROY
    0%Z 0%Z = None.
Proof.
  intros c0 initialised c w.
  apply (message_after_shutdown_calls_a_null_callback two_popups_env c w
           (OnEngineShutdown c w).2 100%N Win32.WM_DESTROY 0%Z 0%Z
           FlutterHostWindowController.CurrentIsolate 7%Z); by_evaluation.
Defined.

(** ** The entity of a window that exists already *)

(** X18.  Wrapping a window that exists already and releasing the wrapper
    leaves no trace and does not destroy the window.  For a handle that is
    not null, the entity constructed at a free address from the handle and a
    view is found through the handle; releasing it calls [DestroyWindow] on
    nothing and takes the heap back to what it was, after which the handle
    resolves to no entity (not even to the one it resolved to before); and
    when the handle carried no window property before, the world is exactly
    the one before the construction. *)
Theorem wrapper_is_released_without_trace (w : World) (this : ptr)
    (hwnd : HWND) (view : FlutterWindowsView) :
  heap w !! this = None ->
  hwnd <> 0%N ->
  exists w1,
    constructor_from_handle w this hwnd (Some view) = Some w1 /\
    GetThisFromHandle w1 hwnd = Some this /\
    let w2 := FlutterHostWindow.destructor w1 this in
    GetThisFromHandle w2 hwnd = None /\
    heap w2 = heap w /\
    effects w2 = effects w /\
    (instance_property w !! hwnd = None -> w2 = w).
Proof.
  intros Hfree Hh. eexists. split; [reflexivity|].
  apply N.eqb_neq in Hh.
  unfold SetInstanceProperty, GetThisFromHandle, FlutterHostWindow.destructor.
  rewrite lookup_store_eq. simpl. rewrite Hh. simpl.
  rewrite lookup_insert_eq. split; [reflexivity|].
  rewrite lookup_delete_eq, delete_insert_eq.
  rewrite (delete_id (heap w)) by exact Hfree.
  split_all; try reflexivity.
  intros Hprop. rewrite delete_insert_eq, delete_id by exact Hprop.
  apply world_eta.
Qed.

Lemma wrapper_is_released_without_trace_witness :
  exists w1,
    constructor_from_handle two_popups_world 4%positive 500%N
      (Some {| view_id_of := 8%Z; view_window_handle := 501%N |}) = Some w1 /\
    GetThisFromHandle w1 500%N = Some 4%positive /\
    let w2 := FlutterHostWindow.destructor w1 4%positive in
    GetThisFromHandle w2 500%N = None /\
    heap w2 = heap two_popups_world /\
    effects w2 = effects two_popups_world /\
    (instance_property two_popups_world !! 500%N = None ->
     w2 = two_popups_world).
Proof.
  apply (wrapper_is_released_without_trace two_popups_world 4%positive 500%N
           {| view_id_of := 8%Z; view_window_handle := 501%N |}); by_evaluation.
Defined.

(** ** Release without the destroy notification *)

(** X19.  The destructor does not unlink a window from its owner: that is
    left to the destroy notification.  When a window is released while it is
    a member of the owned set of another window whose popup count is not
    zero, the set keeps the pointer, and [CloseOwnedPopups] on the owner
    follows it: it has no result. *)
Theorem release_does_not_unlink_from_owner (w : World) (this owner : ptr)
    (e oe : FlutterHostWindow) :
  heap w !! this = Some e ->
  heap w !! owner = Some oe ->
  this <> owner ->
  this ∈ owned_windows_ oe ->
  num_owned_popups_ oe <> 0%Z ->
  let w' := FlutterHostWindow.destructor w this in
  heap w' !! owner = Some oe /\
  heap w' !! this = None /\
  FlutterHostWindow.CloseOwnedPopups w' owner = None.
Proof.
  intros He Hoe Hne Hin Hnz w'.
  assert (Hheap : heap w' = delete this (heap w)).
  { unfold w', FlutterHostWindow.destructor. rewrite He.
    by destruct (bool_decide _). }
  assert (Ho : heap w' !! owner = Some oe)
    by (rewrite Hheap, lookup_delete_ne by exact Hne; exact Hoe).
  assert (Ht : heap w' !! this = None)
    by (rewrite Hheap; apply lookup_delete_eq).
  split; [exact Ho|]. split; [exact Ht|].
  unfold FlutterHostWindow.CloseOwnedPopups. rewrite Ho. simpl.
  apply Z.eqb_neq in Hnz. rewrite Hnz.
  rewrite bool_decide_eq_false_2; [reflexivity|].
  intros Hsub. specialize (Hsub this Hin).
  apply elem_of_dom in Hsub as [? Hsub]. congruence.
Qed.

(** X19 in [two_popups_world]: the popup at address [2] is released by its
    [WM_NCDESTROY] without a destroy notification before it. *)
Lemma release_does_not_unlink_from_owner_witness :
  let w' := FlutterHostWindow.destructor two_popups_world 2%positive in
  heap w' !! 1%positive = Some (window_at two_popups_world 1%positive) /\
  heap w' !! 2%positive = None /\
  FlutterHostWindow.CloseOwnedPopups w' 1%positive = None.
Proof.
  apply (release_does_not_unlink_from_owner two_popups_world 2%positive
           1%positive (window_at two_popups_world 2%positive)
           (window_at two_popups_world 1%positive)); by_evaluation.
Defined.

(** ** Offsets between windows *)






(** ** Clamping to the virtual screen *)

Lemma SFcompare_antisym (f1 f2 : SpecFloat.spec_float) :
  SpecFloat.SFcompare f2 f1 = CompOpp <$> SpecFloat.SFcompare f1 f2.
Proof.
  destruct f1 as [s1|s1| |s1 m1 e1], f2 as [s2|s2| |s2 m2 e2]; simpl;
    try reflexivity; try (destruct s1; reflexivity);
    try (destruct s2; reflexivity);
    try (destruct s1, s2; reflexivity).
  assert (Hm : Pos.compare_cont Eq m2 m1 = CompOpp (Pos.compare_cont Eq m1 m2))
    by (symmetry; apply (Pos.compare_cont_antisym m1 m2 Eq)).
  destruct s1, s2; simpl; try reflexivity;
    rewrite (Z.compare_antisym e1 e2), Hm;
    destruct (e1 ?= e2)%Z; simpl; try reflexivity;
    destruct (Pos.compare_cont Eq m1 m2); reflexivity.
Qed.

Lemma SFcompare_refl (f : SpecFloat.spec_float) :
  SpecFloat.SFcompare f f = if SF_is_nan f then None else Some Eq.
Proof.
  destruct f as [s|s| |s m e]; simpl; try reflexivity.
  - by destruct s.
  - destruct s; rewrite Z.compare_refl, Pos.compare_cont_refl; reflexivity.
Qed.

Lemma SFcompare_None (f1 f2 : SpecFloat.spec_float) :
  SpecFloat.SFcompare f1 f2 = None <->
  SF_is_nan f1 = true \/ SF_is_nan f2 = true.
Proof.
  destruct f1 as [s1|s1| |s1 m1 e1], f2 as [s2|s2| |s2 m2 e2]; simpl;
    split; try discriminate; try (intros [?|?]; discriminate); auto.
Qed.

Lemma isnan_spec (a : double) :
  isnan a = SF_is_nan (Prim2SF a).
Proof.
  unfold isnan, PrimFloat.is_nan. rewrite FloatAxioms.eqb_spec.
  unfold SpecFloat.SFeqb. rewrite SFcompare_refl.
  by destruct (SF_is_nan _).
Qed.

(** On doubles that are numbers, [not (a < b)] is [b <= a]. *)
Lemma not_lt_is_ge (a b : double) :
  isnan a = false -> isnan b = false ->
  PrimFloat.ltb a b = false -> double_le b a = true.
Proof.
  rewrite !isnan_spec. unfold double_le.
  rewrite FloatAxioms.ltb_spec, FloatAxioms.leb_spec.
  unfold SpecFloat.SFltb, SpecFloat.SFleb.
  rewrite (SFcompare_antisym (Prim2SF a) (Prim2SF b)).
  intros Ha Hb Hlt.
  destruct (SpecFloat.SFcompare (Prim2SF a) (Prim2SF b)) as [[]|] eqn:Hc;
    simpl in *; try reflexivity; try discriminate.
  apply SFcompare_None in Hc as [Hc|Hc]; congruence.
Qed.

Lemma le_is_not_gt (a b : double) :
  double_le a b = true -> PrimFloat.ltb b a = false.
Proof.
  unfold double_le. rewrite FloatAxioms.ltb_spec, FloatAxioms.leb_spec.
  unfold SpecFloat.SFltb, SpecFloat.SFleb.
  rewrite (SFcompare_antisym (Prim2SF a) (Prim2SF b)).
  intros Hle.
  destruct (SpecFloat.SFcompare (Prim2SF a) (Prim2SF b)) as [[]|];
    simpl in *; try reflexivity; discriminate.
Qed.

Lemma le_is_a_number (a b : double) :
  double_le a b = true -> isnan a = false /\ isnan b = false.
Proof.
  unfold double_le. rewrite FloatAxioms.leb_spec, !isnan_spec.
  unfold SpecFloat.SFleb.
  destruct (SpecFloat.SFcompare (Prim2SF a) (Prim2SF b)) as [c|] eqn:Hc;
    [|discriminate].
  intros _.
  destruct (SF_is_nan (Prim2SF a)) eqn:Ha.
  { assert (SpecFloat.SFcompare (Prim2SF a) (Prim2SF b) = None)
      by (apply SFcompare_None; auto). congruence. }
  destruct (SF_is_nan (Prim2SF b)) eqn:Hb; [|auto].
  assert (SpecFloat.SFcompare (Prim2SF a) (Prim2SF b) = None)
    by (apply SFcompare_None; auto). congruence.
Qed.

Lemma le_refl_number (a : double) : isnan a = false -> double_le a a = true.
Proof.
  rewrite isnan_spec. unfold double_le. rewrite FloatAxioms.leb_spec.
  unfold SpecFloat.SFleb. rewrite SFcompare_refl. by intros ->.
Qed.

Lemma lt_nan (a b : double) :
  isnan a = true \/ isnan b = true -> PrimFloat.ltb a b = false.
Proof.
  rewrite !isnan_spec, FloatAxioms.ltb_spec. unfold SpecFloat.SFltb.
  intros H. apply SFcompare_None in H. by rewrite H.
Qed.

Lemma double_eq_refl_number (a : double) :
  isnan a = false -> double_eq a a = true.
Proof.
  unfold isnan, PrimFloat.is_nan, double_eq. by intros ->%negb_false_iff.
Qed.

(** [std::clamp(v, lo, hi)] for [lo <= hi]: a number is taken into the
    range, a number in the range is left alone, and what is not a number is
    handed back. *)
Lemma double_clamp_spec (v lo hi : double) :
  double_le lo hi = true ->
  (isnan v = false -> double_within lo (double_clamp v lo hi) hi = true) /\
  (double_within lo v hi = true -> double_clamp v lo hi = v) /\
  (isnan v = true -> double_clamp v lo hi = v).
Proof.
  intros Hrange. destruct (le_is_a_number lo hi Hrange) as (Hlo & Hhi).
  unfold double_clamp, double_within. split_all.
  - intros Hv.
    destruct (PrimFloat.ltb v lo) eqn:H1.
    { by rewrite (le_refl_number lo Hlo), Hrange. }
    destruct (PrimFloat.ltb hi v) eqn:H2.
    { by rewrite Hrange, (le_refl_number hi Hhi). }
    by rewrite (not_lt_is_ge v lo Hv Hlo H1), (not_lt_is_ge hi v Hhi Hv H2).
  - intros Hin. apply andb_prop in Hin as [H1 H2].
    by rewrite (le_is_not_gt lo v H1), (le_is_not_gt v hi H2).
  - intros Hv. by rewrite (lt_nan v lo), (lt_nan hi v) by auto.
Qed.

(** X21.  With a virtual screen whose extents are not negative,
    [ClampToVirtualScreen] hands back a size on the virtual screen: each
    component that is a number lies between zero and the extent of the
    screen after the clamp, and a component that lies between them already
    keeps its value. *)
Theorem ClampToVirtualScreen_stays_on_screen (env : Env) (s : flutter.Size) :
  double_le 0%float (flutter.width (virtual_screen env)) = true ->
  double_le 0%float (flutter.height (virtual_screen env)) = true ->
  let r := ClampToVirtualScreen env s in
  on_virtual_screen env r = true /\
  (isnan (flutter.width s) = false ->
   double_within 0%float (flutter.width r)
     (flutter.width (virtual_screen env)) = true) /\
  (isnan (flutter.height s) = false ->
   double_within 0%float (flutter.height r)
     (flutter.height (virtual_screen env)) = true) /\
  (double_within 0%float (flutter.width s)
     (flutter.width (virtual_screen env)) = true ->
   double_eq (flutter.width r) (flutter.width s) = true) /\
  (double_within 0%float (flutter.height s)
     (flutter.height (virtual_screen env)) = true ->
   double_eq (flutter.height r) (flutter.height s) = true).
Proof.
  intros Hw Hh r.
  destruct (double_clamp_spec (flutter.width s) 0%float _ Hw)
    as (Hw1 & Hw2 & Hw3).
  destruct (double_clamp_spec (flutter.height s) 0%float _ Hh)
    as (Hh1 & Hh2 & Hh3).
  unfold r, ClampToVirtualScreen, on_virtual_screen. simpl.
  split_all.
  - apply andb_true_intro. split.
    + destruct (isnan (flutter.width s)) eqn:Hn.
      * by rewrite (Hw3 eq_refl), Hn.
      * rewrite (Hw1 eq_refl). apply orb_true_r.
    + destruct (isnan (flutter.height s)) eqn:Hn.
      * by rewrite (Hh3 eq_refl), Hn.
      * rewrite (Hh1 eq_refl). apply orb_true_r.
  - exact Hw1.
  - exact Hh1.
  - intros Hin. rewrite (Hw2 Hin). apply double_eq_refl_number.
    apply andb_prop in Hin as [Hin _]. by apply le_is_a_number in Hin as [_ ?].
  - intros Hin. rewrite (Hh2 Hin). apply double_eq_refl_number.
    apply andb_prop in Hin as [Hin _]. by apply le_is_a_number in Hin as [_ ?].
Qed.

(** X21 for a size that is too wide and has a negative height, on a screen
    of 1920 by 1080. *)
Lemma ClampToVirtualScreen_stays_on_screen_witness :
  let env := two_popups_env in
  let s := {| flutter.width := 5000%float; flutter.height := (-3)%float |} in
  let r := ClampToVirtualScreen env s in
  on_virtual_screen env r = true /\
  (isnan (flutter.width s) = false ->
   double_within 0%float (flutter.width r)
     (flutter.width (virtual_screen env)) = true) /\
  (isnan (flutter.height s) = false ->
   double_within 0%float (flutter.height r)
     (flutter.height (virtual_screen env)) = true) /\
  (double_within 0%float (flutter.width s)
     (flutter.width (virtual_screen env)) = true ->
   double_eq (flutter.width r) (flutter.width s) = true) /\
  (double_within 0%float (flutter.height s)
     (flutter.height (virtual_screen env)) = true ->
   double_eq (flutter.height r) (flutter.height s) = true).
Proof.
  intros env s.
  apply (ClampToVirtualScreen_stays_on_screen env s); by_evaluation.
Defined.

(** ** The track sizes of WM_GETMINMAXINFO *)

Section Truncation.
Local Open Scope Z_scope.







End Truncation.






(** ** FindFirstEnabledDescendant *)

Lemma in_address_order_spec (s : gset ptr) (q : ptr) :
  q ∈ in_address_order s <-> q ∈ s.
Proof.
  unfold in_address_order. by rewrite merge_sort_Permutation, elem_of_elements.
Qed.

Lemma owned_below_spec (depth : ptr -> nat) (w : World) :
  owned_below depth w = true ->
  forall p e q,
    heap w !! p = Some e -> q ∈ owned_windows_ e ->
    is_Some (heap w !! q) /\ depth q < depth p.
Proof.
  unfold owned_below. rewrite forallb_forall. intros Hall p e q Hp Hq.
  specialize (Hall (p, e)). rewrite <- list_elem_of_In in Hall.
  specialize (Hall ltac:(by apply elem_of_map_to_list)).
  rewrite forallb_forall in Hall. specialize (Hall q).
  rewrite <- list_elem_of_In in Hall.
  specialize (Hall ltac:(by apply elem_of_elements)). simpl in Hall.
  apply andb_prop in Hall as [Hlive Hlt].
  apply bool_decide_eq_true_1 in Hlive. apply Nat.ltb_lt in Hlt. auto.
Qed.

(** More fuel does not change a result. *)
Lemma FindFirstEnabledDescendant_fuel (IsWindowEnabled : HWND -> bool)
    (w : World) (n : nat) :
  forall (m : nat) (this : ptr) (r : option ptr),
  n <= m ->
  FindFirstEnabledDescendant n IsWindowEnabled w this = Some r ->
  FindFirstEnabledDescendant m IsWindowEnabled w this = Some r.
Proof.
  induction n as [|n IH]; intros m this r Hle; [discriminate|].
  destruct m as [|m]; [lia|]. simpl.
  destruct (heap w !! this) as [e|]; [simpl|discriminate].
  destruct (IsWindowEnabled _); [auto|].
  generalize (in_address_order (owned_windows_ e)).
  intros l. induction l as [|q rest IHl]; simpl; [auto|].
  destruct (FindFirstEnabledDescendant n IsWindowEnabled w q) as [rq|] eqn:Hq;
    [|discriminate].
  rewrite (IH m q rq ltac:(lia) Hq). destruct rq; auto.
Qed.

(** The search below a window of depth less than the fuel. *)
Lemma FindFirstEnabledDescendant_searches (IsWindowEnabled : HWND -> bool)
    (w : World) (depth : ptr -> nat) :
  owned_below depth w = true ->
  forall (n : nat) (this : ptr),
  depth this < n ->
  is_Some (heap w !! this) ->
  exists result,
    FindFirstEnabledDescendant n IsWindowEnabled w this = Some result /\
    match result with
    | Some p => descendant w this p /\ enabled_at IsWindowEnabled w p
    | None => forall p, descendant w this p -> ~ enabled_at IsWindowEnabled w p
    end /\
    (enabled_at IsWindowEnabled w this -> result = Some this).
Proof.
  intros Hbelow. pose proof (owned_below_spec depth w Hbelow) as Hforest.
  induction n as [|n IH]; intros this Hdepth [e He]; [lia|].
  simpl. rewrite He. simpl.
  destruct (IsWindowEnabled (FlutterHostWindow.GetWindowHandle e)) eqn:Hen.
  { exists (Some this). split; [reflexivity|]. split; [|reflexivity].
    split; [constructor|]. by exists e. }
  assert (Hthis : ~ enabled_at IsWindowEnabled w this).
  { intros (e' & He' & Hen'). congruence. }
  assert (Hloop : forall l : list ptr,
            (forall q, q ∈ l -> q ∈ owned_windows_ e) ->
            exists result,
              first_found (FindFirstEnabledDescendant n IsWindowEnabled w) l
                = Some result /\
              match result with
              | Some p =>
                  exists q, q ∈ l /\ descendant w q p /\
                            enabled_at IsWindowEnabled w p
              | None =>
                  forall q p, q ∈ l -> descendant w q p ->
                              ~ enabled_at IsWindowEnabled w p
              end).
  { induction l as [|q rest IHl]; intros Hl; simpl.
    - exists None. split; [reflexivity|]. intros q p Hq. by apply elem_of_nil in Hq.
    - destruct (Hforest this e q He (Hl q ltac:(by left))) as (Hlive & Hlt).
      destruct (IH q ltac:(lia) Hlive) as (rq & -> & Hpost & _).
      destruct rq as [p|].
      + exists (Some p). split; [reflexivity|]. exists q.
        split; [by left|]. exact Hpost.
      + destruct IHl as (result & -> & Hrest).
        { intros q' Hq'. apply Hl. by right. }
        exists result. split; [reflexivity|].
        destruct result as [p|].
        * destruct Hrest as (q' & Hq' & Hd & Hp). exists q'.
          split; [by right|]. auto.
        * intros q' p Hq' Hd. apply elem_of_cons in Hq' as [->|Hq'].
          -- by apply Hpost.
          -- by apply (Hrest q'). }
  destruct (Hloop (in_address_order (owned_windows_ e))) as (result & -> & Hpost).
  { intros q Hq. by apply in_address_order_spec. }
  exists result. split; [reflexivity|]. split; [|intros; contradiction].
  destruct result as [p|].
  - destruct Hpost as (q & Hq & Hd & Hp). split; [|exact Hp].
    apply (descendant_owned w this q p e He); [|exact Hd].
    by apply in_address_order_spec.
  - intros p Hd. inversion Hd as [|? q ? e' He' Hq Hd']; subst.
    + exact Hthis.
    + rewrite He in He'. injection He' as <-.
      apply (Hpost q p); [|exact Hd']. by apply in_address_order_spec.
Qed.

(** X23.  [FindFirstEnabledDescendant] on owned sets that form a forest
    (every owned window is live and lies deeper than its owner): the search
    returns once the depth of the recursion may exceed the depth of the
    window, and more depth does not change what it returns.  It returns the
    window itself when that is enabled; otherwise a window that is enabled
    and is reached from it through owned sets; and the null pointer only
    when no window reached from it is enabled. *)
Theorem FindFirstEnabledDescendant_finds_an_enabled_window
    (IsWindowEnabled : HWND -> bool) (w : World) (depth : ptr -> nat)
    (this : ptr) :
  owned_below depth w = true ->
  is_Some (heap w !! this) ->
  exists result,
    (forall fuel, depth this < fuel ->
       FindFirstEnabledDescendant fuel IsWindowEnabled w this = Some result) /\
    match result with
    | Some p => descendant w this p /\ enabled_at IsWindowEnabled w p
    | None => forall p, descendant w this p -> ~ enabled_at IsWindowEnabled w p
    end /\
    (enabled_at IsWindowEnabled w this -> result = Some this).
Proof.
  intros Hbelow Hlive.
  destruct (FindFirstEnabledDescendant_searches IsWindowEnabled w depth Hbelow
              (S (depth this)) this ltac:(lia) Hlive)
    as (result & Hfind & Hpost & Hself).
  exists result. split; [|auto].
  intros fuel Hfuel.
  by apply (FindFirstEnabledDescendant_fuel IsWindowEnabled w (S (depth this))).
Qed.

(** X23 in [two_popups_world], where the popup with the handle [300] is the
    only window that is enabled. *)
Lemma FindFirstEnabledDescendant_finds_an_enabled_window_witness :
  let IsWindowEnabled (h : HWND) := (h =? 300)%N in
  let depth (p : ptr) := if (p =? 1)%positive then 1 else 0 in
  exists result,
    (forall fuel, depth 1%positive < fuel ->
       FindFirstEnabledDescendant fuel IsWindowEnabled two_popups_world
         1%positive = Some result) /\
    match result with
    | Some p =>
        descendant two_popups_world 1%positive p /\
        enabled_at IsWindowEnabled two_popups_world p
    | None =>
        forall p, descendant two_popups_world 1%positive p ->
                  ~ enabled_at IsWindowEnabled two_popups_world p
    end /\
    (enabled_at IsWindowEnabled two_popups_world 1%positive ->
     result = Some 1%positive).
Proof.
  intros IsWindowEnabled depth.
  apply (FindFirstEnabledDescendant_finds_an_enabled_window IsWindowEnabled
           two_popups_world depth 1%positive).
  - by_evaluation.
  - exists (window_at two_popups_world 1%positive). by_evaluation.
Defined.

(** ** A popup from construction to its destroy notification *)

(** X24.  Linking and unlinking are inverse to each other.  When a popup has
    been constructed for an owner whose entity is found through its handle,
    and the lifecycle manager leaves the destroy notification of the popup
    alone, that notification is handled and leaves the owner with the owned
    set and the popup count it had before the construction. *)
Theorem popup_construction_is_undone_by_its_destroy_notification (env : Env)
    (w w1 : World) (this owner : ptr) (settings : WindowCreationSettings.t)
    (e oe : FlutterHostWindow) (wparam : WPARAM) (lparam : LPARAM) :
  heap w !! this = None ->
  FlutterHostWindow.constructor env w this settings = Some w1 ->
  heap w1 !! this = Some e ->
  window_handle_ e <> 0%N ->
  WindowCreationSettings.archetype settings = kPopup ->
  GetThisFromHandle w (FlutterHostWindow.owner_of env settings) = Some owner ->
  heap w !! owner = Some oe ->
  this ∉ owned_windows_ oe ->
  num_owned_popups_ oe <> size_t_max ->
  (0 <= num_owned_popups_ oe)%Z ->
  lifecycle_WindowProc env (window_handle_ e) Win32.WM_DESTROY wparam lparam
    = false ->
  exists w2 r oe2,
    FlutterHostWindow.HandleMessage env w1 this (window_handle_ e)
      Win32.WM_DESTROY wparam lparam = Some (w2, r) /\
    heap w2 !! owner = Some oe2 /\
    owned_windows_ oe2 = owned_windows_ oe /\
    num_owned_popups_ oe2 = num_owned_popups_ oe.
Proof.
  intros Hfree Hc He Hh Hpopup Hown Hoe Hnotin Hmax Hnonneg Hlc.
  destruct (constructor_realized env w w1 this settings e Hc He Hh)
    as (Ha & _ & w2 & w3 & Hheap2 & Hprop2 & Hlink & Hheap1).
  destruct (constructor_success env w w1 this settings e Hc He Hh)
    as (_ & _ & _ & _ & _ & Hprop1 & Hgw1).
  simpl in Hgw1.
  assert (Hne : owner <> this) by (intros ->; congruence).
  unfold GetThisFromHandle in Hown.
  destruct (FlutterHostWindow.owner_of env settings =? 0)%N eqn:Hnull;
    [discriminate|].
  (* the owner after the construction *)
  unfold FlutterHostWindow.link_to_owner, GetThisFromHandle in Hlink.
  rewrite Hnull, Hprop2 in Hlink.
  destruct (decide (window_handle_ e = FlutterHostWindow.owner_of env settings))
    as [Hsame|Hdiff].
  { rewrite Hsame, lookup_insert_eq in Hlink. simpl in Hlink.
    rewrite Hheap2, Hfree in Hlink. discriminate. }
  rewrite lookup_insert_ne, Hown in Hlink by exact Hdiff.
  rewrite Hheap2, Hoe in Hlink. simpl in Hlink.
  rewrite Hpopup in Hlink. simpl in Hlink. injection Hlink as <-.
  set (oe1 := FlutterHostWindow.set_num_owned_popups_
                (size_t_inc (num_owned_popups_ oe))
                (FlutterHostWindow.set_owned_windows_
                   ({[this]} ∪ owned_windows_ oe) oe)) in *.
  assert (Hoe1 : heap w1 !! owner = Some oe1).
  { rewrite Hheap1, lookup_insert_ne by auto.
    unfold store, with_heap; simpl. apply lookup_insert_eq. }
  assert (Hinc : num_owned_popups_ oe1 = (num_owned_popups_ oe + 1)%Z).
  { simpl. unfold size_t_inc.
    destruct (Z.eqb_spec (num_owned_popups_ oe) size_t_max);
      [contradiction|reflexivity]. }
  (* the popup finds its owner *)
  assert (Ho : FlutterHostWindow.GetOwnerWindow w1 e = Some owner).
  { unfold FlutterHostWindow.GetOwnerWindow, GetWindow_GW_OWNER,
      GetThisFromHandle.
    apply N.eqb_neq in Hh. rewrite Hh, Hgw1, lookup_insert_eq. simpl.
    rewrite Hnull. simpl. rewrite Hprop1, lookup_insert_ne by exact Hdiff.
    exact Hown. }
  destruct (popup_destroy_step env w1 this owner e oe1 wparam lparam He
              ltac:(by rewrite Ha) Hh Ho Hoe1 ltac:(lia) Hlc)
    as (w4 & r & Hstep & _ & _ & Hheap4).
  exists w4, r. eexists. split; [exact Hstep|].
  split; [rewrite Hheap4; apply lookup_insert_eq|].
  simpl. split.
  - apply set_eq. intros p.
    rewrite elem_of_difference, elem_of_union, elem_of_singleton.
    split; [intros [[->|Hp] Hnot]; [contradiction|exact Hp]|].
    intros Hp. split; [by right|]. intros ->. contradiction.
  - unfold size_t_inc.
    destruct (Z.eqb_spec (num_owned_popups_ oe) size_t_max);
      [contradiction|lia].
Qed.

(** X24 for the first popup of the regular window of [owner_world]. *)
Lemma popup_construction_is_undone_by_its_destroy_notification_witness :
  let env := env_for 200%N in
  let settings := popup_settings 7%Z (Size_of 200%float 100%float) in
  let w1 :=
    default empty_world
      (FlutterHostWindow.constructor env owner_world 2%positive settings) in
  let e := window_at w1 2%positive in
  let oe := window_at owner_world 1%positive in
  exists w2 r oe2,
    FlutterHostWindow.HandleMessage env w1 2%positive (window_handle_ e)
      Win32.WM_DESTROY 0%Z 0%Z = Some (w2, r) /\
    heap w2 !! 1%positive = Some oe2 /\
    owned_windows_ oe2 = owned_windows_ oe /\
    num_owned_popups_ oe2 = num_owned_popups_ oe.
Proof.
  intros env settings w1 e oe.
  apply (popup_construction_is_undone_by_its_destroy_notification env
           owner_world w1 2%positive 1%positive settings e oe 0%Z 0%Z);
    by_evaluation.
Defined.

(** ** The window size for a client size *)

















(** ** Shutdown, to the end *)




